(** * Credential and presentation converters (src/converters.ts)

    A shallow embedding of the four converters of [src/converters.ts]
    ([normalizeCredential], [transformCredentialInput],
    [normalizePresentation], [transformPresentationInput]) and of the
    private helpers they are built from, together with the part of the
    JavaScript semantics they rely on: property access, truthiness,
    object spread, [Set] de-duplication and the [Date] time arithmetic
    of ECMAScript.

    Values are trees; a converter is a function from its argument to an
    [outcome] (a result or an exception). The converters build their
    result in a copy of the argument and write to the copy, with one
    exception: [attestationToVcFormat] writes to the object it is given.
    The functions on that path therefore also return their argument as
    the call leaves it. *)

From Stdlib Require Import ZArith Ascii String List Lia.
From stdpp Require Import gmap strings list fin_maps pretty.

#[local] Set Warnings "-register-all".

(** ** JavaScript values

    Payloads are JSON values extended with [undefined]. Numbers are the
    integers (the time claims [iat], [nbf] and [exp] count seconds). An
    object is a finite map from its own property names to values: a key
    bound to [VUndefined] is an own property whose value is [undefined],
    which the source tells apart from an absent key through
    [Object.getOwnPropertyNames]. Prototype chains, [Date] instances and
    sharing of one object between two places of a payload are outside
    this type. *)

Inductive value : Type :=
| VUndefined
| VNull
| VBool (b : bool)
| VNum (n : Z)
| VStr (s : string)
| VArr (l : list value)
| VObj (m : gmap string value).

Abbreviation obj := (gmap string value).

Module JS.

(** [ToBoolean]. *)
Definition truthy (v : value) : bool :=
  match v with
  | VUndefined | VNull => false
  | VBool b => b
  | VNum n => negb (n =? 0)%Z
  | VStr s => match s with EmptyString => false | String _ _ => true end
  | VArr _ | VObj _ => true
  end.

(** [a || b] on values. *)
Definition orElse (a b : value) : value := if truthy a then a else b.

(** [typeof v === 'undefined'] and [typeof v === 'object']; [null] and
    arrays have type ['object']. *)
Definition is_undefined (v : value) : bool :=
  match v with VUndefined => true | _ => false end.

Definition typeof_object (v : value) : bool :=
  match v with VNull | VArr _ | VObj _ => true | _ => false end.

Definition typeof_string (v : value) : bool :=
  match v with VStr _ => true | _ => false end.

Definition isArray (v : value) : bool :=
  match v with VArr _ => true | _ => false end.

(** [v.k] and [v?.k] for the property names the source reads
    ([credentialSubject], [id], [type], ['@context'], [jwt], ...): none
    of them is an index, [length] or a member of the [Array], [String],
    [Number] or [Boolean] prototype, so the read yields [undefined] on
    anything but an object owning the key. Reading from [null] or
    [undefined] without [?.] throws; the callers below guard it. *)
Definition get (v : value) (k : string) : value :=
  match v with
  | VObj m => default VUndefined (m !! k)
  | _ => VUndefined
  end.

(** [Object.getOwnPropertyNames(o).indexOf(k) === -1]. *)
Definition lacks (o : obj) (k : string) : bool :=
  match o !! k with None => true | Some _ => false end.

(** The own enumerable properties copied by [{...v}]: those of an
    object, the indices of an array or of a string, nothing for the
    other primitives, [null] and [undefined]. *)
Definition index_props (l : list value) : obj :=
  list_to_map (imap (fun i x => (pretty i, x)) l).

Definition chars (s : string) : list value :=
  map (fun c => VStr (String c EmptyString)) (list_ascii_of_string s).

Definition spread (v : value) : obj :=
  match v with
  | VObj m => m
  | VArr l => index_props l
  | VStr s => index_props (chars s)
  | _ => ∅
  end.

(** [{...a, ...b}]: the right operand wins. *)
Definition spread2 (a b : value) : obj := spread b ∪ spread a.

(** [asArray]. *)
Definition asArray (input : value) : list value :=
  match input with
  | VArr l => l
  | _ => [input]
  end.

(** [notEmpty]. *)
Definition notEmpty (v : value) : bool :=
  match v with VUndefined | VNull => false | _ => true end.

(** [SameValueZero], the equality of [Set]: primitives by value, objects
    and arrays by identity. Two array entries that are objects are two
    objects, hence never the same. *)
Definition sameValueZero (a b : value) : bool :=
  match a, b with
  | VUndefined, VUndefined => true
  | VNull, VNull => true
  | VBool x, VBool y => Bool.eqb x y
  | VNum x, VNum y => (x =? y)%Z
  | VStr x, VStr y => String.eqb x y
  | _, _ => false
  end.

(** [[...new Set(l)]]: the first occurrence of every element, in order. *)
Fixpoint newSet (l : list value) : list value :=
  match l with
  | [] => []
  | x :: l' => x :: List.filter (fun y => negb (sameValueZero x y)) (newSet l')
  end.

(** [[...asArray(a), ...asArray(b)].filter(notEmpty)] made unique, the
    pattern of every type, context and audience union of the source. *)
Definition union2 (a b : value) : value :=
  VArr (newSet (List.filter notEmpty (asArray a ++ asArray b))).

Definition union3 (a b c : value) : value :=
  VArr (newSet (List.filter notEmpty (asArray a ++ asArray b ++ asArray c))).

(** [Object.keys(v).length === 0] for a truthy [v]. *)
Definition noKeys (v : value) : bool :=
  match v with
  | VObj m => Nat.eqb (size m) 0
  | VArr l => Nat.eqb (length l) 0
  | VStr s => Nat.eqb (String.length s) 0
  | _ => true
  end.

(** [delete v.k] and [delete v?.k]: removes an own property of an
    object; on any other value (for the names used) nothing happens. *)
Definition delete_prop (k : string) (v : value) : value :=
  match v with
  | VObj m => VObj (delete k m)
  | _ => v
  end.

End JS.

(** ** [deepCopy], [cleanUndefined] *)

(** [deepCopy] rebuilds arrays and objects recursively and returns
    primitives, [null] and [undefined] as they are. Every key of an
    object becomes an own property of the copy. That is what the
    assignment of line 42 does for every key but [__proto__], which it
    hands to the setter of [Object.prototype]: [Proto.deepCopy] below
    follows the source there. The two functions agree on the values
    that hold no such key ([protoFree], [deepCopy_faithful]). *)
Fixpoint deepCopy (v : value) : value :=
  match v with
  | VArr l => VArr (map deepCopy l)
  | VObj m => VObj (deepCopy <$> m)
  | _ => v
  end.

(** [cleanUndefined] on an object: a shallow copy without the keys whose
    value is [undefined]. *)
Definition cleanUndefined (o : obj) : obj :=
  filter (fun kv => JS.is_undefined kv.2 = false) o.

(** The size of a value, the measure of the induction on values. *)
Fixpoint vsize (v : value) : nat :=
  match v with
  | VArr l => S (list_sum (map vsize l))
  | VObj m => S (map_fold (fun _ x acc => vsize x + acc) 0 m)
  | _ => 1
  end.

(** ** Exceptions and results *)

Inductive exn : Type :=
| TypeError (msg : string)   (** [throw new TypeError(msg)] of the source *)
| Error (msg : string)       (** [throw Error(msg)] of the source *)
| RuntimeTypeError           (** raised by the engine: a property of [null]
                                 or [undefined] is read or written, or a
                                 property of a primitive is written *)
| RangeError.                (** [toISOString] of an invalid date *)

(** A call either returns, or throws, or completes with a value that
    [value] has no term for: an array that carries named properties. *)
Inductive outcome (A : Type) : Type :=
| Return (a : A)
| Throw (e : exn)
| ArrayWithProps.

Arguments Return {A} a.
Arguments Throw {A} e.
Arguments ArrayWithProps {A}.

Definition bind {A B} (x : outcome A) (f : A -> outcome B) : outcome B :=
  match x with
  | Return a => f a
  | Throw e => Throw e
  | ArrayWithProps => ArrayWithProps
  end.

Notation "x <- e1 ;; e2" := (bind e1 (fun x => e2))
  (at level 100, e1 at next level, right associativity).

(** ** Time values and dates (ECMAScript, Date objects)

    A time value is a number of milliseconds since the epoch; [None]
    stands for [NaN], the time value of an invalid date. The day and
    year arithmetic is that of the language definition, over [Z] with
    floor division. *)

Module JSDate.

#[local] Open Scope Z_scope.

Definition msPerDay : Z := 86400000.
Definition maxTime : Z := 8640000000000000.

(** [TimeClip]. *)
Definition TimeClip (t : Z) : option Z :=
  if Z.abs t <=? maxTime then Some t else None.

Definition isLeap (y : Z) : bool :=
  ((y mod 4 =? 0) && negb (y mod 100 =? 0)) || (y mod 400 =? 0).

Definition leapDay (y : Z) : Z := if isLeap y then 1 else 0.

Definition DaysInYear (y : Z) : Z := 365 + leapDay y.

Definition DayFromYear (y : Z) : Z :=
  365 * (y - 1970) + (y - 1969) / 4 - (y - 1901) / 100 + (y - 1601) / 400.

(** [YearFromTime] on day numbers: the largest year that starts on or
    before day [d]. The mean year of 146097/400 days gives an estimate
    that is off by one at most. *)
Definition YearFromDay (d : Z) : Z :=
  let y := 1970 + (400 * d) / 146097 in
  if d <? DayFromYear y then y - 1
  else if DayFromYear (y + 1) <=? d then y + 1
  else y.

(** Days of the year before month [m] (0 for January, ..., 11 for
    December; 12 gives the length of the year). *)
Definition daysBefore (leap : Z) (m : Z) : Z :=
  match m with
  | 0 => 0
  | 1 => 31
  | 2 => 59 + leap
  | 3 => 90 + leap
  | 4 => 120 + leap
  | 5 => 151 + leap
  | 6 => 181 + leap
  | 7 => 212 + leap
  | 8 => 243 + leap
  | 9 => 273 + leap
  | 10 => 304 + leap
  | 11 => 334 + leap
  | _ => 365 + leap
  end.

(** [MonthFromTime] on the day within the year. *)
Definition MonthFromDay (leap : Z) (diy : Z) : Z :=
  if diy <? 31 then 0
  else if diy <? 59 + leap then 1
  else if diy <? 90 + leap then 2
  else if diy <? 120 + leap then 3
  else if diy <? 151 + leap then 4
  else if diy <? 181 + leap then 5
  else if diy <? 212 + leap then 6
  else if diy <? 243 + leap then 7
  else if diy <? 273 + leap then 8
  else if diy <? 304 + leap then 9
  else if diy <? 334 + leap then 10
  else 11.

Definition DaysInMonth (y : Z) (m : Z) : Z :=
  daysBefore (leapDay y) (m + 1) - daysBefore (leapDay y) m.

(** [MakeDay] for a month in 0..11 and [MakeDate]/[MakeTime]. *)
Definition MakeDay (y m date : Z) : Z :=
  DayFromYear y + daysBefore (leapDay y) m + date - 1.

Definition MakeTime (h mi s ms : Z) : Z :=
  h * 3600000 + mi * 60000 + s * 1000 + ms.

Definition MakeDate (day time : Z) : Z := day * msPerDay + time.

(** *** Decimal fields *)

Definition digitChar (d : Z) : ascii :=
  match d with
  | 0 => "0" | 1 => "1" | 2 => "2" | 3 => "3" | 4 => "4"
  | 5 => "5" | 6 => "6" | 7 => "7" | 8 => "8" | _ => "9"
  end%char.

Definition digitVal (c : ascii) : option Z :=
  (if Ascii.eqb c "0" then Some 0
   else if Ascii.eqb c "1" then Some 1
   else if Ascii.eqb c "2" then Some 2
   else if Ascii.eqb c "3" then Some 3
   else if Ascii.eqb c "4" then Some 4
   else if Ascii.eqb c "5" then Some 5
   else if Ascii.eqb c "6" then Some 6
   else if Ascii.eqb c "7" then Some 7
   else if Ascii.eqb c "8" then Some 8
   else if Ascii.eqb c "9" then Some 9
   else None)%char.

(** [n] written with exactly [w] digits, for [0 <= n < 10 ^ w]. *)
Fixpoint digits (w : nat) (n : Z) : string :=
  match w with
  | O => EmptyString
  | S w' =>
      String (digitChar (n / 10 ^ Z.of_nat w')) (digits w' (n mod 10 ^ Z.of_nat w'))
  end.

(** Reads exactly [w] digits from the front of [s]. *)
Fixpoint readDigits (w : nat) (acc : Z) (s : string) : option (Z * string) :=
  match w with
  | O => Some (acc, s)
  | S w' =>
      match s with
      | String c s' =>
          match digitVal c with
          | Some d => readDigits w' (10 * acc + d) s'
          | None => None
          end
      | EmptyString => None
      end
  end.

Definition expect (c : ascii) (s : string) : option string :=
  match s with
  | String c' s' => if Ascii.eqb c c' then Some s' else None
  | EmptyString => None
  end.

(** *** [Date.prototype.toISOString]

    [YYYY-MM-DDTHH:mm:ss.sssZ]; years outside 0..9999 are written with a
    sign and six digits. The argument is a valid time value. *)
Definition yearString (y : Z) : string :=
  if (0 <=? y) && (y <=? 9999) then digits 4 y
  else String (if y <? 0 then "-"%char else "+"%char) (digits 6 (Z.abs y)).

Definition isoString (t : Z) : string :=
  let d := t / msPerDay in
  let r := t mod msPerDay in
  let y := YearFromDay d in
  let diy := d - DayFromYear y in
  let m := MonthFromDay (leapDay y) diy in
  let date := diy - daysBefore (leapDay y) m + 1 in
  yearString y +:+ String "-"%char (digits 2 (m + 1)
    +:+ String "-"%char (digits 2 date
    +:+ String "T"%char (digits 2 (r / 3600000)
    +:+ String ":"%char (digits 2 ((r / 60000) mod 60)
    +:+ String ":"%char (digits 2 ((r / 1000) mod 60)
    +:+ String "."%char (digits 3 (r mod 1000) +:+ "Z")))))).

(** [new Date(t).toISOString()]: a [RangeError] ([None]) when [t] is out
    of the range of time values. *)
Definition toISOString (t : Z) : option string :=
  match TimeClip t with
  | Some t => Some (isoString t)
  | None => None
  end.

(** *** [Date.parse] on the format written by [toISOString]

    [parseISO s] is [None] when [s] is not of that format with calendar
    fields in range (what [Date.parse] does then is left to the engine);
    otherwise it is the time value, [NaN] beyond the range of time
    values. *)
Definition readYear (s : string) : option (Z * string) :=
  match s with
  | String "+"%char s' => readDigits 6 0 s'
  | String "-"%char s' =>
      match readDigits 6 0 s' with
      | Some (y, s'') => if y =? 0 then None else Some (- y, s'')
      | None => None
      end
  | _ => readDigits 4 0 s
  end.

Definition parseISO (s : string) : option (option Z) :=
  '(y, s) ← readYear s;
  s ← expect "-"%char s;
  '(mo, s) ← readDigits 2 0 s;
  s ← expect "-"%char s;
  '(date, s) ← readDigits 2 0 s;
  s ← expect "T"%char s;
  '(h, s) ← readDigits 2 0 s;
  s ← expect ":"%char s;
  '(mi, s) ← readDigits 2 0 s;
  s ← expect ":"%char s;
  '(sec, s) ← readDigits 2 0 s;
  s ← expect "."%char s;
  '(ms, s) ← readDigits 3 0 s;
  s ← expect "Z"%char s;
  match s with
  | EmptyString =>
      if (1 <=? mo) && (mo <=? 12) && (1 <=? date) && (date <=? DaysInMonth y (mo - 1))
         && (h <=? 23) && (mi <=? 59) && (sec <=? 59)
      then Some (TimeClip (MakeDate (MakeDay y (mo - 1) date) (MakeTime h mi sec ms)))
      else None
  | String _ _ => None
  end.

End JSDate.

(** ** Constants and injected capabilities

    [constants.ts] and the [did-jwt] decoder are not part of the
    sources at hand. *)

(** Modelled from the spec: the constant [DEFAULT_VC_TYPE] of
    [constants.ts], the default base credential type literal, given as
    [VerifiableCredential]. *)
Definition DEFAULT_VC_TYPE : string := "VerifiableCredential".

(** Modelled from the spec: the constant [DEFAULT_JWT_PROOF_TYPE] of
    [constants.ts], the default proof type string, [JwtProof2020]. *)
Definition DEFAULT_JWT_PROOF_TYPE : string := "JwtProof2020".

(** What the converters take from their environment.
    - [decodeJWT jwt] is the [payload] of [decodeJWT(jwt)], [None] when
      the decoder throws.
    - [JSON_parse s] is [JSON.parse(s)], [None] when it throws; a text
      that denotes a string is longer than that string.
    - [JWT_FORMAT s] is [JWT_FORMAT.test(s)].
    - [DEFAULT_CONTEXT] is the base context URI of [constants.ts].
    - [Date_parse_other v] is [Date.parse(v)] for a [v] that is not a
      string in the format of [toISOString] (the result is left to the
      engine by the language definition), [None] for [NaN].
    - [time_of_other v] is the time value of [new Date(v * 1000)] for a
      [v] that is not a number, [None] for an invalid date. *)
Record Host : Type := {
  decodeJWT : value -> option value;
  JSON_parse : string -> option value;
  JWT_FORMAT : string -> bool;
  DEFAULT_CONTEXT : string;
  Date_parse_other : value -> option Z;
  time_of_other : value -> option Z;
  JSON_parse_shrinks : forall s s',
    JSON_parse s = Some (VStr s') -> (String.length s' < String.length s)%nat
}.

(** Modelled from the spec: the pattern [JWT_FORMAT] of [constants.ts],
    three dot-separated base64url segments of which the first two are
    not empty and the third (the signature) may be:
    [^[A-Za-z0-9_-]+\.[A-Za-z0-9_-]+\.[A-Za-z0-9_-]*$]. *)
Module JwtPattern.

Definition base64url (c : ascii) : bool :=
  let n := nat_of_ascii c in
  ((65 <=? n) && (n <=? 90) || (97 <=? n) && (n <=? 122)
   || (48 <=? n) && (n <=? 57) || (n =? 95) || (n =? 45))%nat.

(** Splits off the longest prefix of base64url characters. *)
Fixpoint segment (s : string) : string * string :=
  match s with
  | String c s' =>
      if base64url c then let '(a, b) := segment s' in (String c a, b)
      else (EmptyString, s)
  | EmptyString => (EmptyString, EmptyString)
  end.

Definition nonEmpty (s : string) : bool :=
  match s with EmptyString => false | String _ _ => true end.

Definition test (s : string) : bool :=
  let '(a, r1) := segment s in
  match r1 with
  | String "."%char r1' =>
      let '(b, r2) := segment r1' in
      match r2 with
      | String "."%char r2' =>
          let '(_, r3) := segment r2' in
          nonEmpty a && nonEmpty b && negb (nonEmpty r3)
      | _ => false
      end
  | _ => false
  end.

End JwtPattern.

(** ** The converters *)

Section Converters.

Context (host : Host).

Import JS.

#[local] Open Scope Z_scope.

(** [o.k] on an object given by its own properties. *)
Definition prop (o : obj) (k : string) : value := get (VObj o) k.

(** [deepCopy] of an object, as a map of own properties. *)
Definition deepCopyObj (o : obj) : obj := deepCopy <$> o.

(** [Date.parse(v)]. *)
Definition Date_parse (v : value) : option Z :=
  match v with
  | VStr s =>
      match JSDate.parseISO s with
      | Some t => t
      | None => Date_parse_other host v
      end
  | _ => Date_parse_other host v
  end.

(** [new Date(v * 1000).toISOString()]. *)
Definition isoOfSeconds (v : value) : outcome string :=
  let time :=
    match v with
    | VNum n => Some (n * 1000)
    | _ => time_of_other host v
    end in
  match time ≫= JSDate.toISOString with
  | Some s => Return s
  | None => Throw RangeError
  end.

(** [target.k = v]: writes an own property of an object; throws on
    [null], [undefined] and, the module being strict code, on a
    primitive; on an array the property is added to the array itself. *)
Definition assign (target : value) (k : string) (v : value) : outcome value :=
  match target with
  | VObj m => Return (VObj (<[k := v]> m))
  | VArr _ => ArrayWithProps
  | _ => Throw RuntimeTypeError
  end.

(** *** Legacy attestations *)

Definition isLegacyAttestationFormat (payload : value) : bool :=
  match payload with
  | VObj _ | VArr _ =>
      truthy (get payload "sub") && truthy (get payload "iss")
      && truthy (get payload "claim") && truthy (get payload "iat")
  | _ => false
  end.

(** [attestationToVcFormat payload] returns the payload as the call
    leaves it (the function writes [issVc] to its argument) and the
    result. *)
Definition attestationToVcFormat (payload : obj) : obj * obj :=
  let iat := prop payload "iat" in
  let nbf := prop payload "nbf" in
  let vc := prop payload "vc" in
  let rest := delete "vc" (delete "claim" (delete "nbf" (delete "iat" payload))) in
  let result :=
    <["vc" := VObj (<["credentialSubject" := prop payload "claim"]>
                     (<["type" := VArr [VStr DEFAULT_VC_TYPE]]>
                       {["@context" := VArr [VStr (DEFAULT_CONTEXT host)]]}))]>
      (<["nbf" := if truthy nbf then nbf else iat]> rest) in
  (if truthy vc then <["issVc" := vc]> payload else payload, result).

(** *** [normalizeJwtCredentialPayload], block by block

    [input] is the argument, [result] the object under construction,
    given by its own properties. *)

(** Lines 91-96: the subject. *)
Definition subjectStep (input : value) (result : obj) : obj :=
  let merged :=
    spread2 (get input "credentialSubject") (get (get input "vc") "credentialSubject") in
  let result := <["credentialSubject" := VObj merged]> result in
  let result :=
    if truthy (get input "sub") && negb (truthy (get (get input "credentialSubject") "id"))
    then delete "sub"
           (<["credentialSubject" := VObj (<["id" := get input "sub"]> merged)]> result)
    else result in
  alter (delete_prop "credentialSubject") "vc" result.

(** Lines 98-103: the issuer. *)
Definition issuerStep (input : value) (result : obj) : obj :=
  let issuer := get input "issuer" in
  if is_undefined issuer || typeof_object issuer then
    let result :=
      <["issuer" := VObj (cleanUndefined (spread issuer ∪ {["id" := get input "iss"]}))]>
        result in
    if negb (truthy (get issuer "id")) then delete "iss" result else result
  else result.

(** Lines 105-108: [jti] to [id]. *)
Definition idStep (input : value) (result : obj) : obj :=
  if negb (truthy (get input "id")) && truthy (get input "jti") then
    delete "jti" (<["id" := orElse (prop result "id") (prop result "jti")]> result)
  else result.

(** Lines 110-112: the types, read from [result]. *)
Definition typeStep (result : obj) : obj :=
  alter (delete_prop "type") "vc"
    (<["type" := union2 (prop result "type") (get (prop result "vc") "type")]> result).

(** Lines 114-121 (and 301-308 with [vp]): the contexts, read from
    [input]. *)
Definition contextStep (envelope : string) (input : value) (result : obj) : obj :=
  alter (delete_prop "@context") envelope
    (delete "context"
      (<["@context" := union3 (get input "context") (get input "@context")
                         (get (get input envelope) "@context")]> result)).

(** Lines 123-130: [nbf] or [iat] to [issuanceDate]. *)
Definition issuanceStep (input : value) (result : obj) : outcome obj :=
  if negb (truthy (get input "issuanceDate"))
     && (truthy (get input "iat") || truthy (get input "nbf")) then
    s <- isoOfSeconds (orElse (get input "nbf") (get input "iat"));;
    let result := <["issuanceDate" := VStr s]> result in
    Return (if truthy (get input "nbf") then delete "nbf" result else delete "iat" result)
  else Return result.

(** Lines 132-135: [exp] to [expirationDate]. *)
Definition expirationStep (input : value) (result : obj) : outcome obj :=
  if negb (truthy (get input "expirationDate")) && truthy (get input "exp") then
    s <- isoOfSeconds (get input "exp");;
    Return (delete "exp" (<["expirationDate" := VStr s]> result))
  else Return result.

(** Lines 137-139 (and 324-326 with [vp]): an envelope left without
    keys is removed. *)
Definition dropEmpty (k : string) (result : obj) : obj :=
  if truthy (prop result k) && noKeys (prop result k) then delete k result else result.

Definition credentialSteps (input : value) (result : obj) : outcome obj :=
  let result := subjectStep input result in
  let result := issuerStep input result in
  let result := idStep input result in
  let result := typeStep result in
  let result := contextStep "vc" input result in
  result <- issuanceStep input result;;
  result <- expirationStep input result;;
  Return (dropEmpty "vc" result).

(** The range condition of the two date blocks: the claims they convert
    denote valid dates, so that [toISOString] does not throw. *)
Definition convertible (v : value) : bool :=
  match isoOfSeconds v with Return _ => true | _ => false end.

Definition datesConvert (input : value) : bool :=
  (if negb (truthy (get input "issuanceDate"))
      && (truthy (get input "iat") || truthy (get input "nbf"))
   then convertible (orElse (get input "nbf") (get input "iat")) else true)
  && (if negb (truthy (get input "expirationDate")) && truthy (get input "exp")
      then convertible (get input "exp") else true).

(** [normalizeJwtCredentialPayload input] returns [input] as the call
    leaves it, and the outcome. The result is given by its own
    properties: both callers spread it into a fresh object. An array
    argument is an object whose own properties are its indices; reading
    a property of [null] or [undefined], or writing one to a primitive,
    throws at line 91. *)
Definition normalizeJwtCredentialPayload (input : value) : value * outcome obj :=
  match input with
  | VObj m =>
      let '(m', result) :=
        if isLegacyAttestationFormat input then attestationToVcFormat m
        else (m, spread (deepCopy input)) in
      (VObj m', credentialSteps (VObj m') result)
  | VArr _ => (input, credentialSteps input (spread (deepCopy input)))
  | _ => (input, Throw RuntimeTypeError)
  end.

Definition normalizeJwtCredential (input : value) : outcome obj :=
  match decodeJWT host input with
  | None => Throw (TypeError "unknown credential format")
  | Some payload =>
      result <- snd (normalizeJwtCredentialPayload payload);;
      Return (<["proof" := VObj (<["jwt" := input]>
                                   {["type" := VStr DEFAULT_JWT_PROOF_TYPE]})]> result)
  end.

(** [normalizeCredential] on an input that is not a string (lines
    183-190). *)
Definition normalizeCredentialValue (input : value) : value * outcome obj :=
  match input with
  | VUndefined | VNull => (input, Throw RuntimeTypeError)
  | _ =>
      let proof := get input "proof" in
      if truthy (get proof "jwt") then
        (input,
         result <- normalizeJwtCredential (get proof "jwt");;
         Return (deepCopyObj (<["proof" := proof]> result)))
      else
        let '(input', r) := normalizeJwtCredentialPayload input in
        (input', result <- r;; Return (result ∪ {["proof" := VObj ∅]}))
  end.

(** [normalizeCredential] on a string (lines 171-182). The function
    calls itself on [JSON.parse(input)]; when that is a string again it
    is shorter than [input], so the length of the first string bounds
    the calls ([fuel] does not run out, see
    [normalizeCredentialString_fuel]). *)
Fixpoint normalizeCredentialString (fuel : nat) (input : string) : outcome obj :=
  if JWT_FORMAT host input then normalizeJwtCredential (VStr input)
  else
    match JSON_parse host input with
    | None => Throw (TypeError "unknown credential format")
    | Some (VStr parsed) =>
        match fuel with
        | O => Throw RangeError
        | S fuel' => normalizeCredentialString fuel' parsed
        end
    | Some parsed => snd (normalizeCredentialValue parsed)
    end.

(** [normalizeCredential input]: [input] as the call leaves it, and the
    outcome. *)
Definition normalizeCredential (input : value) : value * outcome obj :=
  match input with
  | VStr s => (input, normalizeCredentialString (String.length s) s)
  | _ => normalizeCredentialValue input
  end.

(** *** [transformCredentialInput] and the blocks it shares with
    [transformPresentationInput]

    [envelope] is ["vc"] or ["vp"]. *)

(** [deepCopy({ vc: { ...input.vc }, ...input })] (lines 209, 385). *)
Definition seedResult (envelope : string) (input : obj) : obj :=
  deepCopyObj (input ∪ {[envelope := VObj (spread (prop input envelope))]}).

(** [result.vc.k = v], an update in place of the envelope. *)
Definition assignIn (envelope k : string) (v : value) (result : obj) : outcome obj :=
  e <- assign (prop result envelope) k v;;
  Return (<[envelope := e]> result).

(** Lines 219-230 and 387-398: contexts and types. *)
Definition contextTypeStep (envelope : string) (input result : obj) : outcome obj :=
  result <- assignIn envelope "@context"
              (union3 (prop input "context") (prop input "@context")
                 (get (prop input envelope) "@context")) result;;
  let result := delete "@context" (delete "context" result) in
  result <- assignIn envelope "type"
              (union2 (prop input "type") (get (prop input envelope) "type")) result;;
  Return (delete "type" result).

(** Lines 232-235 and 400-403: [id] to [jti]. *)
Definition jtiStep (input result : obj) : obj :=
  if truthy (prop input "id") && lacks input "jti" then
    delete "id" (<["jti" := prop input "id"]> result)
  else result.

(** Lines 237-251 and 405-419: a date to seconds; a date that does not
    parse is left where it is. *)
Definition secondsStep (date claim : string) (input result : obj) : obj :=
  if truthy (prop input date) && lacks input claim then
    match Date_parse (prop input date) with
    | Some converted => delete date (<[claim := VNum (converted / 1000)]> result)
    | None => result
    end
  else result.

(** Lines 253-266: the issuer. *)
Definition issStep (input result : obj) : obj :=
  let issuer := prop input "issuer" in
  if truthy issuer && lacks input "iss" then
    if typeof_object issuer then
      let result := alter (delete_prop "id") "issuer" (<["iss" := get issuer "id"]> result) in
      if noKeys (prop result "issuer") then delete "issuer" result else result
    else if typeof_string issuer then
      delete "issuer" (<["iss" := orElse (prop input "iss") issuer]> result)
    else result
  else result.

Definition transformCredentialInput (input : obj) : outcome obj :=
  if isArray (prop input "credentialSubject") then
    Throw (Error "credentialSubject of type array not supported")
  else
    let result := seedResult "vc" input in
    let credentialSubject :=
      spread2 (prop input "credentialSubject")
        (get (prop input "vc") "credentialSubject") in
    let '(result, credentialSubject) :=
      if negb (truthy (prop input "sub")) then
        (<["sub" := get (prop input "credentialSubject") "id"]> result,
         delete "id" credentialSubject)
      else (result, credentialSubject) in
    result <- assignIn "vc" "credentialSubject" (VObj credentialSubject) result;;
    let result := delete "credentialSubject" result in
    result <- contextTypeStep "vc" input result;;
    let result := jtiStep input result in
    let result := secondsStep "issuanceDate" "nbf" input result in
    let result := secondsStep "expirationDate" "exp" input result in
    Return (issStep input result).

(** *** Presentations *)

(** [.filter(notEmpty).map(normalizeCredential)] (lines 277-278) on the
    entries [l]: the entries as the calls leave them, and what the calls
    return. An entry that is [null] or [undefined] is skipped; the first
    call that throws ends the walk. *)
Fixpoint normalizeEach (l : list value) : list value * outcome (list obj) :=
  match l with
  | [] => ([], Return [])
  | c :: l' =>
      if notEmpty c then
        let '(c', r) := normalizeCredential c in
        match r with
        | Return n =>
            let '(l'', rs) := normalizeEach l' in
            (c' :: l'', ns <- rs;; Return (n :: ns))
        | Throw e => (c' :: l', Throw e)
        | ArrayWithProps => (c' :: l', ArrayWithProps)
        end
      else
        let '(l'', rs) := normalizeEach l' in (c :: l'', rs)
  end.

(** The entries the source walks through (lines 274-277), before the
    filter: those of the top-level [verifiableCredential], then those
    of [vp.verifiableCredential]. *)
Definition entriesOf (input : value) : list value :=
  asArray (get input "verifiableCredential")
  ++ asArray (get (get input "vp") "verifiableCredential").

(** The entries are objects of the caller: [restoreEntries] puts them
    back, as the calls left them, where [entriesOf] read them. *)
Definition restore (original : value) (entries : list value) : value :=
  match original with
  | VArr _ => VArr entries
  | _ => match entries with [c] => c | _ => original end
  end.

Definition restoreEntries (input : value) (entries : list value) : value :=
  match input with
  | VObj m =>
      let top := get input "verifiableCredential" in
      let nested := get (get input "vp") "verifiableCredential" in
      let n := length (asArray top) in
      VObj
        (alter (fun _ => restore top (take n entries)) "verifiableCredential"
           (alter (fun vp =>
                     match vp with
                     | VObj o =>
                         VObj (alter (fun _ => restore nested (drop n entries))
                                 "verifiableCredential" o)
                     | _ => vp
                     end) "vp" m))
  | _ => input
  end.

(** Lines 274-326 of [normalizeJwtPresentationPayload], given what
    [normalizeCredential] returned for the entries. *)
Definition presentationSteps (input : value) (creds : list obj) (result : obj)
  : outcome obj :=
  let result := <["verifiableCredential" := VArr (VObj <$> creds)]> result in
  let result := alter (delete_prop "verifiableCredential") "vp" result in
  let result :=
    if truthy (get input "iss") && negb (truthy (get input "holder")) then
      delete "iss" (<["holder" := get input "iss"]> result)
    else result in
  let result :=
    if truthy (get input "aud") then
      delete "aud" (<["verifier" := union2 (get input "verifier") (get input "aud")]> result)
    else result in
  let result :=
    if truthy (get input "jti") && lacks (spread input) "id" then
      delete "jti" (<["id" := orElse (get input "id") (get input "jti")]> result)
    else result in
  let result :=
    alter (delete_prop "type") "vp"
      (<["type" := union2 (get input "type") (get (get input "vp") "type")]> result) in
  let result := contextStep "vp" input result in
  result <- issuanceStep input result;;
  result <- expirationStep input result;;
  Return (dropEmpty "vp" result).

(** [normalizeJwtPresentationPayload input] returns [input] as the call
    leaves it, and the outcome. The call writes to nothing of [input]
    but the embedded credentials, which the blocks after line 278 do not
    read. *)
Definition normalizeJwtPresentationPayload (input : value) : value * outcome obj :=
  match input with
  | VObj _ | VArr _ =>
      let '(entries, creds) := normalizeEach (entriesOf input) in
      (restoreEntries input entries,
       creds <- creds;; presentationSteps input creds (spread (deepCopy input)))
  | _ => (input, Throw RuntimeTypeError)
  end.

Definition normalizeJwtPresentation (input : value) : outcome obj :=
  match decodeJWT host input with
  | None => Throw (TypeError "unknown presentation format")
  | Some payload =>
      result <- snd (normalizeJwtPresentationPayload payload);;
      Return (<["proof" := VObj (<["jwt" := input]>
                                   {["type" := VStr DEFAULT_JWT_PROOF_TYPE]})]> result)
  end.

(** [normalizePresentation] on an input that is not a string (lines
    366-373). *)
Definition normalizePresentationValue (input : value) : value * outcome obj :=
  match input with
  | VUndefined | VNull => (input, Throw RuntimeTypeError)
  | _ =>
      let proof := get input "proof" in
      if truthy (get proof "jwt") then
        (input,
         result <- normalizeJwtPresentation (get proof "jwt");;
         Return (<["proof" := proof]> result))
      else
        let '(input', r) := normalizeJwtPresentationPayload input in
        (input', result <- r;; Return (result ∪ {["proof" := VObj ∅]}))
  end.

(** [normalizePresentation] on a string (lines 354-365), with the same
    bound on the calls as [normalizeCredentialString]. *)
Fixpoint normalizePresentationString (fuel : nat) (input : string) : outcome obj :=
  if JWT_FORMAT host input then normalizeJwtPresentation (VStr input)
  else
    match JSON_parse host input with
    | None => Throw (TypeError "unknown presentation format")
    | Some (VStr parsed) =>
        match fuel with
        | O => Throw RangeError
        | S fuel' => normalizePresentationString fuel' parsed
        end
    | Some parsed => snd (normalizePresentationValue parsed)
    end.

(** [normalizePresentation input]: [input] as the call leaves it, and
    the outcome. *)
Definition normalizePresentation (input : value) : value * outcome obj :=
  match input with
  | VStr s => (input, normalizePresentationString (String.length s) s)
  | _ => normalizePresentationValue input
  end.



End Converters.

(** ** Two environments

    [nullHost]: a decoder and a JSON parser that reject every input, the
    pattern of the spec, the base context of the W3C data model.
    [demoHost] also decodes one token, [demoJwt], to [demoPayload]. *)

Definition nullHost : Host := {|
  decodeJWT := fun _ => None;
  JSON_parse := fun _ => None;
  JWT_FORMAT := JwtPattern.test;
  DEFAULT_CONTEXT := "https://www.w3.org/2018/credentials/v1";
  Date_parse_other := fun _ => None;
  time_of_other := fun _ => None;
  JSON_parse_shrinks := ltac:(intros; discriminate)
|}.

Definition demoJwt : string :=
  "eyJhbGciOiJFUzI1NksiLCJ0eXAiOiJKV1QifQ"
  +:+ ".eyJpc3MiOiJkaWQ6eSIsInN1YiI6ImRpZDp4IiwibmJmIjoxNjAwMDAwMDAwLCJ2YyI6eyJAY29udGV4"
  +:+ "dCI6WyJodHRwczovL3d3dy53My5vcmcvMjAxOC9jcmVkZW50aWFscy92MSJdLCJ0eXBlIjpbIlZlcmlm"
  +:+ "aWFibGVDcmVkZW50aWFsIl0sImNyZWRlbnRpYWxTdWJqZWN0Ijp7ImRlZ3JlZSI6IkJBIn19fQ"
  +:+ ".c2lnbmF0dXJl".

Definition demoPayload : value :=
  VObj {[ "iss" := VStr "did:y"; "sub" := VStr "did:x"; "nbf" := VNum 1600000000;
          "vc" := VObj {[ "@context" := VArr [VStr "https://www.w3.org/2018/credentials/v1"];
                          "type" := VArr [VStr "VerifiableCredential"];
                          "credentialSubject" := VObj {[ "degree" := VStr "BA" ]} ]} ]}.

Definition demoHost : Host := {|
  decodeJWT := fun v =>
    match v with
    | VStr s => if String.eqb s demoJwt then Some demoPayload else None
    | _ => None
    end;
  JSON_parse := fun _ => None;
  JWT_FORMAT := JwtPattern.test;
  DEFAULT_CONTEXT := "https://www.w3.org/2018/credentials/v1";
  Date_parse_other := fun _ => None;
  time_of_other := fun _ => None;
  JSON_parse_shrinks := ltac:(intros; discriminate)
|}.

(** ** Payloads used in the examples below *)

(** The legacy attestation of the spec. *)
Definition legacyAttestation : obj :=
  {[ "sub" := VStr "did:x"; "iss" := VStr "did:y";
     "claim" := VObj {[ "degree" := VStr "BA" ]}; "iat" := VNum 1600000000 ]}.

(** The same attestation with an envelope of its own. *)
Definition legacyWithVc : obj :=
  <["vc" := VObj {[ "type" := VArr [VStr "Degree"] ]}]> legacyAttestation.

(** A JSON-LD credential. *)
Definition jsonLdCredential : obj :=
  {[ "@context" := VArr [VStr "https://www.w3.org/2018/credentials/v1"];
     "type" := VArr [VStr "VerifiableCredential"];
     "issuer" := VObj {[ "id" := VStr "did:z" ]};
     "issuanceDate" := VStr "2021-01-01T00:00:00.000Z";
     "credentialSubject" := VObj {[ "id" := VStr "did:w"; "name" := VStr "Ann" ]} ]}.

(** A presentation that embeds a compact JWT and a JSON-LD credential. *)
Definition mixedPresentation : obj :=
  {[ "vp" := VObj {[ "verifiableCredential" :=
                       VArr [VStr demoJwt; VObj jsonLdCredential] ]} ]}.

(** A presentation that embeds the legacy attestation [legacyWithVc]. *)
Definition legacyPresentation : obj :=
  {[ "verifiableCredential" := VArr [VObj legacyWithVc] ]}.

(** ** Shapes of an envelope, used to state the lemmas *)

(** The envelope [e] of [r] is absent or an object. *)
Definition envelopeShape (e : string) (r : obj) : Prop :=
  r !! e = None \/ exists o, r !! e = Some (VObj o).

(** The envelope [e] of [r], when it is an object, has no own property
    [k]. *)
Definition lacksIn (e k : string) (r : obj) : Prop :=
  forall o, r !! e = Some (VObj o) -> o !! k = None.

(** Closes a closed equation by evaluation. *)
Ltac by_vm :=
  lazymatch goal with |- _ = ?r => vm_cast_no_check (@eq_refl _ r) end.

(** One step of an option-monadic parser, with the lemma for the
    character it expects. *)
Ltac step_with lem :=
  cbn [mbind option_bind]; rewrite ?lem; cbn [mbind option_bind].

(** Lookups through inserts, deletes and alters at other keys. *)
Ltac lk :=
  repeat first
    [ rewrite lookup_insert_ne by done
    | rewrite lookup_delete_ne by done
    | rewrite lookup_alter_ne by done
    | rewrite lookup_insert_eq
    | rewrite lookup_delete_eq ].

(** ** The blocks of the presentation converters, one by one

    [presentationSteps] and [transformPresentationInput] above are
    written as the source is, in one piece. The lemmas on them follow a
    key through their blocks: each block is named here, and
    [presentationSteps_blocks] and [transformPresentationInput_explicit]
    show the two functions to be the composition of their blocks. *)

(** Lines 274-279, given what [normalizeCredential] returned. *)
Definition embedStep (creds : list obj) (result : obj) : obj :=
  alter (JS.delete_prop "verifiableCredential") "vp"
    (<["verifiableCredential" := VArr (VObj <$> creds)]> result).

(** Lines 281-284: [iss] to [holder]. *)
Definition holderStep (input : value) (result : obj) : obj :=
  if JS.truthy (JS.get input "iss") && negb (JS.truthy (JS.get input "holder")) then
    delete "iss" (<["holder" := JS.get input "iss"]> result)
  else result.

(** Lines 286-290: [aud] to [verifier]. *)
Definition verifierStep (input : value) (result : obj) : obj :=
  if JS.truthy (JS.get input "aud") then
    delete "aud"
      (<["verifier" := JS.union2 (JS.get input "verifier") (JS.get input "aud")]> result)
  else result.

(** Lines 292-295: [jti] to [id]. *)
Definition presentationIdStep (input : value) (result : obj) : obj :=
  if JS.truthy (JS.get input "jti") && JS.lacks (JS.spread input) "id" then
    delete "jti" (<["id" := JS.orElse (JS.get input "id") (JS.get input "jti")]> result)
  else result.

(** Lines 297-299: the types, read from [input]. *)
Definition presentationTypeStep (input : value) (result : obj) : obj :=
  alter (JS.delete_prop "type") "vp"
    (<["type" := JS.union2 (JS.get input "type") (JS.get (JS.get input "vp") "type")]>
       result).

(** Lines 274-308: the blocks before the dates. *)
Definition presentationPrefix (input : value) (creds : list obj) (result : obj) : obj :=
  contextStep "vp" input
    (presentationTypeStep input
       (presentationIdStep input
          (verifierStep input (holderStep input (embedStep creds result))))).



(** ** Credentials in the form the normalizer writes

    The hypotheses of the round trip through both credential converters. *)

(** An array as the union blocks write it: no [null] or [undefined]
    entry and no primitive entry twice. *)
Definition canonicalArray (v : option value) : Prop :=
  exists l, v = Some (VArr l) /\ JS.newSet (List.filter JS.notEmpty l) = l.

(** A date as the normalizer writes it: absent, or the ISO string of a
    whole, non-zero number of seconds in the range of time values. *)
Definition canonicalDate (v : option value) : Prop :=
  v = None
  \/ exists n : Z, n ≠ 0%Z /\ (Z.abs n <= 8640000000000)%Z
       /\ v = Some (VStr (JSDate.isoString (n * 1000))).

(** A credential with a subject that has an identifier, an issuer
    object without undefined-valued keys, arrays of contexts and types,
    dates as above, no JWT proof and none of the JWT claims. *)
Record canonicalCredential (c : obj) : Prop := {
  canonical_subject :
    exists cs, c !! "credentialSubject" = Some (VObj cs)
               /\ JS.truthy (JS.get (VObj cs) "id") = true;
  canonical_issuer :
    exists i, c !! "issuer" = Some (VObj i) /\ cleanUndefined i = i;
  canonical_context : canonicalArray (c !! "@context");
  canonical_type : canonicalArray (c !! "type");
  canonical_issuanceDate : canonicalDate (c !! "issuanceDate");
  canonical_expirationDate : canonicalDate (c !! "expirationDate");
  canonical_proof : JS.truthy (JS.get (prop c "proof") "jwt") = false;
  canonical_claims :
    Forall (fun k => c !! k = None)
      ["sub"; "iss"; "jti"; "nbf"; "iat"; "exp"; "vc"; "context"]
}.

(** ** Copies and the property [__proto__]

    [JSON.parse] gives an object an own property [__proto__] when the
    text has that key. Line 42 of [deepCopy], [copy[key] = ...], does
    not create such a property on the copy: the assignment reaches the
    accessor [__proto__] of [Object.prototype], whose setter makes an
    object or [null] the prototype of the copy and ignores any other
    value. The copy of such an object has no own property [__proto__],
    and it may have a prototype of its own, which [value] has no term
    for. *)

(** No object of [v], at any depth, has an own property [__proto__]. *)
Fixpoint protoFree (v : value) : bool :=
  match v with
  | VArr l => forallb protoFree l
  | VObj m =>
      JS.lacks m "__proto__" && map_fold (fun _ x acc => protoFree x && acc) true m
  | _ => true
  end.

Module Proto.

(** What [deepCopy] builds: values whose objects have a prototype slot.
    [CObj None own] is an object with the prototype [Object.prototype],
    as an object literal or [JSON.parse] makes it; [CObj (Some CNull)
    own] has no prototype; [CObj (Some c) own] has the object or array
    [c] as its prototype. *)
Inductive copied : Type :=
| CUndefined
| CNull
| CBool (b : bool)
| CNum (n : Z)
| CStr (s : string)
| CArr (l : list copied)
| CObj (proto : option copied) (own : gmap string copied).

(** A [value] as it is: every object with the prototype
    [Object.prototype]. *)
Fixpoint plain (v : value) : copied :=
  match v with
  | VUndefined => CUndefined
  | VNull => CNull
  | VBool b => CBool b
  | VNum n => CNum n
  | VStr s => CStr s
  | VArr l => CArr (map plain l)
  | VObj m => CObj None (plain <$> m)
  end.

(** The setter of [Object.prototype.__proto__], called on a fresh
    object with [c]: the new prototype, [None] when [c] is neither an
    object nor [null] and the call changes nothing. *)
Definition setPrototype (c : copied) : option copied :=
  match c with
  | CNull | CArr _ | CObj _ _ => Some c
  | _ => None
  end.

(** [deepCopy] (lines 19-48) on a [value]. In the loop of lines 41-43
    every key but [__proto__] becomes an own property of [copy], and
    the copy of the value under [__proto__] goes to the setter; the
    order of the keys makes no difference. *)
Fixpoint deepCopy (v : value) : copied :=
  match v with
  | VUndefined => CUndefined
  | VNull => CNull
  | VBool b => CBool b
  | VNum n => CNum n
  | VStr s => CStr s
  | VArr l => CArr (map deepCopy l)
  | VObj m =>
      let copies := deepCopy <$> m in
      CObj (copies !! "__proto__" ≫= setPrototype) (delete "__proto__" copies)
  end.

End Proto.

(** ** The payload of a presentation

    [normalizePresentation] reads the embedded credentials from a
    payload that depends on the form of its argument (lines 354-372). *)

Section Payloads.

Context (host : Host).

(** An argument that is not a string: the payload of [proof.jwt] when
    that is truthy, the argument itself otherwise. [None] when the
    decoder throws. *)
Definition presentationPayloadOfValue (input : value) : option value :=
  let jwt := JS.get (JS.get input "proof") "jwt" in
  if JS.truthy jwt then decodeJWT host jwt else Some input.

(** A string: the payload of a compact JWT, and for any other text
    what [JSON.parse] makes of it, with the bound on the calls of
    [normalizePresentationString]. [None] when the decoder or the
    parser throws. *)
Fixpoint presentationPayloadOfString (fuel : nat) (input : string) : option value :=
  if JWT_FORMAT host input then decodeJWT host (VStr input)
  else
    match JSON_parse host input with
    | None => None
    | Some (VStr parsed) =>
        match fuel with
        | O => None
        | S fuel' => presentationPayloadOfString fuel' parsed
        end
    | Some parsed => presentationPayloadOfValue parsed
    end.

Definition presentationPayload (input : value) : option value :=
  match input with
  | VStr s => presentationPayloadOfString (String.length s) s
  | _ => presentationPayloadOfValue input
  end.

End Payloads.

(** ** Tactics for lists of property names *)

(** From [k ∉ [a; b; ...]] to [k ≠ a], [k ≠ b], ... *)
Ltac split_names H :=
  repeat (apply not_elem_of_cons in H as [? H]).

(** Proves [k ∉ [a; b; ...]] for a literal [k]. *)
Ltac not_in_names :=
  repeat (apply not_elem_of_cons; split; [done|]); apply not_elem_of_nil.

(** Closes a goal with a term whose type evaluates to it. *)
Ltac exact_vm t := vm_cast_no_check t.

(** A presentation that embeds no credential: there is nothing that
    [normalizeCredential] has to return. *)
Ltac no_entries :=
  lazymatch goal with
  | |- Forall2 _ ?l [] =>
      replace l with (@nil value) by (symmetry; by_vm); constructor
  end.

(** * Properties *)

(** ** Dates: [Date.parse] inverts [toISOString] *)

Section DateFacts.

Import JSDate.

#[local] Open Scope Z_scope.

(** A year has [DaysInYear] days. *)
Lemma DayFromYear_succ y : DayFromYear (y + 1) = DayFromYear y + DaysInYear y.
Proof.
  unfold DayFromYear, DaysInYear, leapDay, isLeap.
  destruct (y mod 4 =? 0) eqn:E4; destruct (y mod 100 =? 0) eqn:E100;
    destruct (y mod 400 =? 0) eqn:E400; cbn [andb orb negb];
    Z.div_mod_to_equations; lia.
Qed.

(** [YearFromDay d] is the year that day [d] falls in. *)
Lemma YearFromDay_spec d :
  DayFromYear (YearFromDay d) <= d < DayFromYear (YearFromDay d + 1).
Proof.
  unfold YearFromDay.
  set (y := 1970 + 400 * d / 146097).
  assert (Hy : 146097 * (y - 1970) <= 400 * d < 146097 * (y - 1970) + 146097).
  { subst y. Z.div_mod_to_equations. lia. }
  clearbody y.
  destruct (d <? DayFromYear y) eqn:E1.
  - apply Z.ltb_lt in E1. replace (y - 1 + 1) with y by lia. split; [|lia].
    revert E1 Hy. unfold DayFromYear. Z.div_mod_to_equations. lia.
  - apply Z.ltb_ge in E1.
    destruct (DayFromYear (y + 1) <=? d) eqn:E2.
    + apply Z.leb_le in E2. split; [lia|].
      revert E2 Hy. unfold DayFromYear. Z.div_mod_to_equations. lia.
    + apply Z.leb_gt in E2. lia.
Qed.

Lemma leapDay_01 y : leapDay y = 0 \/ leapDay y = 1.
Proof. unfold leapDay. destruct (isLeap y); auto. Qed.

(** [MonthFromDay] is the month that a day of the year falls in. *)
Lemma MonthFromDay_spec leap diy :
  (leap = 0 \/ leap = 1) -> 0 <= diy < 365 + leap ->
  let m := MonthFromDay leap diy in
  0 <= m <= 11 /\ daysBefore leap m <= diy < daysBefore leap (m + 1).
Proof.
  intros Hl Hd. unfold MonthFromDay.
  repeat match goal with
  | |- context [ if ?a <? ?b then _ else _ ] =>
      destruct (Z.ltb_spec a b)
  end;
  repeat match goal with
  | |- context [ daysBefore leap (?a + 1) ] =>
      let v := eval compute in (a + 1) in change (a + 1) with v
  end; cbn [daysBefore]; lia.
Qed.

Lemma digitVal_digitChar d : 0 <= d <= 9 -> digitVal (digitChar d) = Some d.
Proof.
  intros H.
  assert (d = 0 \/ d = 1 \/ d = 2 \/ d = 3 \/ d = 4 \/ d = 5 \/ d = 6 \/ d = 7
          \/ d = 8 \/ d = 9) as Hd by lia.
  repeat destruct Hd as [-> | Hd]; try reflexivity. subst. reflexivity.
Qed.

(** Reading back a field of [w] digits. *)
Lemma readDigits_digits w n acc rest :
  0 <= n < 10 ^ Z.of_nat w ->
  readDigits w acc (digits w n +:+ rest) = Some (acc * 10 ^ Z.of_nat w + n, rest).
Proof.
  revert n acc. induction w as [|w IH]; intros n acc Hn.
  - cbn in *. f_equal. f_equal. lia.
  - rewrite Nat2Z.inj_succ, Z.pow_succ_r in * by lia.
    simpl.
    assert (Hp : 0 < 10 ^ Z.of_nat w) by (apply Z.pow_pos_nonneg; lia).
    rewrite digitVal_digitChar.
    2:{ split; [apply Z.div_pos; lia|]. 
        assert (n / 10 ^ Z.of_nat w < 10); [|lia].
        apply Z.div_lt_upper_bound; lia. }
    rewrite IH by (apply Z.mod_pos_bound; lia).
    f_equal. f_equal.
    pose proof (Z.div_mod n (10 ^ Z.of_nat w) ltac:(lia)). nia.
Qed.

Lemma append_String c s r : String c s +:+ r = String c (s +:+ r).
Proof. reflexivity. Qed.

Lemma expect_String c s : expect c (String c s) = Some s.
Proof. unfold expect. by rewrite Ascii.eqb_refl. Qed.

Lemma readDigits_fixed w bound n rest :
  bound = 10 ^ Z.of_nat w -> 0 <= n < bound ->
  readDigits w 0 (digits w n +:+ rest) = Some (n, rest).
Proof. intros -> Hn. rewrite readDigits_digits by done. do 2 f_equal. Qed.

Lemma readYear_digit d s :
  readYear (String (digitChar d) s) = readDigits 4 0 (String (digitChar d) s).
Proof. unfold digitChar. repeat case_match; reflexivity. Qed.

Lemma readYear_yearString y rest :
  -999999 <= y <= 999999 ->
  readYear (yearString y +:+ rest) = Some (y, rest).
Proof.
  intros Hy. unfold yearString.
  destruct (Z.leb_spec 0 y); destruct (Z.leb_spec y 9999); cbn [andb].
  - change (digits 4 y) with
      (String (digitChar (y / 10 ^ Z.of_nat 3)) (digits 3 (y mod 10 ^ Z.of_nat 3))).
    rewrite append_String, readYear_digit.
    change (String (digitChar (y / 10 ^ Z.of_nat 3))
              (digits 3 (y mod 10 ^ Z.of_nat 3) +:+ rest))
      with (digits 4 y +:+ rest).
    apply (readDigits_fixed 4 10000); [reflexivity | lia].
  - destruct (Z.ltb_spec y 0); [lia|]. rewrite append_String; cbn [readYear].
    rewrite (readDigits_fixed 6 1000000) by (reflexivity || lia).
    do 2 f_equal. lia.
  - destruct (Z.ltb_spec y 0); [|lia]. rewrite append_String; cbn [readYear].
    rewrite (readDigits_fixed 6 1000000) by (reflexivity || lia).
    destruct (Z.eqb_spec (Z.abs y) 0); [lia|].
    do 2 f_equal. lia.
  - lia.
Qed.

Lemma year_bound d :
  -100000000 <= d <= 100000000 -> -999999 <= YearFromDay d <= 999999.
Proof.
  intros Hd. pose proof (YearFromDay_spec d) as H.
  revert H. generalize (YearFromDay d). intros y.
  unfold DayFromYear. Z.div_mod_to_equations. lia.
Qed.

Lemma DaysInMonth_le y m : 0 <= m <= 11 -> DaysInMonth y m <= 31.
Proof.
  intros Hm. unfold DaysInMonth. destruct (leapDay_01 y) as [-> | ->];
  assert (m = 0 \/ m = 1 \/ m = 2 \/ m = 3 \/ m = 4 \/ m = 5 \/ m = 6
        \/ m = 7 \/ m = 8 \/ m = 9 \/ m = 10 \/ m = 11) as Hc by lia;
  repeat destruct Hc as [-> | Hc]; subst; vm_compute; discriminate.
Qed.

(** Every valid time value is read back from its ISO string. *)
Theorem parseISO_isoString t :
  Z.abs t <= maxTime -> parseISO (isoString t) = Some (Some t).
Proof.
  intros Ht. unfold isoString, parseISO.
  assert (Hdm := Z.div_mod t msPerDay ltac:(unfold msPerDay; lia)).
  assert (Hr := Z.mod_pos_bound t msPerDay ltac:(unfold msPerDay; lia)).
  set (d := t / msPerDay) in *. set (r := t mod msPerDay) in *. clearbody d r.
  unfold msPerDay in Hr, Hdm.
  assert (Hd : -100000000 <= d <= 100000000) by (unfold maxTime in *; lia).
  pose proof (year_bound d Hd) as Hyb.
  pose proof (YearFromDay_spec d) as Hys.
  rewrite DayFromYear_succ in Hys. unfold DaysInYear in Hys.
  set (y := YearFromDay d) in *. clearbody y.
  pose proof (leapDay_01 y) as Hl.
  pose proof (MonthFromDay_spec (leapDay y) (d - DayFromYear y) Hl ltac:(lia)) as [Hm Hdb].
  pose proof (DaysInMonth_le y _ Hm) as Hdim. unfold DaysInMonth in Hdim.
  set (m := MonthFromDay (leapDay y) (d - DayFromYear y)) in *. clearbody m.
  rewrite readYear_yearString by lia. step_with expect_String.
  rewrite (readDigits_fixed 2 100) by (reflexivity || lia). step_with expect_String.
  rewrite (readDigits_fixed 2 100) by (reflexivity || lia). step_with expect_String.
  rewrite (readDigits_fixed 2 100) by (reflexivity || (Z.div_mod_to_equations; lia)). step_with expect_String.
  rewrite (readDigits_fixed 2 100) by (reflexivity || (Z.div_mod_to_equations; lia)). step_with expect_String.
  rewrite (readDigits_fixed 2 100) by (reflexivity || (Z.div_mod_to_equations; lia)). step_with expect_String.
  rewrite (readDigits_fixed 3 1000) by (reflexivity || (Z.div_mod_to_equations; lia)). step_with expect_String.
  replace (m + 1 - 1) with m by lia. unfold DaysInMonth.
  rewrite !andb_true_intro; [|repeat split; try apply Z.leb_le;
    try (Z.div_mod_to_equations; lia)..].
  unfold MakeDate, MakeDay, MakeTime, TimeClip, msPerDay.
  replace (_ + _) with t by (Z.div_mod_to_equations; lia).
  destruct (Z.leb_spec (Z.abs t) maxTime); [done | lia].
Qed.

End DateFacts.

(** ** Induction on values; [deepCopy] returns an equal value *)

Lemma vsize_elem l x : x ∈ l -> vsize x < vsize (VArr l).
Proof.
  intros Hx. cbn [vsize]. unfold list_sum.
  induction Hx as [x l | x y l Hx IH]; cbn [map fold_right]; lia.
Qed.

Lemma vsize_lookup (m : obj) k x : m !! k = Some x -> vsize x < vsize (VObj m).
Proof.
  cbn [vsize]. revert k x. induction m as [|i y m Hi Hfold IH] using map_first_key_ind; intros k x Hk.
  - by rewrite lookup_empty in Hk.
  - rewrite map_fold_insert_first_key by done.
    destruct (decide (i = k)) as [->|Hne].
    + rewrite lookup_insert_eq in Hk. injection Hk as ->. lia.
    + rewrite lookup_insert_ne in Hk by done. specialize (IH _ _ Hk). lia.
Qed.

(** Induction on values, with the hypothesis for every element of an
    array and every property value of an object. *)
Lemma value_ind' (P : value -> Prop) :
  P VUndefined -> P VNull -> (forall b, P (VBool b)) -> (forall n, P (VNum n)) ->
  (forall s, P (VStr s)) ->
  (forall l, Forall P l -> P (VArr l)) ->
  (forall m : obj, map_Forall (fun _ => P) m -> P (VObj m)) ->
  forall v, P v.
Proof.
  intros Hu Hn Hb Hz Hs Ha Ho v.
  remember (vsize v) as n eqn:En. revert v En.
  induction (lt_wf n) as [n _ IH]. intros v ->.
  destruct v; auto.
  - apply Ha, Forall_forall. intros x Hx. eapply IH; [|reflexivity].
    by apply vsize_elem.
  - apply Ho. intros k x Hk. eapply IH; [|reflexivity].
    by eapply vsize_lookup.
Qed.

(** [deepCopy], with an own property for every key, returns a value
    equal to its argument. *)
Lemma deepCopy_id v : deepCopy v = v.
Proof.
  induction v as [| | | | |l IH|m IH] using value_ind'; try reflexivity; cbn [deepCopy]; f_equal.
  - induction IH as [|x l Hx _ IHl]; cbn [map]; congruence.
  - apply map_eq. intros k. rewrite lookup_fmap.
    destruct (m !! k) as [x|] eqn:Hk; cbn; [|done]. f_equal. by eapply IH.
Qed.

(** The conjunction of a test over the property values of an object. *)
Lemma all_values (f : value -> bool) (m : obj) :
  map_fold (fun _ x acc => f x && acc) true m = true
  <-> map_Forall (fun _ x => f x = true) m.
Proof.
  induction m as [|i y m Hi Hfold IH] using map_first_key_ind.
  - rewrite map_fold_empty. split; [intros _; apply map_Forall_empty | done].
  - rewrite map_fold_insert_first_key by done.
    rewrite map_Forall_insert by done. rewrite andb_true_iff. by rewrite IH.
Qed.

Lemma protoFree_obj (m : obj) :
  protoFree (VObj m) = true
  <-> m !! "__proto__" = None /\ map_Forall (fun _ x => protoFree x = true) m.
Proof.
  cbn [protoFree]. rewrite andb_true_iff, all_values. unfold JS.lacks.
  destruct (m !! "__proto__"); split; intros [H1 H2]; try done.
Qed.

(** On a value without a property [__proto__], the source's
    [deepCopy] returns what [deepCopy] above does, with the prototypes
    of [JSON.parse]. *)
Lemma deepCopy_faithful v :
  protoFree v = true -> Proto.deepCopy v = Proto.plain (deepCopy v).
Proof.
  rewrite deepCopy_id.
  induction v as [| | | | |l IH|m IH] using value_ind'; try done.
  - cbn [Proto.deepCopy Proto.plain protoFree].
    induction IH as [|x l Hx _ IHl]; [done|].
    cbn [map forallb]. intros [H1 H2]%andb_prop.
    specialize (IHl H2). injection IHl as IHl. by rewrite Hx, IHl.
  - rewrite protoFree_obj. cbn [Proto.deepCopy Proto.plain].
    intros [Hk Hall]. rewrite lookup_fmap, Hk. cbn. f_equal.
    rewrite delete_id by (by rewrite lookup_fmap, Hk).
    apply map_eq. intros k. rewrite !lookup_fmap.
    destruct (m !! k) as [x|] eqn:Hx; cbn; [|done]. f_equal.
    eapply IH; [done|]. by eapply Hall.
Qed.

(** ** The converters *)

Section ConverterFacts.

Context (host : Host).

Import JS.

Lemma deepCopyObj_id (o : obj) : deepCopyObj o = o.
Proof.
  unfold deepCopyObj. apply map_eq. intros k. rewrite lookup_fmap.
  destruct (o !! k); cbn; [|done]. by rewrite deepCopy_id.
Qed.

Lemma get_insert_ne (m : obj) k k' v :
  k ≠ k' -> get (VObj (<[k := v]> m)) k' = get (VObj m) k'.
Proof. intros H. unfold get. by rewrite lookup_insert_ne. Qed.

(** *** Lookups through the blocks of the normalizers *)

Lemma subjectStep_lookup input result k :
  k ≠ "credentialSubject" -> k ≠ "sub" -> k ≠ "vc" ->
  subjectStep input result !! k = result !! k.
Proof. intros. unfold subjectStep. case_match; by lk. Qed.

Lemma issuerStep_lookup input result k :
  k ≠ "issuer" -> k ≠ "iss" -> issuerStep input result !! k = result !! k.
Proof. intros. unfold issuerStep. repeat case_match; by lk. Qed.

Lemma idStep_lookup input result k :
  k ≠ "id" -> k ≠ "jti" -> idStep input result !! k = result !! k.
Proof. intros. unfold idStep. repeat case_match; by lk. Qed.

Lemma typeStep_lookup result k :
  k ≠ "type" -> k ≠ "vc" -> typeStep result !! k = result !! k.
Proof. intros. unfold typeStep. by lk. Qed.

Lemma contextStep_lookup e input result k :
  k ≠ "@context" -> k ≠ "context" -> k ≠ e ->
  contextStep e input result !! k = result !! k.
Proof. intros. unfold contextStep. by lk. Qed.

Lemma issuanceStep_lookup input result r k :
  issuanceStep host input result = Return r ->
  k ≠ "issuanceDate" -> k ≠ "nbf" -> k ≠ "iat" -> r !! k = result !! k.
Proof.
  unfold issuanceStep. intros Hr ???.
  destruct (_ && _); [|by injection Hr as <-].
  destruct (isoOfSeconds _ _); cbn in Hr; try discriminate.
  injection Hr as <-. case_match; by lk.
Qed.

Lemma expirationStep_lookup input result r k :
  expirationStep host input result = Return r ->
  k ≠ "expirationDate" -> k ≠ "exp" -> r !! k = result !! k.
Proof.
  unfold expirationStep. intros Hr ??.
  destruct (_ && _); [|by injection Hr as <-].
  destruct (isoOfSeconds _ _); cbn in Hr; try discriminate.
  injection Hr as <-. by lk.
Qed.

Lemma dropEmpty_lookup e result k :
  k ≠ e -> dropEmpty e result !! k = result !! k.
Proof. intros. unfold dropEmpty. case_match; by lk. Qed.

(** The blocks return when the date claims are in range, and a key
    that only the first five blocks write is, in the result, as these
    blocks leave it. *)
Lemma credentialSteps_returns input result :
  datesConvert host input = true ->
  exists r, credentialSteps host input result = Return r.
Proof.
  unfold datesConvert, credentialSteps, issuanceStep, expirationStep, convertible.
  intros [H1 H2]%andb_prop.
  destruct (negb (truthy (get input "issuanceDate")) && _);
    [destruct (isoOfSeconds host (orElse _ _)); try discriminate|];
  cbn [bind];
  (destruct (negb (truthy (get input "expirationDate")) && _);
    [destruct (isoOfSeconds host (get input "exp")); try discriminate|]);
  cbn [bind]; eauto.
Qed.

Lemma credentialSteps_lookup input result r k :
  credentialSteps host input result = Return r ->
  k ≠ "issuanceDate" -> k ≠ "nbf" -> k ≠ "iat" ->
  k ≠ "expirationDate" -> k ≠ "exp" -> k ≠ "vc" ->
  r !! k =
  contextStep "vc" input
    (typeStep (idStep input (issuerStep input (subjectStep input result)))) !! k.
Proof.
  unfold credentialSteps. intros Hr ??????.
  destruct (issuanceStep _ _ _) as [r1| |] eqn:E1; try discriminate.
  cbn [bind] in Hr.
  destruct (expirationStep _ _ _) as [r2| |] eqn:E2; try discriminate.
  cbn [bind] in Hr. injection Hr as <-.
  rewrite dropEmpty_lookup by done.
  rewrite (expirationStep_lookup _ _ _ _ E2) by done.
  by rewrite (issuanceStep_lookup _ _ _ _ E1) by done.
Qed.

(** The steps read [input] through a fixed set of property names, none of
    which is [issVc]. *)
Lemma credentialSteps_issVc (m : obj) v result :
  credentialSteps host (VObj (<["issVc" := v]> m)) result
  = credentialSteps host (VObj m) result.
Proof.
  unfold credentialSteps, subjectStep, issuerStep, idStep, contextStep,
    issuanceStep, expirationStep.
  by rewrite !get_insert_ne by done.
Qed.

(** [normalizeJwtCredentialPayload] on an object: the blocks, started
    from the copy or from the converted attestation. *)
Lemma normalizeJwtCredentialPayload_obj (m : obj) :
  snd (normalizeJwtCredentialPayload host (VObj m))
  = credentialSteps host (VObj m)
      (if isLegacyAttestationFormat (VObj m) then snd (attestationToVcFormat host m)
       else m).
Proof.
  unfold normalizeJwtCredentialPayload.
  destruct (isLegacyAttestationFormat (VObj m)).
  - unfold attestationToVcFormat. cbn [snd]. case_match; [|done].
    by rewrite credentialSteps_issVc.
  - rewrite deepCopy_id. done.
Qed.

Lemma attestation_lookup (m : obj) k :
  k ≠ "iat" -> k ≠ "nbf" -> k ≠ "claim" -> k ≠ "vc" ->
  snd (attestationToVcFormat host m) !! k = m !! k.
Proof. intros. unfold attestationToVcFormat. cbn [snd]. by lk. Qed.



(** *** The transform direction *)

Lemma seedResult_lookup_ne e (input : obj) k :
  k ≠ e -> seedResult e input !! k = input !! k.
Proof.
  intros. unfold seedResult. rewrite deepCopyObj_id, lookup_union.
  rewrite lookup_singleton_ne by done. by destruct (input !! k).
Qed.

Lemma seedResult_lookup e (input : obj) :
  input !! e = None \/ (exists o, input !! e = Some (VObj o)) ->
  seedResult e input !! e = Some (VObj (spread (prop input e))).
Proof.
  intros H. unfold seedResult, prop, get.
  rewrite deepCopyObj_id, lookup_union, lookup_singleton_eq.
  destruct H as [-> | [o ->]]; done.
Qed.

Lemma assignIn_obj e k v (result o : obj) :
  result !! e = Some (VObj o) ->
  assignIn e k v result = Return (<[e := VObj (<[k := v]> o)]> result).
Proof. intros H. unfold assignIn, prop, get. by rewrite H. Qed.

Lemma jtiStep_lookup input result k :
  k ≠ "id" -> k ≠ "jti" -> jtiStep input result !! k = result !! k.
Proof. intros. unfold jtiStep. case_match; by lk. Qed.

Lemma secondsStep_lookup date claim input result k :
  k ≠ date -> k ≠ claim -> secondsStep host date claim input result !! k = result !! k.
Proof. intros. unfold secondsStep. repeat case_match; by lk. Qed.

Lemma issStep_lookup input result k :
  k ≠ "iss" -> k ≠ "issuer" -> issStep input result !! k = result !! k.
Proof. intros. unfold issStep. repeat case_match; by lk. Qed.

(** [transformCredentialInput] on an input whose [vc], if any, is an
    object: the last four blocks applied to a result [r] that holds the
    envelope. *)
Lemma transformCredentialInput_returns (input : obj) :
  isArray (prop input "credentialSubject") = false ->
  input !! "vc" = None \/ (exists o, input !! "vc" = Some (VObj o)) ->
  exists r,
    transformCredentialInput host input
    = Return (issStep input
        (secondsStep host "expirationDate" "exp" input
          (secondsStep host "issuanceDate" "nbf" input (jtiStep input r))))
    /\ r !! "sub" = (if truthy (prop input "sub") then input !! "sub"
                     else Some (get (prop input "credentialSubject") "id"))
    /\ r !! "credentialSubject" = None
    /\ (exists o, r !! "vc" = Some (VObj o)
        /\ o !! "credentialSubject"
           = Some (VObj
               (let s := spread2 (prop input "credentialSubject")
                           (get (prop input "vc") "credentialSubject") in
                if truthy (prop input "sub") then s else delete "id" s)))
    /\ (forall k, k ≠ "sub" -> k ≠ "vc" -> k ≠ "credentialSubject" ->
          k ≠ "@context" -> k ≠ "context" -> k ≠ "type" -> r !! k = input !! k).
Proof.
  intros Ha Hvc. unfold transformCredentialInput. rewrite Ha.
  pose proof (seedResult_lookup "vc" input Hvc) as Hseed.
  set (s := spread2 _ _).
  destruct (truthy (prop input "sub")) eqn:Hsub; cbn [negb].
  - erewrite assignIn_obj by exact Hseed. cbn [bind].
    unfold contextTypeStep.
    erewrite assignIn_obj by (lk; reflexivity). cbn [bind].
    erewrite assignIn_obj by (lk; reflexivity). cbn [bind].
    eexists. split; [reflexivity|].
    lk. rewrite seedResult_lookup_ne by done. repeat split; try done.
    + eexists. split; [reflexivity|]. by lk.
    + intros k ??????. lk. by apply seedResult_lookup_ne.
  - erewrite assignIn_obj by (lk; exact Hseed). cbn [bind].
    unfold contextTypeStep.
    erewrite assignIn_obj by (lk; reflexivity). cbn [bind].
    erewrite assignIn_obj by (lk; reflexivity). cbn [bind].
    eexists. split; [reflexivity|].
    lk. repeat split; try done.
    + eexists. split; [reflexivity|]. by lk.
    + intros k ??????. lk. by apply seedResult_lookup_ne.
Qed.

(** [transformCredentialInput] returns only on such inputs: an array
    subject is rejected, and writing to a [vc] that is not an object
    throws (or, on an array, leaves an array with named properties). *)
Lemma seedResult_lookup_own e (input : obj) v :
  input !! e = Some v -> seedResult e input !! e = Some v.
Proof.
  intros H. unfold seedResult. rewrite deepCopyObj_id. by apply lookup_union_Some_l.
Qed.

Lemma assignIn_Return e k v (result r : obj) :
  assignIn e k v result = Return r -> exists o, result !! e = Some (VObj o).
Proof.
  unfold assignIn, prop, get.
  destruct (result !! e) as [[]|]; cbn; try discriminate. eauto.
Qed.

Lemma transformCredentialInput_Return (input r : obj) :
  transformCredentialInput host input = Return r ->
  isArray (prop input "credentialSubject") = false /\ envelopeShape "vc" input.
Proof.
  unfold transformCredentialInput.
  destruct (isArray (prop input "credentialSubject")); [discriminate|].
  intros H. split; [done|].
  destruct (input !! "vc") as [v|] eqn:Hv; [|by left].
  right.
  destruct (truthy (prop input "sub")); cbn [negb] in H;
    (destruct (assignIn "vc" "credentialSubject" _ _) as [r1| |] eqn:E;
      [|discriminate..]);
    apply assignIn_Return in E as [o Ho]; revert Ho; lk;
    rewrite (seedResult_lookup_own _ _ _ Hv); intros [= ->]; eauto.
Qed.

(** *** Dates, both ways *)


Lemma envelopeShape_eq e (r r' : obj) :
  r' !! e = r !! e -> envelopeShape e r -> envelopeShape e r'.
Proof. unfold envelopeShape. by intros ->. Qed.



Lemma isoOfSeconds_num n :
  (Z.abs (n * 1000) <= JSDate.maxTime)%Z ->
  isoOfSeconds host (VNum n) = Return (JSDate.isoString (n * 1000)).
Proof.
  intros H. unfold isoOfSeconds, JSDate.toISOString, JSDate.TimeClip. cbn [mbind option_bind].
  by destruct (Z.leb_spec (Z.abs (n * 1000)) JSDate.maxTime); [|lia].
Qed.

Lemma truthy_isoString t : truthy (VStr (JSDate.isoString t)) = true.
Proof.
  unfold JSDate.isoString, JSDate.yearString. cbn [truthy].
  destruct (_ && _); reflexivity.
Qed.

Lemma Date_parse_isoString t :
  (Z.abs t <= JSDate.maxTime)%Z -> Date_parse host (VStr (JSDate.isoString t)) = Some t.
Proof. intros H. unfold Date_parse. by rewrite parseISO_isoString. Qed.


Lemma snd_normalizeCredential_obj (m : obj) :
  truthy (get (prop m "proof") "jwt") = false ->
  snd (normalizeCredential host (VObj m))
  = (result <- snd (normalizeJwtCredentialPayload host (VObj m));;
     Return (result ∪ {["proof" := VObj ∅]})).
Proof.
  intros H. unfold normalizeCredential, normalizeCredentialValue.
  unfold prop in H. rewrite H.
  by destruct (normalizeJwtCredentialPayload host (VObj m)).
Qed.

Lemma lookup_with_proof (r : obj) k :
  k ≠ "proof" -> (r ∪ {["proof" := VObj ∅]}) !! k = r !! k.
Proof.
  intros. rewrite lookup_union, lookup_singleton_ne by done. by destruct (r !! k).
Qed.

Lemma credentialSteps_subject input result r :
  credentialSteps host input result = Return r ->
  r !! "credentialSubject"
  = Some (VObj
      (let merged := spread2 (get input "credentialSubject")
                       (get (get input "vc") "credentialSubject") in
       if truthy (get input "sub") && negb (truthy (get (get input "credentialSubject") "id"))
       then <["id" := get input "sub"]> merged else merged)).
Proof.
  intros Hr. rewrite (credentialSteps_lookup _ _ _ _ Hr) by done.
  rewrite contextStep_lookup, typeStep_lookup, idStep_lookup, issuerStep_lookup by done.
  unfold subjectStep. cbv zeta. case_match; by lk.
Qed.



(** Lines 211-217 on an input with no truthy [sub]: the top-level
    [sub] is the [id] of the top-level [credentialSubject] ([undefined]
    when there is none), whatever [id] the merged subject has; [id] is
    removed from the merged subject ([credentialSubject] merged with
    [vc.credentialSubject], the nested one winning), which is stored at
    [vc.credentialSubject]; and the top-level [credentialSubject] is
    deleted. *)
Lemma transformCredentialInput_subject (input : obj) :
  truthy (prop input "sub") = false ->
  (forall r,
     transformCredentialInput host input = Return r ->
     r !! "sub" = Some (get (prop input "credentialSubject") "id")
     /\ get (prop r "vc") "credentialSubject"
        = VObj (delete "id"
                  (spread2 (prop input "credentialSubject")
                     (get (prop input "vc") "credentialSubject")))
     /\ r !! "credentialSubject" = None)
  /\ (isArray (prop input "credentialSubject") = false ->
      (input !! "vc" = None \/ exists o, input !! "vc" = Some (VObj o)) ->
      exists r, transformCredentialInput host input = Return r).
Proof.
  intros Hs. split.
  - intros r0 Hr0.
    destruct (transformCredentialInput_Return _ _ Hr0) as [Ha Hvc].
    destruct (transformCredentialInput_returns input Ha Hvc)
      as (r & Hr & Hsub & Hcs & (o & Ho & Hocs) & _).
    rewrite Hs in Hsub, Hocs. rewrite Hr in Hr0. injection Hr0 as <-.
    unfold prop, get.
    rewrite !issStep_lookup, !secondsStep_lookup, !jtiStep_lookup by done.
    rewrite Hsub, Hcs, Ho. cbn. by rewrite Hocs.
  - intros Ha Hvc.
    destruct (transformCredentialInput_returns input Ha Hvc) as (r & Hr & _). eauto.
Qed.

(** C8, at the inputs on which it fails. The merged subject of
    [{vc: {credentialSubject: {id: "did:v"}}}] has the [id] ["did:v"],
    and the input has no [sub]: [transformCredentialInput] returns
    [sub] as [undefined] and a subject without [id], so that the
    identifier is in the result no more. When the top-level
    [credentialSubject] has an [id] of its own, that one becomes [sub]
    and the one under [vc] is dropped as well. *)
Theorem C8_merged_id_lost :
  transformCredentialInput host
    {[ "vc" := VObj {[ "credentialSubject" := VObj {[ "id" := VStr "did:v" ]} ]} ]}
  = Return {[ "sub" := VUndefined;
              "vc" := VObj {[ "credentialSubject" := VObj ∅;
                              "@context" := VArr []; "type" := VArr [] ]} ]}
  /\ transformCredentialInput host
       {[ "credentialSubject" := VObj {[ "id" := VStr "did:w" ]};
          "vc" := VObj {[ "credentialSubject" := VObj {[ "id" := VStr "did:v" ]} ]} ]}
     = Return {[ "sub" := VStr "did:w";
                 "vc" := VObj {[ "credentialSubject" := VObj ∅;
                                 "@context" := VArr []; "type" := VArr [] ]} ]}.
Proof. split; by_vm. Qed.


(** C6. [transformCredentialInput] throws
    [Error('credentialSubject of type array not supported')] for every
    input whose [credentialSubject] is an array, whatever else the
    input holds: no other rule is applied to it. *)
Theorem C6_array_subject_rejected (input : obj) (l : list value) :
  input !! "credentialSubject" = Some (VArr l) ->
  transformCredentialInput host input
  = Throw (Error "credentialSubject of type array not supported").
Proof. intros H. unfold transformCredentialInput, prop, get. by rewrite H. Qed.

Lemma normalizeCredentialString_unfold fuel s :
  normalizeCredentialString host fuel s
  = if JWT_FORMAT host s then normalizeJwtCredential host (VStr s)
    else
      match JSON_parse host s with
      | None => Throw (TypeError "unknown credential format")
      | Some (VStr parsed) =>
          match fuel with
          | O => Throw RangeError
          | S fuel' => normalizeCredentialString host fuel' parsed
          end
      | Some parsed => snd (normalizeCredentialValue host parsed)
      end.
Proof. by destruct fuel. Qed.

(** More fuel than the length of the string changes nothing: the bound
    on the calls is never reached. *)
Lemma normalizeCredentialString_fuel fuel s :
  String.length s <= fuel ->
  normalizeCredentialString host fuel s
  = normalizeCredentialString host (String.length s) s.
Proof.
  enough (forall f1 f2 s, String.length s <= f1 -> String.length s <= f2 ->
            normalizeCredentialString host f1 s = normalizeCredentialString host f2 s)
    as H by (intros; by apply H).
  clear. induction f1 as [|f1 IH]; intros f2 s H1 H2;
    rewrite (normalizeCredentialString_unfold _ s),
      (normalizeCredentialString_unfold f2 s);
    destruct (JWT_FORMAT host s); try done;
    destruct (JSON_parse host s) as [[]|] eqn:Hp; try done;
    apply JSON_parse_shrinks in Hp; [lia|].
  destruct f2; [lia|]. apply IH; lia.
Qed.

Lemma normalizePresentationString_unfold fuel s :
  normalizePresentationString host fuel s
  = if JWT_FORMAT host s then normalizeJwtPresentation host (VStr s)
    else
      match JSON_parse host s with
      | None => Throw (TypeError "unknown presentation format")
      | Some (VStr parsed) =>
          match fuel with
          | O => Throw RangeError
          | S fuel' => normalizePresentationString host fuel' parsed
          end
      | Some parsed => snd (normalizePresentationValue host parsed)
      end.
Proof. by destruct fuel. Qed.

Lemma normalizePresentationString_fuel fuel s :
  String.length s <= fuel ->
  normalizePresentationString host fuel s
  = normalizePresentationString host (String.length s) s.
Proof.
  enough (forall f1 f2 s, String.length s <= f1 -> String.length s <= f2 ->
            normalizePresentationString host f1 s = normalizePresentationString host f2 s)
    as H by (intros; by apply H).
  clear. induction f1 as [|f1 IH]; intros f2 s H1 H2;
    rewrite (normalizePresentationString_unfold _ s),
      (normalizePresentationString_unfold f2 s);
    destruct (JWT_FORMAT host s); try done;
    destruct (JSON_parse host s) as [[]|] eqn:Hp; try done;
    apply JSON_parse_shrinks in Hp; [lia|].
  destruct f2; [lia|]. apply IH; lia.
Qed.

(** C5. [normalizeCredential] throws [TypeError('unknown credential
    format')] for every string that fails the JWT pattern and that
    [JSON.parse] rejects, and for every string that matches the pattern
    and that the decoder rejects. *)
Theorem C5_unknown_credential_format (s : string) :
  (JWT_FORMAT host s = false /\ JSON_parse host s = None)
  \/ (JWT_FORMAT host s = true /\ decodeJWT host (VStr s) = None) ->
  snd (normalizeCredential host (VStr s))
  = Throw (TypeError "unknown credential format").
Proof.
  intros H. cbn [normalizeCredential snd].
  rewrite normalizeCredentialString_unfold.
  destruct H as [[-> ->] | [-> Hd]]; [done|].
  unfold normalizeJwtCredential. by rewrite Hd.
Qed.

(** *** Presentations *)

Lemma normalizeEach_Forall2 l ns :
  Forall2 (fun c n => snd (normalizeCredential host c) = Return n)
    (List.filter notEmpty l) ns ->
  snd (normalizeEach host l) = Return ns.
Proof.
  revert ns. induction l as [|c l IH]; intros ns H; cbn [List.filter normalizeEach] in *.
  - by inversion H.
  - destruct (notEmpty c).
    + inversion H as [|? n ? ns' Hc Hl]; subst.
      destruct (normalizeCredential host c) as [c' r]. cbn [snd] in Hc. subst r.
      specialize (IH _ Hl). destruct (normalizeEach host l) as [l'' rs].
      cbn [snd] in *. by subst rs.
    + specialize (IH _ H). by destruct (normalizeEach host l).
Qed.

Lemma normalizeEach_Return l ns :
  snd (normalizeEach host l) = Return ns ->
  Forall2 (fun c n => snd (normalizeCredential host c) = Return n)
    (List.filter notEmpty l) ns.
Proof.
  revert ns. induction l as [|c l IH]; intros ns H; cbn [List.filter normalizeEach] in *.
  - injection H as <-. constructor.
  - destruct (notEmpty c).
    + destruct (normalizeCredential host c) as [c' [n| |]] eqn:Hc; try discriminate.
      destruct (normalizeEach host l) as [l'' [ns'| |]]; try discriminate.
      cbn [snd bind] in *. injection H as <-.
      constructor; [by rewrite Hc | by apply IH].
    + destruct (normalizeEach host l) as [l'' rs]. by apply IH.
Qed.

Lemma dates_return input result :
  datesConvert host input = true ->
  exists r1 r2, issuanceStep host input result = Return r1
    /\ expirationStep host input r1 = Return r2.
Proof.
  unfold datesConvert, issuanceStep, expirationStep, convertible.
  intros [H1 H2]%andb_prop.
  destruct (negb (truthy (get input "issuanceDate")) && _);
    [destruct (isoOfSeconds host (orElse _ _)); try discriminate|];
  cbn [bind];
  (destruct (negb (truthy (get input "expirationDate")) && _);
    [destruct (isoOfSeconds host (get input "exp")); try discriminate|]);
  cbn [bind]; eauto.
Qed.

Lemma lacksIn_alter_eq e k (r : obj) : lacksIn e k (alter (delete_prop k) e r).
Proof.
  intros o H. rewrite lookup_alter_eq in H.
  destruct (r !! e) as [[]|]; cbn in H; try discriminate.
  injection H as <-. apply lookup_delete_eq.
Qed.

Lemma lacksIn_alter e k k' (r : obj) :
  lacksIn e k r -> lacksIn e k (alter (delete_prop k') e r).
Proof.
  intros Hl o H. rewrite lookup_alter_eq in H.
  destruct (r !! e) as [[| | | | | |m]|] eqn:E; cbn in H; try discriminate.
  injection H as <-.
  destruct (decide (k' = k)) as [->|]; [apply lookup_delete_eq|].
  rewrite lookup_delete_ne by done. by apply Hl.
Qed.

Lemma lacksIn_eq e k (r r' : obj) :
  r' !! e = r !! e -> lacksIn e k r -> lacksIn e k r'.
Proof. unfold lacksIn. by intros ->. Qed.

Lemma lacksIn_dropEmpty e k (r : obj) : lacksIn e k r -> lacksIn e k (dropEmpty e r).
Proof.
  unfold dropEmpty. case_match; [|done]. intros _ o Ho.
  by rewrite lookup_delete_eq in Ho.
Qed.

Lemma presentationSteps_Return input creds result r :
  presentationSteps host input creds result = Return r ->
  r !! "verifiableCredential" = Some (VArr (VObj <$> creds))
  /\ lacksIn "vp" "verifiableCredential" r.
Proof.
  unfold presentationSteps. intros H.
  match type of H with
  | context [ issuanceStep host input ?x ] => set (r0 := x) in H
  end.
  destruct (issuanceStep host input r0) as [r1| |] eqn:E1; try discriminate.
  cbn [bind] in H.
  destruct (expirationStep host input r1) as [r2| |] eqn:E2; try discriminate.
  cbn [bind] in H. injection H as <-. split.
  - rewrite dropEmpty_lookup by done.
    rewrite (expirationStep_lookup _ _ _ _ E2) by done.
    rewrite (issuanceStep_lookup _ _ _ _ E1) by done.
    subst r0. rewrite contextStep_lookup by done.
    repeat case_match; by lk.
  - apply lacksIn_dropEmpty.
    eapply lacksIn_eq; [eapply expirationStep_lookup; [exact E2|done..]|].
    eapply lacksIn_eq; [eapply issuanceStep_lookup; [exact E1|done..]|].
    subst r0. unfold contextStep. apply lacksIn_alter.
    eapply (lacksIn_eq _ _ (alter _ _ _)); [by lk|]. apply lacksIn_alter.
    set (a := alter (delete_prop "verifiableCredential") "vp" _).
    assert (lacksIn "vp" "verifiableCredential" a) as Ha by apply lacksIn_alter_eq.
    clearbody a.
    repeat case_match; (eapply lacksIn_eq; [|exact Ha]); by lk.
Qed.

Lemma presentationSteps_returns input creds result :
  datesConvert host input = true ->
  exists r, presentationSteps host input creds result = Return r.
Proof.
  intros Hd. unfold presentationSteps.
  match goal with
  | |- context [ issuanceStep host input ?x ] => set (r0 := x)
  end.
  destruct (dates_return input r0 Hd) as (r1 & r2 & E1 & E2).
  rewrite E1. cbn [bind]. rewrite E2. cbn [bind]. eauto.
Qed.

Lemma normalizePresentation_obj (m : obj) :
  truthy (get (prop m "proof") "jwt") = false ->
  snd (normalizePresentation host (VObj m))
  = (creds <- snd (normalizeEach host (entriesOf (VObj m)));;
     result <- presentationSteps host (VObj m) creds m;;
     Return (result ∪ {["proof" := VObj ∅]})).
Proof.
  intros Hj. unfold normalizePresentation, normalizePresentationValue.
  unfold prop in Hj. rewrite Hj.
  unfold normalizeJwtPresentationPayload. rewrite deepCopy_id. cbn [spread].
  by destruct (normalizeEach host (entriesOf (VObj m))) as [l [| |]].
Qed.

(** *** The embedded credentials, for every form of the argument *)

(** The result [r] holds, under [verifiableCredential], what
    [normalizeCredential] returns for the entries of [payload] that are
    not [null] or [undefined], in their order, and nothing under
    [vp.verifiableCredential]. *)
Lemma normalizeJwtPresentationPayload_Return payload r :
  snd (normalizeJwtPresentationPayload host payload) = Return r ->
  exists creds,
    Forall2 (fun c n => snd (normalizeCredential host c) = Return n)
      (List.filter notEmpty (entriesOf payload)) creds
    /\ r !! "verifiableCredential" = Some (VArr (VObj <$> creds))
    /\ lacksIn "vp" "verifiableCredential" r.
Proof.
  intros H.
  assert (exists result,
            (creds <- snd (normalizeEach host (entriesOf payload));;
             presentationSteps host payload creds result) = Return r) as [result Hr].
  { unfold normalizeJwtPresentationPayload in H.
    destruct payload; try discriminate;
      destruct (normalizeEach host (entriesOf _)) as [es c]; cbn [snd] in *; eauto. }
  destruct (snd (normalizeEach host (entriesOf payload))) as [creds| |] eqn:Hc;
    try discriminate.
  cbn [bind] in Hr. destruct (presentationSteps_Return _ _ _ _ Hr) as [Hv Hp].
  exists creds. split; [by apply normalizeEach_Return | done].
Qed.

Lemma normalizeJwtPresentationPayload_returns (p : obj) creds :
  Forall2 (fun c n => snd (normalizeCredential host c) = Return n)
    (List.filter notEmpty (entriesOf (VObj p))) creds ->
  datesConvert host (VObj p) = true ->
  exists r, snd (normalizeJwtPresentationPayload host (VObj p)) = Return r.
Proof.
  intros Hc Hd. unfold normalizeJwtPresentationPayload.
  pose proof (normalizeEach_Forall2 _ _ Hc) as He.
  destruct (normalizeEach host (entriesOf (VObj p))) as [l c]. cbn [snd] in *. subst c.
  cbn [bind]. apply presentationSteps_returns, Hd.
Qed.

Lemma normalizePresentationValue_Return input r :
  snd (normalizePresentationValue host input) = Return r ->
  exists payload creds,
    presentationPayloadOfValue host input = Some payload
    /\ Forall2 (fun c n => snd (normalizeCredential host c) = Return n)
         (List.filter notEmpty (entriesOf payload)) creds
    /\ r !! "verifiableCredential" = Some (VArr (VObj <$> creds))
    /\ lacksIn "vp" "verifiableCredential" r.
Proof.
  intros H.
  assert (Hv : snd (if truthy (get (get input "proof") "jwt") then
                 (input,
                  result <- normalizeJwtPresentation host (get (get input "proof") "jwt");;
                  Return (<["proof" := get input "proof"]> result))
               else
                 let '(input', r) := normalizeJwtPresentationPayload host input in
                 (input', result <- r;; Return (result ∪ {["proof" := VObj ∅]})))
             = Return r).
  { unfold normalizePresentationValue in H. destruct input; try discriminate; exact H. }
  clear H. unfold presentationPayloadOfValue.
  destruct (truthy (get (get input "proof") "jwt")); cbn [snd] in Hv.
  - unfold normalizeJwtPresentation in Hv.
    destruct (decodeJWT host _) as [payload|]; [|discriminate].
    destruct (snd (normalizeJwtPresentationPayload host payload)) as [r0| |] eqn:Hp;
      try discriminate.
    cbn [bind] in Hv. injection Hv as <-.
    destruct (normalizeJwtPresentationPayload_Return _ _ Hp) as (creds & Hc & Hvc & Hvp).
    exists payload, creds. split; [done|]. split; [done|].
    split; [by lk|]. eapply lacksIn_eq; [|exact Hvp]. by lk.
  - destruct (normalizeJwtPresentationPayload host input) as [input' [r0| |]] eqn:Hp;
      try discriminate.
    cbn [snd bind] in Hv. injection Hv as <-.
    destruct (normalizeJwtPresentationPayload_Return input r0) as (creds & Hc & Hvc & Hvp);
      [by rewrite Hp|].
    exists input, creds. split; [done|]. split; [done|].
    split; [by rewrite lookup_with_proof|].
    eapply lacksIn_eq; [|exact Hvp]. by rewrite lookup_with_proof.
Qed.

Lemma normalizePresentationValue_returns input (p : obj) creds :
  presentationPayloadOfValue host input = Some (VObj p) ->
  Forall2 (fun c n => snd (normalizeCredential host c) = Return n)
    (List.filter notEmpty (entriesOf (VObj p))) creds ->
  datesConvert host (VObj p) = true ->
  exists r, snd (normalizePresentationValue host input) = Return r.
Proof.
  intros Hp Hc Hd.
  destruct (normalizeJwtPresentationPayload_returns p creds Hc Hd) as [r0 Hr0].
  unfold presentationPayloadOfValue in Hp.
  destruct (truthy (get (get input "proof") "jwt")) eqn:Hj.
  - assert (snd (normalizePresentationValue host input)
            = (result <- normalizeJwtPresentation host (get (get input "proof") "jwt");;
               Return (<["proof" := get input "proof"]> result))) as ->.
    { unfold normalizePresentationValue. rewrite Hj.
      destruct input; try done; by cbn in Hj. }
    unfold normalizeJwtPresentation. rewrite Hp, Hr0. cbn [bind]. eauto.
  - injection Hp as ->. unfold normalizePresentationValue. rewrite Hj.
    destruct (normalizeJwtPresentationPayload host (VObj p)) as [input' r1].
    cbn [snd] in *. subst r1. cbn [bind]. eauto.
Qed.

Lemma presentationPayloadOfString_unfold fuel s :
  presentationPayloadOfString host fuel s
  = if JWT_FORMAT host s then decodeJWT host (VStr s)
    else
      match JSON_parse host s with
      | None => None
      | Some (VStr parsed) =>
          match fuel with
          | O => None
          | S fuel' => presentationPayloadOfString host fuel' parsed
          end
      | Some parsed => presentationPayloadOfValue host parsed
      end.
Proof. by destruct fuel. Qed.

Lemma normalizeJwtPresentation_Return jwt r :
  normalizeJwtPresentation host jwt = Return r ->
  exists payload creds,
    decodeJWT host jwt = Some payload
    /\ Forall2 (fun c n => snd (normalizeCredential host c) = Return n)
         (List.filter notEmpty (entriesOf payload)) creds
    /\ r !! "verifiableCredential" = Some (VArr (VObj <$> creds))
    /\ lacksIn "vp" "verifiableCredential" r.
Proof.
  unfold normalizeJwtPresentation. intros H.
  destruct (decodeJWT host jwt) as [payload|]; [|discriminate].
  destruct (snd (normalizeJwtPresentationPayload host payload)) as [r0| |] eqn:Hp;
    try discriminate.
  cbn [bind] in H. injection H as <-.
  destruct (normalizeJwtPresentationPayload_Return _ _ Hp) as (creds & Hc & Hvc & Hvp).
  exists payload, creds. split; [done|]. split; [done|].
  split; [by lk|]. eapply lacksIn_eq; [|exact Hvp]. by lk.
Qed.

(** C9, amended. [normalizePresentation] takes the embedded credentials
    from the payload of the presentation: the argument itself when it
    is an object without a JWT proof, the decoded payload of
    [proof.jwt] or of a compact JWT, and for a JSON text what the
    parsed value gives. It concatenates the payload's top-level
    [verifiableCredential] with its [vp.verifiableCredential]
    (top-level entries first), drops the entries that are [null] or
    [undefined] and normalizes each of the others through
    [normalizeCredential]: the result's [verifiableCredential] holds
    what these calls return, one for each entry and in the same order,
    and the result's [vp], if it has one, has no own property
    [verifiableCredential]. The call returns when the payload is an
    object, every entry normalizes and the date claims of the payload
    are in range. *)
Theorem C9_embedded_credentials (input : value) :
  (forall r,
     snd (normalizePresentation host input) = Return r ->
     exists payload creds,
       presentationPayload host input = Some payload
       /\ Forall2 (fun c n => snd (normalizeCredential host c) = Return n)
            (List.filter notEmpty
               (asArray (get payload "verifiableCredential")
                ++ asArray (get (get payload "vp") "verifiableCredential")))
            creds
       /\ r !! "verifiableCredential" = Some (VArr (VObj <$> creds))
       /\ (forall vp, r !! "vp" = Some (VObj vp) -> vp !! "verifiableCredential" = None))
  /\ (forall (p : obj) creds,
        presentationPayload host input = Some (VObj p) ->
        Forall2 (fun c n => snd (normalizeCredential host c) = Return n)
          (List.filter notEmpty
             (asArray (prop p "verifiableCredential")
              ++ asArray (get (prop p "vp") "verifiableCredential")))
          creds ->
        datesConvert host (VObj p) = true ->
        exists r, snd (normalizePresentation host input) = Return r).
Proof.
  assert (Hstr : forall fuel s,
    (forall r,
       normalizePresentationString host fuel s = Return r ->
       exists payload creds,
         presentationPayloadOfString host fuel s = Some payload
         /\ Forall2 (fun c n => snd (normalizeCredential host c) = Return n)
              (List.filter notEmpty (entriesOf payload)) creds
         /\ r !! "verifiableCredential" = Some (VArr (VObj <$> creds))
         /\ lacksIn "vp" "verifiableCredential" r)
    /\ (forall (p : obj) creds,
          presentationPayloadOfString host fuel s = Some (VObj p) ->
          Forall2 (fun c n => snd (normalizeCredential host c) = Return n)
            (List.filter notEmpty (entriesOf (VObj p))) creds ->
          datesConvert host (VObj p) = true ->
          exists r, normalizePresentationString host fuel s = Return r)).
  { induction fuel as [|fuel IH]; intros s;
      rewrite normalizePresentationString_unfold, presentationPayloadOfString_unfold;
      (destruct (JWT_FORMAT host s);
       [ split;
         [ apply normalizeJwtPresentation_Return
         | intros p creds Hp Hc Hd; unfold normalizeJwtPresentation; rewrite Hp;
           destruct (normalizeJwtPresentationPayload_returns p creds Hc Hd) as [r0 ->];
           cbn [bind]; eauto ]
       | destruct (JSON_parse host s) as [parsed|]; [|by split] ]).
    - destruct parsed; try (split; [apply normalizePresentationValue_Return
                                   | apply normalizePresentationValue_returns]).
      by split.
    - destruct parsed; try (split; [apply normalizePresentationValue_Return
                                   | apply normalizePresentationValue_returns]).
      apply IH. }
  destruct input as [| | | | s | |];
    try (split; [apply normalizePresentationValue_Return
                | apply normalizePresentationValue_returns]).
  apply Hstr.
Qed.

(** *** What [normalizeCredential] leaves of its argument *)

(** The argument is left as it is, except when it is a legacy
    attestation with a truthy [vc]. *)
Lemma normalizeCredential_frame (input : value) :
  (forall m, input = VObj m ->
     isLegacyAttestationFormat input && truthy (prop m "vc") = false) ->
  fst (normalizeCredential host input) = input.
Proof.
  intros H. destruct input as [| | | | | |m]; try reflexivity.
  specialize (H m eq_refl).
  unfold normalizeCredential, normalizeCredentialValue.
  destruct (truthy (get (get _ "proof") "jwt")); [done|].
  unfold normalizeJwtCredentialPayload, attestationToVcFormat.
  destruct (isLegacyAttestationFormat (VObj m)); [|done].
  cbn [andb] in H. by rewrite H.
Qed.

(** C1, at the inputs on which it fails. [normalizeCredential] applied
    to the legacy attestation [legacyWithVc], which has a [vc] of its
    own, leaves that object with a new property [issVc]: the argument
    is not as it was before the call. So does [normalizePresentation]
    with the attestation embedded in its argument. *)
Theorem C1_legacy_input_mutated :
  fst (normalizeCredential host (VObj legacyWithVc))
  = VObj (<["issVc" := VObj {[ "type" := VArr [VStr "Degree"] ]}]> legacyWithVc)
  /\ legacyWithVc !! "issVc" = None
  /\ fst (normalizePresentation host (VObj legacyPresentation))
     = VObj {[ "verifiableCredential" :=
                 VArr [VObj (<["issVc" := VObj {[ "type" := VArr [VStr "Degree"] ]}]>
                               legacyWithVc)] ]}.
Proof. repeat split; by_vm. Qed.

(** C2, at its input. [normalizeCredential] applied to the legacy
    attestation of the spec returns a credential whose
    [credentialSubject] is [{id: "did:x"}]: the [claim] ([degree]) is
    not in it, ['@context'] is empty and [nbf] is still there. *)
Theorem C2_legacy_attestation_result :
  snd (normalizeCredential host (VObj legacyAttestation))
  = Return {[ "credentialSubject" := VObj {[ "id" := VStr "did:x" ]};
              "issuer" := VObj {[ "id" := VStr "did:y" ]};
              "type" := VArr [VStr "VerifiableCredential"];
              "@context" := VArr [];
              "issuanceDate" := VStr "2020-09-13T12:26:40.000Z";
              "nbf" := VNum 1600000000;
              "proof" := VObj ∅ ]}.
Proof. by_vm. Qed.

End ConverterFacts.

(** ** The claims at concrete inputs *)





Lemma C5_witness :
  JwtPattern.test "not.a.valid.jwt.token" = false
  /\ snd (normalizeCredential nullHost (VStr "not.a.valid.jwt.token"))
     = Throw (TypeError "unknown credential format").
Proof.
  split; [by_vm|].
  apply (C5_unknown_credential_format nullHost "not.a.valid.jwt.token").
  left. split; by_vm.
Defined.

Lemma C6_witness :
  transformCredentialInput nullHost
    {[ "credentialSubject" := VArr [VObj {[ "id" := VStr "a" ]}] ]}
  = Throw (Error "credentialSubject of type array not supported").
Proof.
  apply (C6_array_subject_rejected nullHost _ [VObj {[ "id" := VStr "a" ]}]).
  by_vm.
Defined.



(** C9 as stated fails. For an object that carries a JWT proof the
    credentials of the object itself are not in the result, which has
    those of the payload of the JWT (here none); and an entry that is
    [null] is dropped, not passed to [normalizeCredential], which throws
    on it. *)
Lemma C9_counterexample :
  (r <- snd (normalizePresentation demoHost
               (VObj {[ "verifiableCredential" := VArr [VObj jsonLdCredential];
                        "proof" := VObj {[ "jwt" := VStr demoJwt ]} ]}));;
   Return (r !! "verifiableCredential"))
  = Return (Some (VArr []))
  /\ snd (normalizeCredential nullHost VNull) = Throw RuntimeTypeError
  /\ (r <- snd (normalizePresentation nullHost
                  (VObj {[ "verifiableCredential" := VArr [VNull; VObj jsonLdCredential] ]}));;
      Return (r !! "verifiableCredential"))
     = Return (Some (VArr [VObj (<["proof" := VObj ∅]> jsonLdCredential)])).
Proof. repeat split; by_vm. Qed.

Lemma C9_witness :
  exists r,
    snd (normalizePresentation demoHost (VObj mixedPresentation)) = Return r
    /\ r !! "verifiableCredential"
       = Some (VArr
           [ VObj {[ "credentialSubject" := VObj {[ "id" := VStr "did:x"; "degree" := VStr "BA" ]};
                     "issuer" := VObj {[ "id" := VStr "did:y" ]};
                     "type" := VArr [VStr "VerifiableCredential"];
                     "@context" := VArr [VStr "https://www.w3.org/2018/credentials/v1"];
                     "issuanceDate" := VStr "2020-09-13T12:26:40.000Z";
                     "proof" := VObj {[ "type" := VStr "JwtProof2020";
                                        "jwt" := VStr demoJwt ]} ]};
             VObj (<["proof" := VObj ∅]> jsonLdCredential) ])
    /\ (forall vp, r !! "vp" = Some (VObj vp) -> vp !! "verifiableCredential" = None).
Proof.
  destruct (C9_embedded_credentials demoHost (VObj mixedPresentation)) as [Hprop Hret].
  pose (c1 := ({[ "credentialSubject" := VObj {[ "id" := VStr "did:x"; "degree" := VStr "BA" ]};
                  "issuer" := VObj {[ "id" := VStr "did:y" ]};
                  "type" := VArr [VStr "VerifiableCredential"];
                  "@context" := VArr [VStr "https://www.w3.org/2018/credentials/v1"];
                  "issuanceDate" := VStr "2020-09-13T12:26:40.000Z";
                  "proof" := VObj {[ "type" := VStr "JwtProof2020";
                                     "jwt" := VStr demoJwt ]} ]} : obj)).
  pose (c2 := (<["proof" := VObj ∅]> jsonLdCredential : obj)).
  assert (Hc1 : snd (normalizeCredential demoHost (VStr demoJwt)) = Return c1) by by_vm.
  assert (Hc2 : snd (normalizeCredential demoHost (VObj jsonLdCredential)) = Return c2)
    by by_vm.
  assert (Hpl : presentationPayload demoHost (VObj mixedPresentation)
                = Some (VObj mixedPresentation)) by by_vm.
  destruct (Hret mixedPresentation [c1; c2] Hpl) as [r Hr].
  { change (Forall2 (fun c n => snd (normalizeCredential demoHost c) = Return n)
              [VStr demoJwt; VObj jsonLdCredential] [c1; c2]).
    repeat constructor; assumption. }
  { by_vm. }
  destruct (Hprop r Hr) as (payload & creds & Hpl' & Hf & Hv & Hp).
  rewrite Hpl in Hpl'. injection Hpl' as <-.
  change (Forall2 (fun c n => snd (normalizeCredential demoHost c) = Return n)
            [VStr demoJwt; VObj jsonLdCredential] creds) in Hf.
  exists r. split; [exact Hr|]. split; [|exact Hp].
  inversion Hf as [|? n1 ? l1 H1 Hf1]; subst.
  inversion Hf1 as [|? n2 ? l2 H2 Hf2]; subst.
  inversion Hf2; subst.
  rewrite Hc1 in H1. rewrite Hc2 in H2. injection H1 as <-. injection H2 as <-.
  exact Hv.
Defined.


(** * Further properties of the converters

    The claims above fix single rules of the converters. What follows
    goes through the rest of [src/converters.ts] block by block: the
    helpers, the remaining blocks of the two credential converters, the
    round trip through them, and the two presentation converters. *)

(** ** The helpers: [deepCopy], [cleanUndefined] and the unions *)

Section HelperFacts.

Import JS.

(** X1 (lines 19-48). [deepCopy] returns a value that is equal to its
    argument at every depth (every array entry and every own property
    of every nested object, with the prototypes that [JSON.parse] gives)
    exactly when no object of the argument has an own property
    [__proto__]: an object that has one is copied without it. *)
Theorem X1_deepCopy_equal (v : value) :
  Proto.deepCopy v = Proto.plain v <-> protoFree v = true.
Proof.
  split; [|intros Hv; rewrite <- (deepCopy_id v) at 2; by apply deepCopy_faithful].
  induction v as [| | | | |l IH|m IH] using value_ind'; try done.
  - cbn [Proto.deepCopy Proto.plain protoFree].
    induction IH as [|x l Hx _ IHl]; [done|].
    cbn [map forallb]. intros [= H1 H2]. by rewrite Hx, IHl by (by f_equal).
  - rewrite protoFree_obj. cbn [Proto.deepCopy Proto.plain].
    intros [= Hp Ho].
    assert (Hk : m !! "__proto__" = None).
    { apply (f_equal (fun o => o !! "__proto__")) in Ho.
      rewrite lookup_delete_eq, lookup_fmap in Ho. by destruct (m !! "__proto__"). }
    split; [done|]. intros k x Hx. eapply IH; [done|].
    apply (f_equal (fun o => o !! k)) in Ho.
    rewrite delete_id, !lookup_fmap, Hx in Ho by (by rewrite lookup_fmap, Hk).
    by injection Ho.
Qed.

Lemma cleanUndefined_lookup (o : obj) k :
  cleanUndefined o !! k
  = match o !! k with Some VUndefined => None | x => x end.
Proof.
  unfold cleanUndefined. rewrite map_lookup_filter.
  destruct (o !! k) as [v|]; cbn; [|done].
  destruct v; cbn; try done; rewrite option_guard_True; done.
Qed.

(** X2 (lines 54-61). [cleanUndefined] drops exactly the keys whose
    value is [undefined] and keeps every other key with its value
    ([null] included); applying it twice changes nothing more. *)
Theorem X2_cleanUndefined_keys (o : obj) :
  (forall k, cleanUndefined o !! k
             = match o !! k with Some VUndefined => None | x => x end)
  /\ cleanUndefined (cleanUndefined o) = cleanUndefined o.
Proof.
  split; [apply cleanUndefined_lookup|].
  apply map_eq. intros k. rewrite !cleanUndefined_lookup.
  by destruct (o !! k) as [[]|].
Qed.

(** [SameValueZero] holds of equal values only. *)
Lemma sameValueZero_eq a b : sameValueZero a b = true -> a = b.
Proof.
  destruct a, b; cbn; try done.
  - intros H. apply Bool.eqb_prop in H. by subst.
  - intros H%Z.eqb_eq. by subst.
  - intros H%String.eqb_eq. by subst.
Qed.

Lemma filter_filter_comm {A} (P Q : A -> bool) l :
  List.filter P (List.filter Q l) = List.filter Q (List.filter P l).
Proof.
  induction l as [|x l IH]; [done|]. cbn.
  destruct (P x) eqn:HP, (Q x) eqn:HQ; cbn; rewrite ?HP, ?HQ; congruence.
Qed.

Lemma filter_filter_same {A} (P : A -> bool) l :
  List.filter P (List.filter P l) = List.filter P l.
Proof.
  induction l as [|x l IH]; [done|]. cbn.
  destruct (P x) eqn:HP; cbn; rewrite ?HP; congruence.
Qed.

Lemma filter_all {A} (P : A -> bool) l :
  (forall x, In x l -> P x = true) -> List.filter P l = l.
Proof.
  induction l as [|x l IH]; [done|]. intros H. cbn.
  rewrite (H x) by (by left). f_equal. apply IH. intros y Hy. apply H. by right.
Qed.

(** Removing the values that are the same as [x] before or after
    [newSet] comes to the same. *)
Lemma newSet_filter x l :
  newSet (List.filter (fun y => negb (sameValueZero x y)) l)
  = List.filter (fun y => negb (sameValueZero x y)) (newSet l).
Proof.
  induction l as [|y l IH]; [done|]. simpl.
  destruct (sameValueZero x y) eqn:E; simpl.
  - apply sameValueZero_eq in E as <-. by rewrite IH, filter_filter_same.
  - by rewrite IH, filter_filter_comm.
Qed.

Lemma newSet_idem l : newSet (newSet l) = newSet l.
Proof.
  induction l as [|x l IH]; [done|]. cbn [newSet].
  by rewrite newSet_filter, IH, filter_filter_same.
Qed.

Lemma newSet_elem x l : x ∈ newSet l <-> x ∈ l.
Proof.
  induction l as [|y l IH]; [done|]. cbn [newSet].
  rewrite !elem_of_cons, list_elem_of_In, filter_In, <- list_elem_of_In, IH.
  split; [tauto|]. intros [-> | Hx]; [by left|].
  destruct (sameValueZero y x) eqn:E; [left; symmetry; by apply sameValueZero_eq|].
  by right.
Qed.

Lemma newSet_distinct l :
  ForallOrdPairs (fun x y => sameValueZero x y = false) (newSet l).
Proof.
  induction l as [|x l IH]; cbn [newSet]; constructor.
  - apply List.Forall_forall. intros y [_ Hy]%filter_In. by destruct (sameValueZero x y).
  - clear -IH. induction IH as [|y l' Hy Hl' IH']; cbn [List.filter]; [constructor|].
    destruct (negb (sameValueZero x y)); [|done].
    constructor; [|done].
    apply List.Forall_forall. intros z [Hz _]%filter_In.
    by eapply List.Forall_forall in Hy.
Qed.

Lemma newSet_notEmpty l :
  List.filter notEmpty (newSet l) = newSet (List.filter notEmpty l).
Proof.
  induction l as [|x l IH]; [done|]. cbn [newSet List.filter].
  destruct (notEmpty x) eqn:E; cbn [newSet].
  - by rewrite filter_filter_comm, IH.
  - rewrite filter_filter_comm, IH. apply filter_all.
    intros z Hz%list_elem_of_In%newSet_elem%list_elem_of_In%filter_In.
    destruct Hz as [_ Hz]. destruct (sameValueZero x z) eqn:Es; [|done].
    apply sameValueZero_eq in Es as <-. congruence.
Qed.

(** A union block leaves an array in canonical form as it is. *)
Lemma union2_canonical l :
  newSet (List.filter notEmpty l) = l -> union2 (VArr l) VUndefined = VArr l.
Proof.
  intros H. unfold union2. cbn [asArray]. rewrite List.filter_app. cbn.
  by rewrite app_nil_r, H.
Qed.

Lemma union2_canonical_r l :
  newSet (List.filter notEmpty l) = l -> union2 VUndefined (VArr l) = VArr l.
Proof. intros H. unfold union2. cbn. by rewrite H. Qed.

Lemma union3_canonical l :
  newSet (List.filter notEmpty l) = l ->
  union3 VUndefined (VArr l) VUndefined = VArr l.
Proof.
  intros H. unfold union3. cbn [asArray app List.filter notEmpty].
  rewrite List.filter_app. cbn. by rewrite app_nil_r, H.
Qed.

Lemma union3_canonical_r l :
  newSet (List.filter notEmpty l) = l ->
  union3 VUndefined VUndefined (VArr l) = VArr l.
Proof. intros H. unfold union3. cbn. by rewrite H. Qed.

(** X3 (lines 15-17, 50-52 and the union blocks, lines 110-111 and the
    like). The array that a union block writes for the operands [a]
    and [b] holds exactly the entries of [asArray(a)] and [asArray(b)]
    that are neither [null] nor [undefined]; no two of its entries are
    the same value for [Set]; and a union block applied to that array
    alone gives it back. *)
Theorem X3_union_entries (a b : value) :
  exists l,
    union2 a b = VArr l
    /\ (forall x, x ∈ l <-> (x ∈ asArray a \/ x ∈ asArray b) /\ notEmpty x = true)
    /\ ForallOrdPairs (fun x y => sameValueZero x y = false) l
    /\ union2 (VArr l) VUndefined = VArr l
    /\ union2 VUndefined (VArr l) = VArr l.
Proof.
  eexists. split; [reflexivity|]. split; [|split; [|split]].
  - intros x. rewrite newSet_elem, list_elem_of_In, filter_In, <- list_elem_of_In.
    by rewrite elem_of_app.
  - apply newSet_distinct.
  - apply union2_canonical.
    by rewrite newSet_notEmpty, filter_filter_same, newSet_idem.
  - apply union2_canonical_r.
    by rewrite newSet_notEmpty, filter_filter_same, newSet_idem.
Qed.

End HelperFacts.

(** ** [normalizeCredential], block by block *)

Section CredentialFacts.

Context (host : Host).

Import JS.

Lemma prop_eq (r r' : obj) k : r !! k = r' !! k -> prop r k = prop r' k.
Proof. unfold prop, get. by intros ->. Qed.

Lemma get_delete_prop_ne k k' v : k ≠ k' -> get (delete_prop k v) k' = get v k'.
Proof. intros. destruct v; try done. cbn. by rewrite lookup_delete_ne. Qed.

(** What the blocks leave of the envelope. *)
Lemma subjectStep_vc input result :
  subjectStep input result !! "vc" = delete_prop "credentialSubject" <$> result !! "vc".
Proof. unfold subjectStep. rewrite lookup_alter_eq. case_match; by lk. Qed.

Lemma typeStep_vc result :
  typeStep result !! "vc" = delete_prop "type" <$> result !! "vc".
Proof. unfold typeStep. rewrite lookup_alter_eq. by lk. Qed.

Lemma contextStep_envelope e input result :
  e ≠ "@context" -> e ≠ "context" ->
  contextStep e input result !! e = delete_prop "@context" <$> result !! e.
Proof. intros. unfold contextStep. rewrite lookup_alter_eq. by lk. Qed.

Lemma typeStep_type result :
  typeStep result !! "type"
  = Some (union2 (prop result "type") (get (prop result "vc") "type")).
Proof. unfold typeStep. by lk. Qed.

(** The object that the blocks of [normalizeJwtCredentialPayload] start
    from: the copy of the input, or the converted attestation. *)
Lemma start_lookup (m : obj) k :
  k ≠ "iat" -> k ≠ "nbf" -> k ≠ "claim" -> k ≠ "vc" ->
  (if isLegacyAttestationFormat (VObj m) then snd (attestationToVcFormat host m) else m) !! k
  = m !! k.
Proof. intros. case_match; [by apply attestation_lookup | done]. Qed.

(** The blocks, taken apart. *)
Lemma credentialSteps_inv input result r :
  credentialSteps host input result = Return r ->
  exists r1 r2,
    issuanceStep host input
      (contextStep "vc" input
         (typeStep (idStep input (issuerStep input (subjectStep input result))))) = Return r1
    /\ expirationStep host input r1 = Return r2
    /\ r = dropEmpty "vc" r2.
Proof.
  unfold credentialSteps. intros Hr.
  destruct (issuanceStep _ _ _) as [r1| |] eqn:E1; try discriminate.
  cbn [bind] in Hr.
  destruct (expirationStep _ _ _) as [r2| |] eqn:E2; try discriminate.
  cbn [bind] in Hr. injection Hr as <-. eauto.
Qed.

(** The issuance block (lines 123-130 and 310-317), on the keys it
    writes. *)
Lemma issuanceStep_dates input result r :
  issuanceStep host input result = Return r ->
  if negb (truthy (get input "issuanceDate"))
     && (truthy (get input "iat") || truthy (get input "nbf"))
  then exists s,
         isoOfSeconds host (orElse (get input "nbf") (get input "iat")) = Return s
         /\ r !! "issuanceDate" = Some (VStr s)
         /\ (if truthy (get input "nbf")
             then r !! "nbf" = None /\ r !! "iat" = result !! "iat"
             else r !! "iat" = None /\ r !! "nbf" = result !! "nbf")
  else r !! "issuanceDate" = result !! "issuanceDate"
       /\ r !! "nbf" = result !! "nbf" /\ r !! "iat" = result !! "iat".
Proof.
  unfold issuanceStep. intros Hr.
  destruct (_ && _); [|by injection Hr as <-].
  destruct (isoOfSeconds _ _) as [s| |]; cbn [bind] in Hr; try discriminate.
  injection Hr as <-. exists s. split; [done|].
  destruct (truthy (get input "nbf")); by lk.
Qed.

(** The expiration block (lines 132-135 and 319-322), on the keys it
    writes. *)
Lemma expirationStep_dates input result r :
  expirationStep host input result = Return r ->
  if negb (truthy (get input "expirationDate")) && truthy (get input "exp")
  then exists s,
         isoOfSeconds host (get input "exp") = Return s
         /\ r !! "expirationDate" = Some (VStr s) /\ r !! "exp" = None
  else r !! "expirationDate" = result !! "expirationDate" /\ r !! "exp" = result !! "exp".
Proof.
  unfold expirationStep. intros Hr.
  destruct (_ && _); [|by injection Hr as <-].
  destruct (isoOfSeconds _ _) as [s| |]; cbn [bind] in Hr; try discriminate.
  injection Hr as <-. exists s. by lk.
Qed.

(** A key that none of the first five blocks writes. *)
Lemma early_lookup input result k :
  k ≠ "credentialSubject" -> k ≠ "sub" -> k ≠ "vc" -> k ≠ "issuer" -> k ≠ "iss" ->
  k ≠ "id" -> k ≠ "jti" -> k ≠ "type" -> k ≠ "@context" -> k ≠ "context" ->
  contextStep "vc" input
    (typeStep (idStep input (issuerStep input (subjectStep input result)))) !! k
  = result !! k.
Proof.
  intros. by rewrite contextStep_lookup, typeStep_lookup, idStep_lookup,
    issuerStep_lookup, subjectStep_lookup.
Qed.

(** A call on an object returns when the date claims are in range. *)
Lemma payload_returns (m : obj) :
  datesConvert host (VObj m) = true ->
  exists r,
    snd (normalizeJwtCredentialPayload host (VObj m)) = Return r
    /\ credentialSteps host (VObj m)
         (if isLegacyAttestationFormat (VObj m) then snd (attestationToVcFormat host m)
          else m) = Return r.
Proof.
  intros Hd. rewrite normalizeJwtCredentialPayload_obj.
  destruct (credentialSteps_returns host _
    (if isLegacyAttestationFormat (VObj m) then snd (attestationToVcFormat host m) else m) Hd)
    as [r Hr]. eauto.
Qed.

(** X4 (lines 110-112). In credential normalization, for every input
    object none of whose objects has an own property [__proto__] and
    whose date claims are in range, the result's [type] is the union of
    the input's [type] and [vc.type] (top-level entries first), without
    [null], [undefined] and repeated entries; for a legacy attestation
    the second operand is the default type that the conversion put in
    the envelope, whatever the input's [vc] held. (The block reads
    [type] and [vc.type] from the copy of line 84.) *)
Theorem X4_normalize_types (m : obj) :
  let input := VObj m in
  protoFree input = true ->
  datesConvert host input = true ->
  exists r, snd (normalizeJwtCredentialPayload host input) = Return r
    /\ r !! "type"
       = Some (union2 (get input "type")
                 (if isLegacyAttestationFormat input then VArr [VStr DEFAULT_VC_TYPE]
                  else get (get input "vc") "type")).
Proof.
  intros input _ Hd. subst input.
  destruct (payload_returns m Hd) as (r & Hret & Hr).
  exists r. split; [done|].
  rewrite (credentialSteps_lookup _ _ _ _ _ Hr) by done.
  rewrite contextStep_lookup by done. rewrite typeStep_type. do 2 f_equal.
  - apply prop_eq. rewrite idStep_lookup, issuerStep_lookup, subjectStep_lookup by done.
    by apply start_lookup.
  - unfold prop at 1. unfold get at 2.
    rewrite idStep_lookup, issuerStep_lookup by done. rewrite subjectStep_vc.
    destruct (isLegacyAttestationFormat (VObj m)).
    + unfold attestationToVcFormat. cbn [snd]. by lk.
    + unfold get at 3. destruct (m !! "vc") as [v|]; cbn; [|done].
      by apply get_delete_prop_ne.
Qed.

(** X5 (lines 114-121). In credential normalization, for every input
    object whose date claims are in range, the result's ['@context'] is
    the union of the input's [context], ['@context'] and
    [vc['@context']], in this order, and the result has no [context].
    The three are read from the input: for a legacy attestation the
    default context of the converted envelope is not among them. *)
Theorem X5_normalize_contexts (m : obj) :
  let input := VObj m in
  datesConvert host input = true ->
  exists r, snd (normalizeJwtCredentialPayload host input) = Return r
    /\ r !! "@context"
       = Some (union3 (get input "context") (get input "@context")
                 (get (get input "vc") "@context"))
    /\ r !! "context" = None.
Proof.
  intros input Hd. subst input.
  destruct (payload_returns m Hd) as (r & Hret & Hr).
  exists r. split; [done|].
  rewrite !(credentialSteps_lookup _ _ _ _ _ Hr) by done.
  unfold contextStep. by lk.
Qed.

(** X6 (lines 105-108). In credential normalization, for every input
    object none of whose objects has an own property [__proto__] and
    whose date claims are in range: when [id] is falsy and [jti] is
    truthy, the result's [id] is the input's [jti] and [jti] is
    deleted; otherwise [id] and [jti] are left as they are. (Line 106
    reads [id] and [jti] from the copy of line 84.) *)
Theorem X6_normalize_jti_to_id (m : obj) :
  let input := VObj m in
  protoFree input = true ->
  datesConvert host input = true ->
  exists r, snd (normalizeJwtCredentialPayload host input) = Return r
    /\ if negb (truthy (get input "id")) && truthy (get input "jti")
       then r !! "id" = Some (get input "jti") /\ r !! "jti" = None
       else r !! "id" = m !! "id" /\ r !! "jti" = m !! "jti".
Proof.
  intros input _ Hd. subst input.
  destruct (payload_returns m Hd) as (r & Hret & Hr).
  exists r. split; [done|].
  rewrite !(credentialSteps_lookup _ _ _ _ _ Hr) by done.
  rewrite !contextStep_lookup, !typeStep_lookup by done.
  unfold idStep.
  set (r0 := issuerStep _ _).
  assert (Hid : prop r0 "id" = get (VObj m) "id").
  { apply prop_eq. unfold r0.
    rewrite issuerStep_lookup, subjectStep_lookup by done. by apply start_lookup. }
  assert (Hjti : prop r0 "jti" = get (VObj m) "jti").
  { apply prop_eq. unfold r0.
    rewrite issuerStep_lookup, subjectStep_lookup by done. by apply start_lookup. }
  destruct (truthy (get (VObj m) "id")) eqn:Ei; cbn [negb andb].
  - unfold r0. rewrite !issuerStep_lookup, !subjectStep_lookup by done.
    by rewrite !start_lookup.
  - destruct (truthy (get (VObj m) "jti")) eqn:Ej.
    + lk. rewrite Hid, Hjti. unfold orElse. by rewrite Ei.
    + unfold r0. rewrite !issuerStep_lookup, !subjectStep_lookup by done.
      by rewrite !start_lookup.
Qed.


Lemma credentialSteps_envelope input result r :
  credentialSteps host input result = Return r ->
  r !! "vc"
  = (v ← result !! "vc";
     let v' := delete_prop "@context" (delete_prop "type" (delete_prop "credentialSubject" v)) in
     if truthy v' && noKeys v' then None else Some v').
Proof.
  intros Hr.
  destruct (credentialSteps_inv _ _ _ Hr) as (r1 & r2 & E1 & E2 & ->).
  assert (H2 : r2 !! "vc"
    = delete_prop "@context" <$> (delete_prop "type" <$>
        (delete_prop "credentialSubject" <$> result !! "vc"))).
  { rewrite (expirationStep_lookup _ _ _ _ _ E2) by done.
    rewrite (issuanceStep_lookup _ _ _ _ _ E1) by done.
    rewrite contextStep_envelope by done. rewrite typeStep_vc.
    rewrite idStep_lookup, issuerStep_lookup by done. by rewrite subjectStep_vc. }
  unfold dropEmpty, prop, get. rewrite H2.
  destruct (result !! "vc") as [v|]; cbn; [|done].
  case_match; [by rewrite lookup_delete_eq | by rewrite H2].
Qed.

(** The envelope that the conversion of an attestation builds is
    emptied by the blocks. *)
Lemma attestation_envelope_dropped (m : obj) r :
  credentialSteps host (VObj m) (snd (attestationToVcFormat host m)) = Return r ->
  r !! "vc" = None.
Proof.
  intros Hr. rewrite (credentialSteps_envelope _ _ _ Hr).
  unfold attestationToVcFormat. cbn [snd]. lk. cbn [mbind option_bind delete_prop].
  assert (delete "@context" (delete "type" (delete "credentialSubject"
            (<["credentialSubject" := prop m "claim"]>
               (<["type" := VArr [VStr DEFAULT_VC_TYPE]]>
                  ({["@context" := VArr [VStr (DEFAULT_CONTEXT host)]]} : obj))))) = ∅) as ->.
  { apply map_eq. intros k. rewrite lookup_empty.
    destruct (decide (k = "@context")) as [->|]; [by lk|].
    destruct (decide (k = "type")) as [->|]; [by lk|].
    destruct (decide (k = "credentialSubject")) as [->|]; [by lk|].
    lk. by rewrite lookup_singleton_ne. }
  done.
Qed.

(** X8 (lines 96, 112, 121 and 137-139). In credential normalization,
    for every input object none of whose objects has an own property
    [__proto__] and whose date claims are in range, the result's [vc]
    is the input's [vc] without [credentialSubject], [type] and
    ['@context']; what else the envelope holds stays under [vc], and
    [vc] is deleted when it is truthy and nothing is left in it. For a
    legacy attestation the result has no [vc]. *)
Theorem X8_normalize_envelope (m : obj) :
  let input := VObj m in
  protoFree input = true ->
  datesConvert host input = true ->
  exists r, snd (normalizeJwtCredentialPayload host input) = Return r
    /\ r !! "vc"
       = if isLegacyAttestationFormat input then None
         else v ← m !! "vc";
              let v' := delete_prop "@context"
                          (delete_prop "type" (delete_prop "credentialSubject" v)) in
              if truthy v' && noKeys v' then None else Some v'.
Proof.
  intros input _ Hd. subst input.
  destruct (payload_returns m Hd) as (r & Hret & Hr).
  exists r. split; [done|].
  destruct (isLegacyAttestationFormat (VObj m)).
  - by apply (attestation_envelope_dropped m).
  - by apply (credentialSteps_envelope (VObj m)).
Qed.




(** X10 (lines 63-81 and 86-96). For every legacy attestation (an
    object with truthy [sub], [iss], [claim] and [iat]) whose date
    claims are in range, the normalized credential has no [claim], no
    [iat] and no [vc]; its [credentialSubject] is the merge of the
    input's [credentialSubject] and [vc.credentialSubject] with [id]
    set to [sub] unless the top-level subject has one: what [claim]
    held is not in it. When the input has no truthy [issuanceDate], the
    result's [issuanceDate] is the ISO string of [nbf || iat] seconds,
    and its [nbf] is deleted when the input's is truthy and is the
    input's [iat] otherwise; when it has one, [nbf] is [nbf || iat]. *)
Theorem X10_normalize_legacy (m : obj) :
  let input := VObj m in
  isLegacyAttestationFormat input = true ->
  datesConvert host input = true ->
  exists r, snd (normalizeJwtCredentialPayload host input) = Return r
    /\ r !! "claim" = None
    /\ r !! "iat" = None
    /\ r !! "vc" = None
    /\ r !! "credentialSubject"
       = Some (VObj
           (let merged := spread2 (get input "credentialSubject")
                            (get (get input "vc") "credentialSubject") in
            if truthy (get (get input "credentialSubject") "id") then merged
            else <["id" := get input "sub"]> merged))
    /\ (if truthy (get input "issuanceDate")
        then r !! "issuanceDate" = m !! "issuanceDate"
             /\ r !! "nbf" = Some (orElse (get input "nbf") (get input "iat"))
        else (exists s,
                isoOfSeconds host (orElse (get input "nbf") (get input "iat")) = Return s
                /\ r !! "issuanceDate" = Some (VStr s))
             /\ r !! "nbf" = if truthy (get input "nbf") then None
                             else Some (get input "iat")).
Proof.
  intros input Hl Hd. subst input.
  destruct (payload_returns m Hd) as (r & Hret & Hr).
  exists r. split; [done|]. rewrite Hl in Hr.
  pose proof Hl as Hl'. unfold isLegacyAttestationFormat in Hl'.
  apply andb_prop in Hl' as [Hl' Hiat]. apply andb_prop in Hl' as [Hl' Hclaim].
  apply andb_prop in Hl' as [Hsub Hiss].
  split.
  { rewrite (credentialSteps_lookup _ _ _ _ _ Hr) by done.
    rewrite early_lookup by done. unfold attestationToVcFormat. cbn [snd]. by lk. }
  split; [|split; [|split]].
  - destruct (credentialSteps_inv _ _ _ Hr) as (r1 & r2 & E1 & E2 & ->).
    rewrite dropEmpty_lookup by done.
    rewrite (expirationStep_lookup _ _ _ _ _ E2) by done.
    pose proof (issuanceStep_dates _ _ _ E1) as H. rewrite Hiat in H.
    rewrite !early_lookup in H by done. cbn [orb] in H. rewrite andb_true_r in H.
    assert (Hs : snd (attestationToVcFormat host m) !! "iat" = None)
      by (unfold attestationToVcFormat; cbn [snd]; by lk).
    rewrite Hs in H.
    destruct (truthy (get (VObj m) "issuanceDate")); cbn [negb] in H.
    + by destruct H as (_ & _ & ->).
    + destruct H as (s & _ & _ & H). by destruct (truthy (get (VObj m) "nbf")); destruct H.
  - by apply (attestation_envelope_dropped m).
  - rewrite (credentialSteps_subject _ _ _ _ Hr). cbv zeta. rewrite Hsub. cbn [andb].
    by destruct (truthy (get (get (VObj m) "credentialSubject") "id")).
  - destruct (credentialSteps_inv _ _ _ Hr) as (r1 & r2 & E1 & E2 & ->).
    rewrite !dropEmpty_lookup by done.
    rewrite !(expirationStep_lookup _ _ _ _ _ E2) by done.
    pose proof (issuanceStep_dates _ _ _ E1) as H. rewrite Hiat in H.
    rewrite !early_lookup in H by done. cbn [orb] in H. rewrite andb_true_r in H.
    assert (Hn : snd (attestationToVcFormat host m) !! "nbf"
                 = Some (orElse (get (VObj m) "nbf") (get (VObj m) "iat"))).
    { unfold attestationToVcFormat, orElse, prop; cbn [snd]. lk.
      by destruct (truthy (get (VObj m) "nbf")). }
    assert (Hi : snd (attestationToVcFormat host m) !! "issuanceDate" = m !! "issuanceDate")
      by (by apply attestation_lookup).
    rewrite Hn, Hi in H.
    destruct (truthy (get (VObj m) "issuanceDate")); cbn [negb] in H.
    + by destruct H as (-> & -> & _).
    + destruct H as (s & Hs & -> & H). split; [eauto|].
      destruct (truthy (get (VObj m) "nbf")) eqn:En; destruct H as [H1 H2]; [done|].
      rewrite H2. unfold orElse. by rewrite En.
Qed.

(** X11 (lines 84 and 186-190). [normalizeCredential] on an object
    without a JWT proof, with date claims in range and with no own
    property [__proto__] in any of its objects leaves every property
    that the blocks do not handle as it is in the input
    (application-specific fields pass through), and the result's
    [proof] is the input's, or the empty object when the input has
    none. *)
Theorem X11_normalize_other_fields (m : obj) :
  protoFree (VObj m) = true ->
  truthy (get (prop m "proof") "jwt") = false ->
  datesConvert host (VObj m) = true ->
  exists r,
    snd (normalizeCredential host (VObj m)) = Return r
    /\ r !! "proof" = Some (default (VObj ∅) (m !! "proof"))
    /\ (forall k,
          k ∉ ["credentialSubject"; "sub"; "vc"; "issuer"; "iss"; "id"; "jti"; "type";
               "@context"; "context"; "issuanceDate"; "nbf"; "iat"; "expirationDate";
               "exp"; "claim"; "proof"] ->
          r !! k = m !! k).
Proof.
  intros _ Hj Hd.
  destruct (payload_returns m Hd) as (p & Hret & Hp).
  assert (Hother : forall k,
    k ∉ ["credentialSubject"; "sub"; "vc"; "issuer"; "iss"; "id"; "jti"; "type";
         "@context"; "context"; "issuanceDate"; "nbf"; "iat"; "expirationDate";
         "exp"; "claim"] -> p !! k = m !! k).
  { intros k Hk. split_names Hk.
    rewrite (credentialSteps_lookup _ _ _ _ _ Hp) by done.
    rewrite early_lookup by done. by apply start_lookup. }
  exists (p ∪ {["proof" := VObj ∅]}).
  rewrite (snd_normalizeCredential_obj _ _ Hj), Hret. cbn [bind].
  split; [done|]. split.
  - rewrite lookup_union, lookup_singleton_eq, Hother by not_in_names.
    by destruct (m !! "proof").
  - intros k Hk. rewrite lookup_with_proof by (split_names Hk; done).
    apply Hother. split_names Hk. not_in_names.
Qed.

(** A credential that carries a JWT proof (lines 183-185). *)
Lemma snd_normalizeCredential_jwt (m : obj) :
  truthy (get (prop m "proof") "jwt") = true ->
  snd (normalizeCredential host (VObj m))
  = match decodeJWT host (get (prop m "proof") "jwt") with
    | None => Throw (TypeError "unknown credential format")
    | Some payload =>
        r <- snd (normalizeJwtCredentialPayload host payload);;
        Return (<["proof" := prop m "proof"]> r)
    end.
Proof.
  intros Hj. unfold normalizeCredential, normalizeCredentialValue.
  fold (prop m "proof"). rewrite Hj. cbn [snd]. unfold normalizeJwtCredential.
  destruct (decodeJWT host _) as [payload|]; [|done].
  destruct (snd (normalizeJwtCredentialPayload host payload)) as [r| |]; cbn [bind]; try done.
  rewrite deepCopyObj_id. by rewrite insert_insert_eq.
Qed.

(** X12 (lines 183-185 and 146-160). [normalizeCredential] on an
    object whose [proof.jwt] is truthy decodes that JWT and normalizes
    its payload: the result is what the payload normalizes to, with the
    input's [proof] as [proof]; a JWT that the decoder rejects gives
    [TypeError('unknown credential format')]. Nothing else of the input
    is read: two inputs with the same [proof] come to the same. Line
    185 copies the result: [proof] and the decoded payload are taken to
    have no own property [__proto__] in any of their objects. *)
Theorem X12_normalize_jwt_proof (m m' : obj) :
  let jwt := get (prop m "proof") "jwt" in
  truthy jwt = true ->
  protoFree (prop m "proof") = true ->
  (forall payload, decodeJWT host jwt = Some payload -> protoFree payload = true) ->
  snd (normalizeCredential host (VObj m))
  = match decodeJWT host jwt with
    | None => Throw (TypeError "unknown credential format")
    | Some payload =>
        r <- snd (normalizeJwtCredentialPayload host payload);;
        Return (<["proof" := prop m "proof"]> r)
    end
  /\ (prop m' "proof" = prop m "proof" ->
      snd (normalizeCredential host (VObj m')) = snd (normalizeCredential host (VObj m))).
Proof.
  intros jwt Hj _ _. subst jwt. split; [by apply snd_normalizeCredential_jwt|].
  intros Hp. rewrite !snd_normalizeCredential_jwt; rewrite ?Hp; done.
Qed.

(** X13 (lines 171-173, 146-160 and 183-185). What [normalizeCredential]
    returns for a compact JWT has the proof
    [{type: DEFAULT_JWT_PROOF_TYPE, jwt}], and normalizing that result
    again returns it unchanged. The second call copies its result (line
    185): the decoded payload is taken to have no own property
    [__proto__] in any of its objects. *)
Theorem X13_normalize_jwt_idempotent (s : string) (r : obj) :
  s ≠ EmptyString ->
  JWT_FORMAT host s = true ->
  (forall payload, decodeJWT host (VStr s) = Some payload -> protoFree payload = true) ->
  snd (normalizeCredential host (VStr s)) = Return r ->
  r !! "proof" = Some (VObj {[ "type" := VStr DEFAULT_JWT_PROOF_TYPE; "jwt" := VStr s ]})
  /\ snd (normalizeCredential host (VObj r)) = Return r.
Proof.
  intros Hs Hf _ Hr. cbn [normalizeCredential snd] in Hr.
  rewrite normalizeCredentialString_unfold, Hf in Hr.
  unfold normalizeJwtCredential in Hr.
  destruct (decodeJWT host (VStr s)) as [payload|] eqn:Hd; [|done].
  destruct (snd (normalizeJwtCredentialPayload host payload)) as [p| |] eqn:Hp;
    cbn [bind] in Hr; try done.
  injection Hr as <-. split; [by lk|].
  set (J := <["jwt" := VStr s]> _).
  assert (HJ : prop (<["proof" := VObj J]> p) "proof" = VObj J)
    by (unfold prop, get; by lk).
  assert (Hj : get (VObj J) "jwt" = VStr s) by (unfold get, J; by lk).
  rewrite snd_normalizeCredential_jwt; rewrite HJ, Hj; [|by destruct s].
  rewrite Hd, Hp. by cbn [bind].
Qed.

(** ** [transformCredentialInput], block by block *)

(** The result for an input whose [credentialSubject] is not an array
    and whose [vc], if any, is an object: the last four blocks applied
    to the object that lines 209-230 build. *)
Lemma transformCredentialInput_explicit (input : obj) :
  isArray (prop input "credentialSubject") = false ->
  envelopeShape "vc" input ->
  let subject := spread2 (prop input "credentialSubject")
                   (get (prop input "vc") "credentialSubject") in
  let keep := truthy (prop input "sub") in
  let envelope :=
    <["type" := union2 (prop input "type") (get (prop input "vc") "type")]>
      (<["@context" := union3 (prop input "context") (prop input "@context")
                         (get (prop input "vc") "@context")]>
         (<["credentialSubject" := VObj (if keep then subject else delete "id" subject)]>
            (spread (prop input "vc")))) in
  let base := if keep then input
              else <["sub" := get (prop input "credentialSubject") "id"]> input in
  transformCredentialInput host input
  = Return (issStep input
      (secondsStep host "expirationDate" "exp" input
         (secondsStep host "issuanceDate" "nbf" input
            (jtiStep input
               (delete "type" (delete "@context" (delete "context"
                  (delete "credentialSubject" (<["vc" := VObj envelope]> base))))))))).
Proof.
  intros Ha Hvc subject keep envelope base.
  unfold transformCredentialInput. rewrite Ha.
  pose proof (seedResult_lookup "vc" input Hvc) as Hseed.
  assert (Hs : seedResult "vc" input = <["vc" := VObj (spread (prop input "vc"))]> input).
  { apply map_eq. intros k. destruct (decide (k = "vc")) as [->|].
    - by rewrite Hseed, lookup_insert_eq.
    - rewrite lookup_insert_ne by done. by apply seedResult_lookup_ne. }
  fold subject. fold keep. rewrite Hs.
  destruct keep; cbn [negb].
  - erewrite assignIn_obj by (lk; reflexivity). cbn [bind].
    unfold contextTypeStep.
    erewrite assignIn_obj by (lk; reflexivity). cbn [bind].
    erewrite assignIn_obj by (lk; reflexivity). cbn [bind].
    do 6 f_equal. subst envelope base. apply map_eq. intros k.
    destruct (decide (k = "type")) as [->|]; [by lk|].
    destruct (decide (k = "@context")) as [->|]; [by lk|].
    destruct (decide (k = "context")) as [->|]; [by lk|].
    destruct (decide (k = "credentialSubject")) as [->|]; [by lk|].
    destruct (decide (k = "vc")) as [->|]; by lk.
  - erewrite assignIn_obj by (lk; reflexivity). cbn [bind].
    unfold contextTypeStep.
    erewrite assignIn_obj by (lk; reflexivity). cbn [bind].
    erewrite assignIn_obj by (lk; reflexivity). cbn [bind].
    do 6 f_equal. subst envelope base. apply map_eq. intros k.
    destruct (decide (k = "type")) as [->|]; [by lk|].
    destruct (decide (k = "@context")) as [->|]; [by lk|].
    destruct (decide (k = "context")) as [->|]; [by lk|].
    destruct (decide (k = "credentialSubject")) as [->|]; [by lk|].
    destruct (decide (k = "vc")) as [->|]; [by lk|].
    destruct (decide (k = "sub")) as [->|]; by lk.
Qed.




(** A date block, on the two keys it writes. *)
Lemma secondsStep_written date claim (input result : obj) :
  date ≠ claim ->
  if truthy (prop input date) && lacks input claim
  then match Date_parse host (prop input date) with
       | Some t => secondsStep host date claim input result !! claim = Some (VNum (t / 1000))
                   /\ secondsStep host date claim input result !! date = None
       | None => secondsStep host date claim input result !! claim = result !! claim
                 /\ secondsStep host date claim input result !! date = result !! date
       end
  else secondsStep host date claim input result !! claim = result !! claim
       /\ secondsStep host date claim input result !! date = result !! date.
Proof.
  intros Hne. unfold secondsStep.
  destruct (_ && _); [|done]. destruct (Date_parse host _); [|done]. by lk.
Qed.

(** The object that the last four blocks of [transformCredentialInput]
    start from holds, at a key that the first blocks do not write, what
    the input holds. *)
Lemma transform_base_lookup (input : obj) (envelope : obj) k :
  k ≠ "sub" -> k ≠ "vc" -> k ≠ "credentialSubject" -> k ≠ "context" ->
  k ≠ "@context" -> k ≠ "type" ->
  delete "type" (delete "@context" (delete "context"
    (delete "credentialSubject"
       (<["vc" := VObj envelope]>
          (if truthy (prop input "sub") then input
           else <["sub" := get (prop input "credentialSubject") "id"]> input))))) !! k
  = input !! k.
Proof. intros. lk. by destruct (truthy (prop input "sub")); lk. Qed.




End CredentialFacts.

(** ** The round trip through the two credential converters *)

Section RoundTrip.

Context (host : Host).

Import JS.

Lemma canonicalDate_parse (v : option value) :
  canonicalDate v ->
  v = None
  \/ exists n : Z, n ≠ 0%Z /\ (Z.abs (n * 1000) <= JSDate.maxTime)%Z
       /\ v = Some (VStr (JSDate.isoString (n * 1000)))
       /\ Date_parse host (VStr (JSDate.isoString (n * 1000))) = Some (n * 1000)%Z.
Proof.
  intros [-> | (n & Hn & Hb & ->)]; [by left|]. right. exists n.
  assert ((Z.abs (n * 1000) <= JSDate.maxTime)%Z) by (unfold JSDate.maxTime; lia).
  repeat split; try done. by apply Date_parse_isoString.
Qed.

(** What [transformCredentialInput] makes of a canonical credential. *)
Lemma transform_canonical (c : obj) :
  canonicalCredential c ->
  exists t cs i lc lt,
    transformCredentialInput host c = Return t
    /\ c !! "credentialSubject" = Some (VObj cs)
    /\ c !! "issuer" = Some (VObj i)
    /\ c !! "@context" = Some (VArr lc)
    /\ c !! "type" = Some (VArr lt)
    /\ t !! "credentialSubject" = None /\ t !! "context" = None
    /\ t !! "@context" = None /\ t !! "type" = None /\ t !! "iat" = None
    /\ t !! "vc" = Some (VObj (<["type" := VArr lt]> (<["@context" := VArr lc]>
                           {["credentialSubject" := VObj (delete "id" cs)]})))
    /\ t !! "sub" = Some (get (VObj cs) "id")
    /\ (if truthy (prop c "id")
        then t !! "jti" = Some (prop c "id") /\ t !! "id" = None
        else t !! "jti" = None /\ t !! "id" = c !! "id")
    /\ (match c !! "issuanceDate" with
        | Some _ => exists n : Z,
            c !! "issuanceDate" = Some (VStr (JSDate.isoString (n * 1000)))
            /\ n ≠ 0%Z /\ (Z.abs (n * 1000) <= JSDate.maxTime)%Z
            /\ t !! "nbf" = Some (VNum n) /\ t !! "issuanceDate" = None
        | None => t !! "nbf" = None /\ t !! "issuanceDate" = None
        end)
    /\ (match c !! "expirationDate" with
        | Some _ => exists n : Z,
            c !! "expirationDate" = Some (VStr (JSDate.isoString (n * 1000)))
            /\ n ≠ 0%Z /\ (Z.abs (n * 1000) <= JSDate.maxTime)%Z
            /\ t !! "exp" = Some (VNum n) /\ t !! "expirationDate" = None
        | None => t !! "exp" = None /\ t !! "expirationDate" = None
        end)
    /\ t !! "iss" = Some (get (VObj i) "id")
    /\ t !! "issuer" = (if noKeys (VObj (delete "id" i)) then None
                        else Some (VObj (delete "id" i)))
    /\ (forall k,
          k ∉ ["sub"; "vc"; "credentialSubject"; "context"; "@context"; "type"; "id"; "jti";
               "issuanceDate"; "nbf"; "expirationDate"; "exp"; "issuer"; "iss"] ->
          t !! k = c !! k).
Proof.
  intros [(cs & Hcs & Hid) (i & Hi & Hclean) (lc & Hlc & Hc) (lt & Hlt & Ht) Hissd Hexpd Hj Hcl].
  apply Forall_cons in Hcl as [Hnsub Hcl]. apply Forall_cons in Hcl as [Hniss Hcl].
  apply Forall_cons in Hcl as [Hnjti Hcl]. apply Forall_cons in Hcl as [Hnnbf Hcl].
  apply Forall_cons in Hcl as [Hniat Hcl]. apply Forall_cons in Hcl as [Hnexp Hcl].
  apply Forall_cons in Hcl as [Hnvc Hcl]. apply Forall_cons in Hcl as [Hnctx _].
  assert (Ha : isArray (prop c "credentialSubject") = false)
    by (unfold prop, get; by rewrite Hcs).
  assert (Hvc : envelopeShape "vc" c) by (by left).
  assert (Hsub : truthy (prop c "sub") = false) by (unfold prop, get; by rewrite Hnsub).
  rewrite (transformCredentialInput_explicit host c Ha Hvc). cbv zeta.
  match goal with |- context [ jtiStep c ?x ] => set (R0 := x) end.
  assert (H0 : forall k, k ≠ "sub" -> k ≠ "vc" -> k ≠ "credentialSubject" ->
            k ≠ "context" -> k ≠ "@context" -> k ≠ "type" -> R0 !! k = c !! k)
    by (intros; by apply transform_base_lookup).
  assert (H0cs : R0 !! "credentialSubject" = None) by (unfold R0; by lk).
  assert (H0ctx : R0 !! "context" = None) by (unfold R0; by lk).
  assert (H0actx : R0 !! "@context" = None) by (unfold R0; by lk).
  assert (H0type : R0 !! "type" = None) by (unfold R0; by lk).
  assert (H0vc : R0 !! "vc"
            = Some (VObj (<["type" := VArr lt]> (<["@context" := VArr lc]>
                      {["credentialSubject" := VObj (delete "id" cs)]})))).
  { unfold R0. lk. rewrite Hsub. do 2 f_equal. unfold prop, get.
    rewrite Hlc, Hlt, Hcs, Hnvc, Hnctx. cbn.
    rewrite (union2_canonical lt Ht), (union3_canonical lc Hc).
    unfold spread2. cbn [spread]. by rewrite (left_id_L ∅ (∪)). }
  assert (H0sub : R0 !! "sub" = Some (get (VObj cs) "id")).
  { unfold R0. lk. rewrite Hsub. lk. unfold prop, get. by rewrite Hcs. }
  clearbody R0.
  set (R1 := jtiStep c R0).
  assert (H1 : forall k, k ≠ "id" -> k ≠ "jti" -> R1 !! k = R0 !! k)
    by (intros; by apply jtiStep_lookup).
  assert (H1id : if truthy (prop c "id")
                 then R1 !! "jti" = Some (prop c "id") /\ R1 !! "id" = None
                 else R1 !! "jti" = None /\ R1 !! "id" = c !! "id").
  { unfold R1, jtiStep, lacks. rewrite Hnjti.
    destruct (truthy (prop c "id")); cbn [andb]; lk; [done|]. by rewrite !H0. }
  clearbody R1.
  set (R2 := secondsStep host "issuanceDate" "nbf" c R1).
  assert (H2 : forall k, k ≠ "issuanceDate" -> k ≠ "nbf" -> R2 !! k = R1 !! k)
    by (intros; by apply secondsStep_lookup).
  pose proof (secondsStep_written host "issuanceDate" "nbf" c R1 ltac:(done)) as H2w.
  fold R2 in H2w. rewrite !H1, !H0 in H2w by done. clearbody R2.
  set (R3 := secondsStep host "expirationDate" "exp" c R2).
  assert (H3 : forall k, k ≠ "expirationDate" -> k ≠ "exp" -> R3 !! k = R2 !! k)
    by (intros; by apply secondsStep_lookup).
  pose proof (secondsStep_written host "expirationDate" "exp" c R2 ltac:(done)) as H3w.
  fold R3 in H3w. rewrite !H2, !H1, !H0 in H3w by done. clearbody R3.
  assert (H4 : forall k, k ≠ "iss" -> k ≠ "issuer" -> issStep c R3 !! k = R3 !! k)
    by (intros; by apply issStep_lookup).
  assert (HRi : R3 !! "issuer" = Some (VObj i)) by (by rewrite H3, H2, H1, H0).
  assert (HRs : R3 !! "iss" = None) by (by rewrite H3, H2, H1, H0).
  eexists _, cs, i, lc, lt. split; [reflexivity|].
  do 4 (split; [done|]).
  rewrite !H4, !H3, !H2, !H1 by done.
  do 4 (split; [done|]). split; [by rewrite H0|]. do 2 (split; [done|]).
  split; [exact H1id|].
  split.
  { revert H2w. unfold lacks. rewrite Hnnbf.
    destruct (canonicalDate_parse _ Hissd) as [Hn | (n & Hn0 & Hnb & Hn & Hp)].
    - assert (prop c "issuanceDate" = VUndefined) as -> by (unfold prop, get; by rewrite Hn).
      rewrite !Hn. cbn [truthy andb]. by intros [-> ->].
    - assert (prop c "issuanceDate" = VStr (JSDate.isoString (n * 1000))) as ->
        by (unfold prop, get; by rewrite Hn).
      rewrite !Hn, truthy_isoString, Hp. cbn [andb].
      rewrite Z.div_mul by lia. intros [-> ->]. eauto 10. }
  split.
  { revert H3w. unfold lacks. rewrite Hnexp.
    destruct (canonicalDate_parse _ Hexpd) as [Hn | (n & Hn0 & Hnb & Hn & Hp)].
    - assert (prop c "expirationDate" = VUndefined) as -> by (unfold prop, get; by rewrite Hn).
      rewrite !Hn. cbn [truthy andb]. by intros [-> ->].
    - assert (prop c "expirationDate" = VStr (JSDate.isoString (n * 1000))) as ->
        by (unfold prop, get; by rewrite Hn).
      rewrite !Hn, truthy_isoString, Hp. cbn [andb].
      rewrite Z.div_mul by lia. intros [-> ->]. eauto 10. }
  assert (Hp : prop (alter (delete_prop "id") "issuer" (<["iss" := get (VObj i) "id"]> R3))
                 "issuer" = VObj (delete "id" i)).
  { unfold prop. unfold get at 1. rewrite lookup_alter_eq. lk. by rewrite HRi. }
  assert (Hpi : prop c "issuer" = VObj i) by (unfold prop, get; by rewrite Hi).
  split; [|split].
  - unfold issStep, lacks. rewrite Hpi, Hniss, Hp.
    cbn [truthy andb typeof_object]. destruct (noKeys (VObj (delete "id" i))); by lk.
  - unfold issStep, lacks. rewrite Hpi, Hniss, Hp.
    cbn [truthy andb typeof_object].
    destruct (noKeys (VObj (delete "id" i))); lk; [done|].
    rewrite lookup_alter_eq. lk. by rewrite HRi.
  - intros k Hk. split_names Hk. by rewrite H4, H3, H2, H1, H0.
Qed.


Lemma cleanUndefined_restore (i : obj) :
  cleanUndefined i = i ->
  cleanUndefined (delete "id" i ∪ {["id" := get (VObj i) "id"]}) = i.
Proof.
  intros Hc. apply map_eq. intros k. rewrite cleanUndefined_lookup, lookup_union.
  assert (Hk : i !! k ≠ Some VUndefined).
  { rewrite <- Hc, cleanUndefined_lookup. by destruct (i !! k) as [[]|]. }
  destruct (decide (k = "id")) as [->|].
  - rewrite lookup_delete_eq, lookup_singleton_eq. unfold get. cbn.
    by destruct (i !! "id") as [[]|].
  - rewrite lookup_delete_ne, lookup_singleton_ne by done.
    by destruct (i !! k) as [[]|].
Qed.

Lemma noKeys_empty (o : obj) : noKeys (VObj o) = true -> o = ∅.
Proof.
  cbn. intros H%Nat.eqb_eq. by apply map_size_empty_inv.
Qed.

(** The blocks of the normalizer on an object [t] as
    [transform_canonical] describes it give back the credential [c]. *)
Lemma credentialSteps_canonical (c t cs i : obj) lc lt :
  truthy (get (VObj cs) "id") = true ->
  cleanUndefined i = i ->
  newSet (List.filter notEmpty lc) = lc ->
  newSet (List.filter notEmpty lt) = lt ->
  c !! "credentialSubject" = Some (VObj cs) ->
  c !! "issuer" = Some (VObj i) ->
  c !! "@context" = Some (VArr lc) ->
  c !! "type" = Some (VArr lt) ->
  Forall (fun k => c !! k = None)
    ["sub"; "iss"; "jti"; "nbf"; "iat"; "exp"; "vc"; "context"] ->
  t !! "credentialSubject" = None -> t !! "context" = None ->
  t !! "@context" = None -> t !! "type" = None -> t !! "iat" = None ->
  t !! "vc" = Some (VObj (<["type" := VArr lt]> (<["@context" := VArr lc]>
                       {["credentialSubject" := VObj (delete "id" cs)]}))) ->
  t !! "sub" = Some (get (VObj cs) "id") ->
  (if truthy (prop c "id")
   then t !! "jti" = Some (prop c "id") /\ t !! "id" = None
   else t !! "jti" = None /\ t !! "id" = c !! "id") ->
  (match c !! "issuanceDate" with
   | Some _ => exists n : Z,
       c !! "issuanceDate" = Some (VStr (JSDate.isoString (n * 1000)))
       /\ n ≠ 0%Z /\ (Z.abs (n * 1000) <= JSDate.maxTime)%Z
       /\ t !! "nbf" = Some (VNum n) /\ t !! "issuanceDate" = None
   | None => t !! "nbf" = None /\ t !! "issuanceDate" = None
   end) ->
  (match c !! "expirationDate" with
   | Some _ => exists n : Z,
       c !! "expirationDate" = Some (VStr (JSDate.isoString (n * 1000)))
       /\ n ≠ 0%Z /\ (Z.abs (n * 1000) <= JSDate.maxTime)%Z
       /\ t !! "exp" = Some (VNum n) /\ t !! "expirationDate" = None
   | None => t !! "exp" = None /\ t !! "expirationDate" = None
   end) ->
  t !! "iss" = Some (get (VObj i) "id") ->
  t !! "issuer" = (if noKeys (VObj (delete "id" i)) then None
                   else Some (VObj (delete "id" i))) ->
  (forall k,
     k ∉ ["sub"; "vc"; "credentialSubject"; "context"; "@context"; "type"; "id"; "jti";
          "issuanceDate"; "nbf"; "expirationDate"; "exp"; "issuer"; "iss"] ->
     t !! k = c !! k) ->
  credentialSteps host (VObj t) t = Return c.
Proof.
  intros Hid Hclean Hc Ht Hcs Hi Hlc Hlt Hcl Htcs Htctx Htactx Httype Htiat Htvc Htsub
    Htid Htiss Htexp Htis Htissuer Hother.
  apply Forall_cons in Hcl as [Hnsub Hcl]. apply Forall_cons in Hcl as [Hniss Hcl].
  apply Forall_cons in Hcl as [Hnjti Hcl]. apply Forall_cons in Hcl as [Hnnbf Hcl].
  apply Forall_cons in Hcl as [Hniat Hcl]. apply Forall_cons in Hcl as [Hnexp Hcl].
  apply Forall_cons in Hcl as [Hnvc Hcl]. apply Forall_cons in Hcl as [Hnctx _].
  (* what the blocks read from [t] *)
  assert (Gcs : get (VObj t) "credentialSubject" = VUndefined)
    by (unfold get; by rewrite Htcs).
  assert (Gvc : get (VObj t) "vc"
                = VObj (<["type" := VArr lt]> (<["@context" := VArr lc]>
                          {["credentialSubject" := VObj (delete "id" cs)]})))
    by (unfold get; by rewrite Htvc).
  assert (Gsub : get (VObj t) "sub" = get (VObj cs) "id") by (unfold get at 1; by rewrite Htsub).
  assert (Giat : get (VObj t) "iat" = VUndefined) by (unfold get; by rewrite Htiat).
  assert (Gctx : get (VObj t) "context" = VUndefined) by (unfold get; by rewrite Htctx).
  assert (Gactx : get (VObj t) "@context" = VUndefined) by (unfold get; by rewrite Htactx).
  assert (Giss : get (VObj t) "iss" = get (VObj i) "id") by (unfold get at 1; by rewrite Htis).
  assert (Gissuer : get (VObj t) "issuer"
                    = if noKeys (VObj (delete "id" i)) then VUndefined
                      else VObj (delete "id" i)).
  { unfold get. rewrite Htissuer. by destruct (noKeys _). }
  assert (Gissd : get (VObj t) "issuanceDate" = VUndefined).
  { unfold get. destruct (c !! "issuanceDate"); [destruct Htiss as (n & _ & _ & _ & _ & ->)
      | destruct Htiss as [_ ->]]; done. }
  assert (Gexpd : get (VObj t) "expirationDate" = VUndefined).
  { unfold get. destruct (c !! "expirationDate"); [destruct Htexp as (n & _ & _ & _ & _ & ->)
      | destruct Htexp as [_ ->]]; done. }
  (* the date claims of [t] are in range *)
  assert (Hd : datesConvert host (VObj t) = true).
  { unfold datesConvert. rewrite Gissd, Gexpd, Giat. cbn [truthy negb andb orb].
    apply andb_true_intro. split.
    - destruct (c !! "issuanceDate").
      + destruct Htiss as (n & _ & Hn0 & Hb & Hn & _).
        assert (get (VObj t) "nbf" = VNum n) as -> by (unfold get; by rewrite Hn).
        assert (truthy (VNum n) = true) as Ht' by (cbn; by destruct (Z.eqb_spec n 0)).
        unfold orElse. rewrite Ht'. unfold convertible.
        by rewrite isoOfSeconds_num.
      + destruct Htiss as [Hn _].
        by assert (get (VObj t) "nbf" = VUndefined) as -> by (unfold get; by rewrite Hn).
    - destruct (c !! "expirationDate").
      + destruct Htexp as (n & _ & Hn0 & Hb & Hn & _).
        assert (get (VObj t) "exp" = VNum n) as -> by (unfold get; by rewrite Hn).
        assert (truthy (VNum n) = true) as -> by (cbn; by destruct (Z.eqb_spec n 0)).
        unfold convertible. by rewrite isoOfSeconds_num.
      + destruct Htexp as [Hn _].
        by assert (get (VObj t) "exp" = VUndefined) as -> by (unfold get; by rewrite Hn). }
  destruct (credentialSteps_returns host _ t Hd) as [r Hr]. rewrite Hr. f_equal.
  apply map_eq. intros k.
  destruct (decide (k = "credentialSubject")) as [->|].
  { rewrite (credentialSteps_subject _ _ _ _ Hr). cbv zeta.
    rewrite Gcs, Gvc, Gsub, Hid. cbn [get truthy negb andb]. rewrite Hcs. do 2 f_equal.
    unfold get. lk. rewrite lookup_singleton_eq. unfold spread2. cbn.
    rewrite (right_id_L ∅ (∪)). apply map_eq. intros k.
    destruct (decide (k = "id")) as [->|]; lk; [|done].
    unfold get in Hid. by destruct (cs !! "id"). }
  destruct (decide (k = "vc")) as [->|].
  { rewrite (credentialSteps_envelope _ _ _ _ Hr), Htvc, Hnvc. cbn. by_vm. }
  destruct (credentialSteps_inv _ _ _ _ Hr) as (r1 & r2 & E1 & E2 & Hr2).
  pose proof (issuanceStep_dates _ _ _ _ E1) as D1.
  rewrite !early_lookup, Gissd, Giat in D1 by done. cbn [truthy negb andb orb] in D1.
  pose proof (expirationStep_dates _ _ _ _ E2) as D2.
  rewrite !(issuanceStep_lookup _ _ _ _ _ E1), !early_lookup, Gexpd in D2 by done.
  cbn [truthy negb andb] in D2.
  assert (Hdate : forall k, k ≠ "vc" -> k ≠ "expirationDate" -> k ≠ "exp" -> r !! k = r1 !! k).
  { intros k' ???. rewrite Hr2, dropEmpty_lookup by done.
    by apply (expirationStep_lookup _ _ _ _ _ E2). }
  destruct (decide (k ∈ ["issuanceDate"; "nbf"; "iat"])) as [Hk|Hk].
  { destruct (c !! "issuanceDate") eqn:Hci.
    - destruct Htiss as (z & Hcn & Hn0 & Hb & Hn & Hti).
      assert (get (VObj t) "nbf" = VNum z) as Gn by (unfold get; by rewrite Hn).
      assert (truthy (VNum z) = true) as Ht' by (cbn; by destruct (Z.eqb_spec z 0)).
      rewrite Gn, Ht' in D1. unfold orElse in D1. rewrite Ht' in D1.
      destruct D1 as (s & Hs & Ds & Dn & Di).
      rewrite isoOfSeconds_num in Hs by done. injection Hs as <-.
      repeat (apply elem_of_cons in Hk as [->|Hk]); rewrite ?Hdate by done;
        [by rewrite Ds, Hci, Hcn | by rewrite Dn, Hnnbf | by rewrite Di, Htiat, Hniat
        | by apply elem_of_nil in Hk].
    - destruct Htiss as [Hn Hti].
      assert (get (VObj t) "nbf" = VUndefined) as Gn by (unfold get; by rewrite Hn).
      rewrite Gn in D1. cbn [truthy] in D1. destruct D1 as (Ds & Dn & Di).
      repeat (apply elem_of_cons in Hk as [->|Hk]); rewrite ?Hdate by done;
        [by rewrite Ds, Hti, Hci | by rewrite Dn, Hn, Hnnbf | by rewrite Di, Htiat, Hniat
        | by apply elem_of_nil in Hk]. }
  destruct (decide (k ∈ ["expirationDate"; "exp"])) as [Hk'|Hk'].
  { assert (Hlast : forall k, k ≠ "vc" -> r !! k = r2 !! k)
      by (intros; by rewrite Hr2, dropEmpty_lookup).
    destruct (c !! "expirationDate") eqn:Hci.
    - destruct Htexp as (z & Hcn & Hn0 & Hb & Hn & Hti).
      assert (get (VObj t) "exp" = VNum z) as Gn by (unfold get; by rewrite Hn).
      assert (truthy (VNum z) = true) as Ht' by (cbn; by destruct (Z.eqb_spec z 0)).
      rewrite Gn, Ht' in D2. destruct D2 as (s & Hs & Ds & Dn).
      rewrite isoOfSeconds_num in Hs by done. injection Hs as <-.
      repeat (apply elem_of_cons in Hk' as [->|Hk']); rewrite ?Hlast by done;
        [by rewrite Ds, Hci, Hcn | by rewrite Dn, Hnexp | by apply elem_of_nil in Hk'].
    - destruct Htexp as [Hn Hti].
      assert (get (VObj t) "exp" = VUndefined) as Gn by (unfold get; by rewrite Hn).
      rewrite Gn in D2. cbn [truthy] in D2. destruct D2 as (Ds & Dn).
      repeat (apply elem_of_cons in Hk' as [->|Hk']); rewrite ?Hlast by done;
        [by rewrite Ds, Hti, Hci | by rewrite Dn, Hn, Hnexp | by apply elem_of_nil in Hk']. }
  split_names Hk. split_names Hk'.
  rewrite (credentialSteps_lookup _ _ _ _ _ Hr) by done.
  destruct (decide (k = "sub")) as [->|].
  { rewrite contextStep_lookup, typeStep_lookup, idStep_lookup, issuerStep_lookup by done.
    unfold subjectStep. rewrite Gcs, Gsub, Hid. cbn [get truthy negb andb]. by lk. }
  destruct (decide (k = "@context")) as [->|].
  { unfold contextStep. lk. rewrite Gctx, Gactx, Gvc, Hlc. do 2 f_equal.
    unfold get. lk. by apply union3_canonical_r. }
  destruct (decide (k = "context")) as [->|].
  { unfold contextStep. by lk. }
  rewrite contextStep_lookup by done.
  destruct (decide (k = "type")) as [->|].
  { rewrite typeStep_type, Hlt. f_equal.
    assert (prop (idStep (VObj t) (issuerStep (VObj t) (subjectStep (VObj t) t))) "type"
            = VUndefined) as ->.
    { unfold prop, get.
      by rewrite idStep_lookup, issuerStep_lookup, subjectStep_lookup, Httype by done. }
    assert (get (prop (idStep (VObj t) (issuerStep (VObj t) (subjectStep (VObj t) t))) "vc")
              "type" = VArr lt) as ->.
    { unfold prop. unfold get at 2.
      rewrite idStep_lookup, issuerStep_lookup by done. rewrite subjectStep_vc, Htvc.
      cbn. by lk. }
    by apply union2_canonical_r. }
  rewrite typeStep_lookup by done.
  assert (Hpre : forall k, k ≠ "issuer" -> k ≠ "iss" -> k ≠ "credentialSubject" ->
            k ≠ "sub" -> k ≠ "vc" ->
            issuerStep (VObj t) (subjectStep (VObj t) t) !! k = t !! k).
  { intros. by rewrite issuerStep_lookup, subjectStep_lookup. }
  destruct (decide (k ∈ ["id"; "jti"])) as [Hk''|Hk''].
  { unfold idStep.
    assert (prop (issuerStep (VObj t) (subjectStep (VObj t) t)) "id" = get (VObj t) "id") as ->
      by (apply prop_eq; by apply Hpre).
    assert (prop (issuerStep (VObj t) (subjectStep (VObj t) t)) "jti" = get (VObj t) "jti") as ->
      by (apply prop_eq; by apply Hpre).
    destruct (truthy (prop c "id")) eqn:Eid.
    - destruct Htid as [Hjti Hid'].
      assert (get (VObj t) "id" = VUndefined) as -> by (unfold get; by rewrite Hid').
      assert (get (VObj t) "jti" = prop c "id") as -> by (unfold get at 1; by rewrite Hjti).
      rewrite Eid. cbn [truthy negb andb]. unfold orElse. cbn [truthy].
      assert (c !! "id" = Some (prop c "id")) as Hcid.
      { unfold prop, get in *. by destruct (c !! "id"). }
      repeat (apply elem_of_cons in Hk'' as [->|Hk'']); lk;
        [by rewrite Hcid | done | by apply elem_of_nil in Hk''].
    - destruct Htid as [Hjti Hid'].
      assert (get (VObj t) "jti" = VUndefined) as -> by (unfold get; by rewrite Hjti).
      cbn [truthy andb]. rewrite andb_false_r.
      repeat (apply elem_of_cons in Hk'' as [->|Hk'']); rewrite Hpre by done;
        [done | by rewrite Hjti, Hnjti | by apply elem_of_nil in Hk'']. }
  split_names Hk''. rewrite idStep_lookup by done.
  destruct (decide (k ∈ ["issuer"; "iss"])) as [Hk3|Hk3].
  { unfold issuerStep. rewrite Gissuer, Giss.
    assert (Hsp : spread (if noKeys (VObj (delete "id" i)) then VUndefined
                          else VObj (delete "id" i)) = delete "id" i).
    { destruct (noKeys (VObj (delete "id" i))) eqn:En; [|done].
      by rewrite (noKeys_empty _ En). }
    assert (Hgi : get (if noKeys (VObj (delete "id" i)) then VUndefined
                       else VObj (delete "id" i)) "id" = VUndefined).
    { destruct (noKeys (VObj (delete "id" i))); [done|]. unfold get. by lk. }
    rewrite Hsp, Hgi, (cleanUndefined_restore i Hclean).
    assert ((is_undefined (if noKeys (VObj (delete "id" i)) then VUndefined
                           else VObj (delete "id" i))
             || typeof_object (if noKeys (VObj (delete "id" i)) then VUndefined
                               else VObj (delete "id" i))) = true) as ->
      by (by destruct (noKeys (VObj (delete "id" i)))).
    cbn [truthy negb].
    repeat (apply elem_of_cons in Hk3 as [->|Hk3]); lk;
      [done | done | by apply elem_of_nil in Hk3]. }
  split_names Hk3. rewrite Hpre by done.
  apply Hother. not_in_names.
Qed.


(** X18 (lines 204-269, then 168-191 and 83-144). A credential [c] in
    canonical form (a subject with a truthy [id], an issuer object
    without undefined-valued keys, arrays of contexts and types as the
    union blocks write them, dates as [toISOString] writes them for
    whole non-zero seconds, no JWT proof, none of the JWT claims) and
    with no own property [__proto__] in any of its objects is
    transformed by [transformCredentialInput] into a payload that
    [normalizeCredential] turns back into [c], with the empty [proof]
    added when [c] had none. *)
Theorem X18_credential_round_trip (c : obj) :
  canonicalCredential c ->
  protoFree (VObj c) = true ->
  exists t,
    transformCredentialInput host c = Return t
    /\ snd (normalizeCredential host (VObj t)) = Return (c ∪ {["proof" := VObj ∅]}).
Proof.
  intros Hcan _.
  destruct (transform_canonical c Hcan)
    as (t & cs & i & lc & lt & Ht & Hcs & Hi & Hlc & Hlt & Htcs & Htctx & Htactx & Httype
        & Htiat & Htvc & Htsub & Htid & Htiss & Htexp & Htis & Htissuer & Hother).
  destruct Hcan as [(cs' & Hcs' & Hid) (i' & Hi' & Hclean) (lc' & Hlc' & Hc) (lt' & Hlt' & Hty)
    _ _ Hj Hcl].
  rewrite Hcs in Hcs'. rewrite Hi in Hi'. rewrite Hlc in Hlc'. rewrite Hlt in Hlt'.
  injection Hcs' as <-. injection Hi' as <-. injection Hlc' as <-. injection Hlt' as <-.
  exists t. split; [done|].
  assert (Hp : prop t "proof" = prop c "proof")
    by (apply prop_eq, Hother; not_in_names).
  rewrite snd_normalizeCredential_obj by (by rewrite Hp).
  rewrite normalizeJwtCredentialPayload_obj.
  assert (isLegacyAttestationFormat (VObj t) = false) as ->.
  { unfold isLegacyAttestationFormat, get. rewrite Htiat. cbn. by rewrite andb_false_r. }
  by rewrite (credentialSteps_canonical c t cs i lc lt).
Qed.

End RoundTrip.

(** ** The presentation converters *)

Section PresentationFacts.

Context (host : Host).

Import JS.

(** X19 (lines 354-365 and 331-337). [normalizePresentation] throws
    [TypeError('unknown presentation format')] for every string that
    fails the JWT pattern and that [JSON.parse] rejects, and for every
    string that matches the pattern and that the decoder rejects. *)
Theorem X19_unknown_presentation_format (s : string) :
  (JWT_FORMAT host s = false /\ JSON_parse host s = None)
  \/ (JWT_FORMAT host s = true /\ decodeJWT host (VStr s) = None) ->
  snd (normalizePresentation host (VStr s))
  = Throw (TypeError "unknown presentation format").
Proof.
  intros H. cbn [normalizePresentation snd].
  rewrite normalizePresentationString_unfold.
  destruct H as [[-> ->] | [-> Hd]]; [done|].
  unfold normalizeJwtPresentation. by rewrite Hd.
Qed.

Lemma normalizeEach_throws l1 c l2 creds e :
  Forall2 (fun c n => snd (normalizeCredential host c) = Return n)
    (List.filter notEmpty l1) creds ->
  notEmpty c = true ->
  snd (normalizeCredential host c) = Throw e ->
  snd (normalizeEach host (l1 ++ c :: l2)) = Throw e.
Proof.
  revert creds. induction l1 as [|x l1 IH]; intros creds Hf Hc He;
    cbn [app List.filter normalizeEach] in *.
  - rewrite Hc. destruct (normalizeCredential host c) as [c' r]. cbn [snd] in He.
    by subst r.
  - destruct (notEmpty x).
    + inversion Hf as [|? n ? ns Hx Hl]; subst.
      destruct (normalizeCredential host x) as [x' r]. cbn [snd] in Hx. subst r.
      specialize (IH _ Hl Hc He).
      destruct (normalizeEach host (l1 ++ c :: l2)) as [l'' rs]. cbn [snd] in *.
      by subst rs.
    + specialize (IH _ Hf Hc He).
      by destruct (normalizeEach host (l1 ++ c :: l2)).
Qed.

(** X20 (lines 274-278). [normalizePresentation] on a presentation
    object without a JWT proof throws what [normalizeCredential] throws
    on the first embedded credential that it rejects: the entries
    before it normalize, the blocks after line 278 are not reached. *)
Theorem X20_normalize_presentation_entry_throws (m : obj) l1 c l2 creds e :
  truthy (get (prop m "proof") "jwt") = false ->
  entriesOf (VObj m) = l1 ++ c :: l2 ->
  Forall2 (fun c n => snd (normalizeCredential host c) = Return n)
    (List.filter notEmpty l1) creds ->
  notEmpty c = true ->
  snd (normalizeCredential host c) = Throw e ->
  snd (normalizePresentation host (VObj m)) = Throw e.
Proof.
  intros Hj He Hf Hc Ht. rewrite (normalizePresentation_obj _ _ Hj), He.
  by rewrite (normalizeEach_throws _ _ _ _ _ Hf Hc Ht).
Qed.

Lemma presentationSteps_blocks input creds result :
  presentationSteps host input creds result
  = (r1 <- issuanceStep host input (presentationPrefix input creds result);;
     r2 <- expirationStep host input r1;;
     Return (dropEmpty "vp" r2)).
Proof. reflexivity. Qed.

Lemma presentationSteps_inv input creds result r :
  presentationSteps host input creds result = Return r ->
  exists r1 r2,
    issuanceStep host input (presentationPrefix input creds result) = Return r1
    /\ expirationStep host input r1 = Return r2
    /\ r = dropEmpty "vp" r2.
Proof.
  rewrite presentationSteps_blocks. intros Hr.
  destruct (issuanceStep _ _ _) as [r1| |] eqn:E1; try discriminate.
  cbn [bind] in Hr.
  destruct (expirationStep _ _ _) as [r2| |] eqn:E2; try discriminate.
  cbn [bind] in Hr. injection Hr as <-. eauto.
Qed.

Lemma presentationSteps_lookup input creds result r k :
  presentationSteps host input creds result = Return r ->
  k ≠ "issuanceDate" -> k ≠ "nbf" -> k ≠ "iat" ->
  k ≠ "expirationDate" -> k ≠ "exp" -> k ≠ "vp" ->
  r !! k = presentationPrefix input creds result !! k.
Proof.
  intros Hr ??????.
  destruct (presentationSteps_inv _ _ _ _ Hr) as (r1 & r2 & E1 & E2 & ->).
  rewrite dropEmpty_lookup by done.
  rewrite (expirationStep_lookup _ _ _ _ _ E2) by done.
  by rewrite (issuanceStep_lookup _ _ _ _ _ E1) by done.
Qed.

Lemma embedStep_lookup creds result k :
  k ≠ "verifiableCredential" -> k ≠ "vp" -> embedStep creds result !! k = result !! k.
Proof. intros. unfold embedStep. by lk. Qed.

Lemma holderStep_lookup input result k :
  k ≠ "holder" -> k ≠ "iss" -> holderStep input result !! k = result !! k.
Proof. intros. unfold holderStep. case_match; by lk. Qed.

Lemma verifierStep_lookup input result k :
  k ≠ "verifier" -> k ≠ "aud" -> verifierStep input result !! k = result !! k.
Proof. intros. unfold verifierStep. case_match; by lk. Qed.

Lemma presentationIdStep_lookup input result k :
  k ≠ "id" -> k ≠ "jti" -> presentationIdStep input result !! k = result !! k.
Proof. intros. unfold presentationIdStep. case_match; by lk. Qed.

Lemma presentationTypeStep_lookup input result k :
  k ≠ "type" -> k ≠ "vp" -> presentationTypeStep input result !! k = result !! k.
Proof. intros. unfold presentationTypeStep. by lk. Qed.

(** A presentation object without a JWT proof whose embedded
    credentials normalize and whose date claims are in range is
    normalized. *)
Lemma normalizePresentation_returns (m : obj) (creds : list obj) :
  truthy (get (prop m "proof") "jwt") = false ->
  Forall2 (fun c n => snd (normalizeCredential host c) = Return n)
    (List.filter notEmpty (entriesOf (VObj m))) creds ->
  datesConvert host (VObj m) = true ->
  exists p,
    presentationSteps host (VObj m) creds m = Return p
    /\ snd (normalizePresentation host (VObj m)) = Return (p ∪ {["proof" := VObj ∅]}).
Proof.
  intros Hj Hc Hd. rewrite (normalizePresentation_obj _ _ Hj).
  rewrite (normalizeEach_Forall2 _ _ _ Hc). cbn [bind].
  destruct (presentationSteps_returns host (VObj m) creds m Hd) as [p Hp].
  rewrite Hp. cbn [bind]. eauto.
Qed.



(** X23 (lines 297-308 and 324-326). In presentation normalization,
    under the same conditions and for an input with no own property
    [__proto__] in any of its objects, the result's [type] is the union
    of the input's [type] and [vp.type], its ['@context'] the union of
    [context], ['@context'] and [vp['@context']], it has no [context],
    and its [vp] is the input's without [verifiableCredential], [type]
    and ['@context'], deleted when it is truthy and nothing is left in
    it. *)
Theorem X23_normalize_presentation_types_contexts (m : obj) (creds : list obj) :
  protoFree (VObj m) = true ->
  truthy (get (prop m "proof") "jwt") = false ->
  Forall2 (fun c n => snd (normalizeCredential host c) = Return n)
    (List.filter notEmpty (entriesOf (VObj m))) creds ->
  datesConvert host (VObj m) = true ->
  exists r,
    snd (normalizePresentation host (VObj m)) = Return r
    /\ r !! "type" = Some (union2 (prop m "type") (get (prop m "vp") "type"))
    /\ r !! "@context"
       = Some (union3 (prop m "context") (prop m "@context") (get (prop m "vp") "@context"))
    /\ r !! "context" = None
    /\ r !! "vp"
       = (v ← m !! "vp";
          let v' := delete_prop "@context"
                      (delete_prop "type" (delete_prop "verifiableCredential" v)) in
          if truthy v' && noKeys v' then None else Some v').
Proof.
  intros _ Hj Hc Hd.
  destruct (normalizePresentation_returns m creds Hj Hc Hd) as (p & Hp & Hr).
  eexists. split; [exact Hr|].
  rewrite !lookup_with_proof by done.
  rewrite !(presentationSteps_lookup _ _ _ _ _ Hp) by done.
  split; [|split; [|split]].
  - unfold presentationPrefix. rewrite !contextStep_lookup by done.
    unfold presentationTypeStep. by lk.
  - unfold presentationPrefix, contextStep. by lk.
  - unfold presentationPrefix, contextStep. by lk.
  - destruct (presentationSteps_inv _ _ _ _ Hp) as (r1 & r2 & E1 & E2 & ->).
    assert (H2 : r2 !! "vp"
      = delete_prop "@context" <$> (delete_prop "type" <$>
          (delete_prop "verifiableCredential" <$> m !! "vp"))).
    { rewrite (expirationStep_lookup _ _ _ _ _ E2) by done.
      rewrite (issuanceStep_lookup _ _ _ _ _ E1) by done.
      unfold presentationPrefix. rewrite contextStep_envelope by done.
      unfold presentationTypeStep. rewrite lookup_alter_eq. lk.
      rewrite presentationIdStep_lookup, verifierStep_lookup, holderStep_lookup by done.
      unfold embedStep. rewrite lookup_alter_eq. by lk. }
    unfold dropEmpty, prop, get. rewrite H2.
    destruct (m !! "vp") as [v|]; cbn; [|done].
    case_match; [by rewrite lookup_delete_eq | by rewrite H2].
Qed.


(** X25 (lines 272 and 369-373). In presentation normalization, under
    the same conditions and for an input with no own property
    [__proto__] in any of its objects, every property that the blocks
    do not handle is as in the input, and the result's [proof] is the
    input's, or the empty object when the input has none. *)
Theorem X25_normalize_presentation_other_fields (m : obj) (creds : list obj) (k : string) :
  k ∉ ["verifiableCredential"; "vp"; "holder"; "iss"; "verifier"; "aud"; "id"; "jti";
       "type"; "@context"; "context"; "issuanceDate"; "nbf"; "iat"; "expirationDate"; "exp";
       "proof"] ->
  protoFree (VObj m) = true ->
  truthy (get (prop m "proof") "jwt") = false ->
  Forall2 (fun c n => snd (normalizeCredential host c) = Return n)
    (List.filter notEmpty (entriesOf (VObj m))) creds ->
  datesConvert host (VObj m) = true ->
  exists r,
    snd (normalizePresentation host (VObj m)) = Return r
    /\ r !! k = m !! k
    /\ r !! "proof" = Some (default (VObj ∅) (m !! "proof")).
Proof.
  intros Hk _ Hj Hc Hd. split_names Hk.
  destruct (normalizePresentation_returns m creds Hj Hc Hd) as (p & Hp & Hr).
  eexists. split; [exact Hr|].
  assert (Hpre : forall k, k ≠ "verifiableCredential" -> k ≠ "vp" -> k ≠ "holder" ->
            k ≠ "iss" -> k ≠ "verifier" -> k ≠ "aud" -> k ≠ "id" -> k ≠ "jti" ->
            k ≠ "type" -> k ≠ "@context" -> k ≠ "context" ->
            presentationPrefix (VObj m) creds m !! k = m !! k).
  { intros. unfold presentationPrefix.
    by rewrite contextStep_lookup, presentationTypeStep_lookup, presentationIdStep_lookup,
      verifierStep_lookup, holderStep_lookup, embedStep_lookup. }
  split.
  - rewrite lookup_with_proof by done.
    rewrite (presentationSteps_lookup _ _ _ _ _ Hp) by done. by apply Hpre.
  - rewrite lookup_union, lookup_singleton_eq.
    rewrite (presentationSteps_lookup _ _ _ _ _ Hp) by done. rewrite Hpre by done.
    by destruct (m !! "proof").
Qed.

(** *** [transformPresentationInput] *)








(** A presentation that carries a JWT proof (lines 366-368). *)
Lemma snd_normalizePresentation_jwt (m : obj) :
  truthy (get (prop m "proof") "jwt") = true ->
  snd (normalizePresentation host (VObj m))
  = match decodeJWT host (get (prop m "proof") "jwt") with
    | None => Throw (TypeError "unknown presentation format")
    | Some payload =>
        r <- snd (normalizeJwtPresentationPayload host payload);;
        Return (<["proof" := prop m "proof"]> r)
    end.
Proof.
  intros Hj. unfold normalizePresentation, normalizePresentationValue.
  fold (prop m "proof"). rewrite Hj. cbn [snd]. unfold normalizeJwtPresentation.
  destruct (decodeJWT host _) as [payload|]; [|done].
  destruct (snd (normalizeJwtPresentationPayload host payload)) as [r| |]; cbn [bind];
    try done.
  by rewrite insert_insert_eq.
Qed.

(** X30 (lines 331-345, 354-357 and 366-368). What
    [normalizePresentation] returns for a compact JWT is what the
    decoded payload normalizes to with the proof
    [{type: DEFAULT_JWT_PROOF_TYPE, jwt}], and normalizing that result
    again decodes the same JWT and returns the same presentation. *)
Theorem X30_normalize_presentation_jwt (s : string) (r : obj) :
  s ≠ EmptyString ->
  JWT_FORMAT host s = true ->
  snd (normalizePresentation host (VStr s)) = Return r ->
  (exists payload p,
     decodeJWT host (VStr s) = Some payload
     /\ snd (normalizeJwtPresentationPayload host payload) = Return p
     /\ r = <["proof" := VObj {[ "type" := VStr DEFAULT_JWT_PROOF_TYPE; "jwt" := VStr s ]}]> p)
  /\ snd (normalizePresentation host (VObj r)) = Return r.
Proof.
  intros Hs Hf Hr. cbn [normalizePresentation snd] in Hr.
  rewrite normalizePresentationString_unfold, Hf in Hr.
  unfold normalizeJwtPresentation in Hr.
  destruct (decodeJWT host (VStr s)) as [payload|] eqn:Hd; [|done].
  destruct (snd (normalizeJwtPresentationPayload host payload)) as [p| |] eqn:Hp;
    cbn [bind] in Hr; try done.
  injection Hr as <-. split.
  { by exists payload, p. }
  set (J := <["jwt" := VStr s]> _).
  assert (HJ : prop (<["proof" := VObj J]> p) "proof" = VObj J)
    by (unfold prop, get; by lk).
  assert (Hj : get (VObj J) "jwt" = VStr s) by (unfold get, J; by lk).
  rewrite snd_normalizePresentation_jwt; rewrite HJ, Hj; [|by destruct s].
  rewrite Hd, Hp. by cbn [bind].
Qed.

End PresentationFacts.

(** ** The further properties at concrete inputs *)

Lemma X1_witness :
  Proto.deepCopy (VObj {[ "type" := VArr [VStr "A"; VNull];
                          "credentialSubject" := VObj {[ "id" := VStr "did:x" ]} ]})
  = Proto.plain (VObj {[ "type" := VArr [VStr "A"; VNull];
                         "credentialSubject" := VObj {[ "id" := VStr "did:x" ]} ]})
  /\ Proto.deepCopy (VObj {[ "__proto__" := VObj {[ "type" := VStr "Admin" ]};
                             "name" := VStr "Ann" ]})
     = Proto.CObj (Some (Proto.CObj None {[ "type" := Proto.CStr "Admin" ]}))
         {[ "name" := Proto.CStr "Ann" ]}.
Proof.
  split; [|by_vm].
  destruct (X1_deepCopy_equal
              (VObj {[ "type" := VArr [VStr "A"; VNull];
                       "credentialSubject" := VObj {[ "id" := VStr "did:x" ]} ]}))
    as [_ H].
  apply H. by_vm.
Defined.

Lemma X2_witness :
  let o : obj := {[ "id" := VStr "did:a"; "url" := VUndefined; "name" := VNull ]} in
  cleanUndefined o !! "url" = None /\ cleanUndefined o !! "name" = Some VNull.
Proof.
  intros o. destruct (X2_cleanUndefined_keys o) as [Hk _].
  split; (etrans; [apply Hk | by_vm]).
Defined.

Lemma X3_witness :
  exists l,
    JS.union2 (VArr [VStr "A"; VNull; VStr "B"]) (VStr "A") = VArr l
    /\ VStr "B" ∈ l /\ VNull ∉ l.
Proof.
  destruct (X3_union_entries (VArr [VStr "A"; VNull; VStr "B"]) (VStr "A"))
    as (l & Hl & Hin & _).
  exists l. split; [exact Hl|]. split.
  - apply Hin. split; [|reflexivity]. left. cbn [JS.asArray]. rewrite !elem_of_cons. tauto.
  - intros [_ H]%Hin. discriminate.
Defined.

Lemma X4_witness :
  exists r,
    snd (normalizeJwtCredentialPayload nullHost
           (VObj {[ "type" := VArr [VStr "A"; VNull; VStr "B"];
                    "vc" := VObj {[ "type" := VArr [VStr "B"; VStr "C"] ]} ]}))
    = Return r
    /\ r !! "type" = Some (VArr [VStr "A"; VStr "B"; VStr "C"]).
Proof.
  destruct (X4_normalize_types nullHost
              {[ "type" := VArr [VStr "A"; VNull; VStr "B"];
                 "vc" := VObj {[ "type" := VArr [VStr "B"; VStr "C"] ]} ]}
              ltac:(by_vm) ltac:(by_vm)) as (r & Hr & H).
  exists r. split; [exact Hr | exact_vm H].
Defined.

Lemma X5_witness :
  exists r,
    snd (normalizeJwtCredentialPayload nullHost
           (VObj {[ "context" := VStr "c1"; "@context" := VArr [VStr "c2"; VStr "c1"];
                    "vc" := VObj {[ "@context" := VArr [VStr "c3"] ]} ]}))
    = Return r
    /\ r !! "@context" = Some (VArr [VStr "c1"; VStr "c2"; VStr "c3"])
    /\ r !! "context" = None.
Proof.
  destruct (X5_normalize_contexts nullHost
              {[ "context" := VStr "c1"; "@context" := VArr [VStr "c2"; VStr "c1"];
                 "vc" := VObj {[ "@context" := VArr [VStr "c3"] ]} ]}
              ltac:(by_vm)) as (r & Hr & H).
  exists r. split; [exact Hr | exact_vm H].
Defined.

Lemma X6_witness :
  exists r,
    snd (normalizeJwtCredentialPayload nullHost (VObj {[ "jti" := VStr "urn:uuid:1" ]}))
    = Return r
    /\ r !! "id" = Some (VStr "urn:uuid:1") /\ r !! "jti" = None.
Proof.
  destruct (X6_normalize_jti_to_id nullHost {[ "jti" := VStr "urn:uuid:1" ]}
              ltac:(by_vm) ltac:(by_vm))
    as (r & Hr & H).
  exists r. split; [exact Hr | exact_vm H].
Defined.


Lemma X8_witness :
  exists r,
    snd (normalizeJwtCredentialPayload nullHost
           (VObj {[ "vc" := VObj {[ "type" := VArr [VStr "A"];
                                   "credentialStatus" := VObj {[ "id" := VStr "s" ]} ]} ]}))
    = Return r
    /\ r !! "vc" = Some (VObj {[ "credentialStatus" := VObj {[ "id" := VStr "s" ]} ]}).
Proof.
  destruct (X8_normalize_envelope nullHost
              {[ "vc" := VObj {[ "type" := VArr [VStr "A"];
                                "credentialStatus" := VObj {[ "id" := VStr "s" ]} ]} ]}
              ltac:(by_vm) ltac:(by_vm)) as (r & Hr & H).
  exists r. split; [exact Hr | exact_vm H].
Defined.


Lemma X10_witness :
  exists r,
    snd (normalizeJwtCredentialPayload nullHost (VObj legacyAttestation)) = Return r
    /\ r !! "claim" = None /\ r !! "iat" = None /\ r !! "vc" = None
    /\ r !! "credentialSubject" = Some (VObj {[ "id" := VStr "did:x" ]})
    /\ r !! "issuanceDate" = Some (VStr "2020-09-13T12:26:40.000Z")
    /\ r !! "nbf" = Some (VNum 1600000000).
Proof.
  destruct (X10_normalize_legacy nullHost legacyAttestation ltac:(by_vm) ltac:(by_vm))
    as (r & Hr & Hc & Hi & Hv & Hs & Hd).
  assert (Hd' : (exists s, Return (A := string) "2020-09-13T12:26:40.000Z" = Return s
                   /\ r !! "issuanceDate" = Some (VStr s))
                /\ r !! "nbf" = Some (VNum 1600000000)) by exact_vm Hd.
  destruct Hd' as [(s & [= <-] & His) Hn].
  exists r. split; [exact Hr|]. split; [exact Hc|]. split; [exact Hi|].
  split; [exact Hv|]. split; [exact_vm Hs|]. split; [exact His | exact Hn].
Defined.

Lemma X11_witness :
  exists r,
    snd (normalizeCredential nullHost
           (VObj {[ "sub" := VStr "did:x"; "evidence" := VArr [VStr "doc"] ]})) = Return r
    /\ r !! "proof" = Some (VObj ∅)
    /\ r !! "evidence" = Some (VArr [VStr "doc"]).
Proof.
  destruct (X11_normalize_other_fields nullHost
              {[ "sub" := VStr "did:x"; "evidence" := VArr [VStr "doc"] ]}
              ltac:(by_vm) ltac:(by_vm) ltac:(by_vm)) as (r & Hr & Hp & Hk).
  exists r. split; [exact Hr|]. split; [exact_vm Hp|].
  etrans; [apply Hk; not_in_names | by_vm].
Defined.

Lemma X12_witness :
  snd (normalizeCredential demoHost
         (VObj {[ "proof" := VObj {[ "jwt" := VStr demoJwt; "created" := VStr "today" ]};
                  "type" := VArr [VStr "Ignored"] ]}))
  = Return {[ "credentialSubject" := VObj {[ "id" := VStr "did:x"; "degree" := VStr "BA" ]};
              "issuer" := VObj {[ "id" := VStr "did:y" ]};
              "type" := VArr [VStr "VerifiableCredential"];
              "@context" := VArr [VStr "https://www.w3.org/2018/credentials/v1"];
              "issuanceDate" := VStr "2020-09-13T12:26:40.000Z";
              "proof" := VObj {[ "jwt" := VStr demoJwt; "created" := VStr "today" ]} ]}.
Proof.
  destruct (X12_normalize_jwt_proof demoHost
              {[ "proof" := VObj {[ "jwt" := VStr demoJwt; "created" := VStr "today" ]};
                 "type" := VArr [VStr "Ignored"] ]} ∅ ltac:(by_vm) ltac:(by_vm)
              ltac:(intros payload Hp;
                    assert (Hd : Some demoPayload = Some payload) by exact_vm Hp;
                    injection Hd as <-; by_vm)) as [H _].
  etrans; [exact H | by_vm].
Defined.

Lemma X13_witness :
  exists r,
    snd (normalizeCredential demoHost (VStr demoJwt)) = Return r
    /\ r !! "proof" = Some (VObj {[ "type" := VStr "JwtProof2020"; "jwt" := VStr demoJwt ]})
    /\ snd (normalizeCredential demoHost (VObj r)) = Return r.
Proof.
  exists {[ "credentialSubject" := VObj {[ "id" := VStr "did:x"; "degree" := VStr "BA" ]};
            "issuer" := VObj {[ "id" := VStr "did:y" ]};
            "type" := VArr [VStr "VerifiableCredential"];
            "@context" := VArr [VStr "https://www.w3.org/2018/credentials/v1"];
            "issuanceDate" := VStr "2020-09-13T12:26:40.000Z";
            "proof" := VObj {[ "type" := VStr "JwtProof2020"; "jwt" := VStr demoJwt ]} ]}.
  split; [by_vm|].
  apply (X13_normalize_jwt_idempotent demoHost demoJwt);
    [discriminate | by_vm | | by_vm].
  intros payload Hp.
  assert (Hd : Some demoPayload = Some payload) by exact_vm Hp.
  injection Hd as <-. by_vm.
Defined.





Lemma X18_witness :
  exists t,
    transformCredentialInput nullHost jsonLdCredential = Return t
    /\ t !! "nbf" = Some (VNum 1609459200)
    /\ snd (normalizeCredential nullHost (VObj t))
       = Return (<["proof" := VObj ∅]> jsonLdCredential).
Proof.
  assert (Hcan : canonicalCredential jsonLdCredential).
  { constructor.
    - exists {[ "id" := VStr "did:w"; "name" := VStr "Ann" ]}. split; by_vm.
    - exists {[ "id" := VStr "did:z" ]}. split; by_vm.
    - exists [VStr "https://www.w3.org/2018/credentials/v1"]. split; by_vm.
    - exists [VStr "VerifiableCredential"]. split; by_vm.
    - right. exists 1609459200%Z. split; [done|]. split; [lia | by_vm].
    - left. by_vm.
    - by_vm.
    - repeat constructor; by_vm. }
  destruct (X18_credential_round_trip nullHost jsonLdCredential Hcan ltac:(by_vm))
    as (t & Ht & Hn).
  exists t. split; [exact Ht|]. split; [|etrans; [exact Hn | by_vm]].
  assert (Ht' : transformCredentialInput nullHost jsonLdCredential
                = Return {[ "sub" := VStr "did:w"; "iss" := VStr "did:z";
                            "nbf" := VNum 1609459200;
                            "vc" := VObj {[ "credentialSubject" := VObj {[ "name" := VStr "Ann" ]};
                                            "@context" := VArr [VStr "https://www.w3.org/2018/credentials/v1"];
                                            "type" := VArr [VStr "VerifiableCredential"] ]} ]})
    by by_vm.
  rewrite Ht' in Ht. injection Ht as <-. by_vm.
Defined.

Lemma X19_witness :
  snd (normalizePresentation nullHost (VStr "not a presentation"))
  = Throw (TypeError "unknown presentation format").
Proof.
  apply (X19_unknown_presentation_format nullHost "not a presentation").
  left. split; by_vm.
Defined.

Lemma X20_witness :
  snd (normalizePresentation nullHost
         (VObj {[ "verifiableCredential" := VArr [VObj jsonLdCredential; VStr "garbage"] ]}))
  = Throw (TypeError "unknown credential format").
Proof.
  apply (X20_normalize_presentation_entry_throws nullHost
           {[ "verifiableCredential" := VArr [VObj jsonLdCredential; VStr "garbage"] ]}
           [VObj jsonLdCredential] (VStr "garbage") [VUndefined]
           [<["proof" := VObj ∅]> jsonLdCredential]).
  - by_vm.
  - by_vm.
  - change (Forall2 (fun c n => snd (normalizeCredential nullHost c) = Return n)
              [VObj jsonLdCredential] [<["proof" := VObj ∅]> jsonLdCredential]).
    constructor; [by_vm | constructor].
  - reflexivity.
  - by_vm.
Defined.



Lemma X23_witness :
  exists r,
    snd (normalizePresentation nullHost
           (VObj {[ "type" := VStr "VerifiablePresentation";
                    "vp" := VObj {[ "type" := VArr [VStr "VerifiablePresentation"; VStr "Login"];
                                    "@context" := VArr [VStr "c1"] ]} ]})) = Return r
    /\ r !! "type" = Some (VArr [VStr "VerifiablePresentation"; VStr "Login"])
    /\ r !! "@context" = Some (VArr [VStr "c1"])
    /\ r !! "context" = None
    /\ r !! "vp" = None.
Proof.
  destruct (X23_normalize_presentation_types_contexts nullHost
              {[ "type" := VStr "VerifiablePresentation";
                 "vp" := VObj {[ "type" := VArr [VStr "VerifiablePresentation"; VStr "Login"];
                                 "@context" := VArr [VStr "c1"] ]} ]} []
              ltac:(by_vm) ltac:(by_vm) ltac:(no_entries)
              ltac:(by_vm)) as (r & Hr & Ht & Hc & Hx & Hv).
  exists r. split; [exact Hr|]. split; [exact_vm Ht|]. split; [exact_vm Hc|].
  split; [exact Hx | exact_vm Hv].
Defined.


Lemma X25_witness :
  exists r,
    snd (normalizePresentation nullHost (VObj {[ "nonce" := VStr "n-1" ]})) = Return r
    /\ r !! "nonce" = Some (VStr "n-1") /\ r !! "proof" = Some (VObj ∅).
Proof.
  destruct (X25_normalize_presentation_other_fields nullHost {[ "nonce" := VStr "n-1" ]} []
              "nonce" ltac:(not_in_names)
              ltac:(by_vm) ltac:(by_vm) ltac:(no_entries)
              ltac:(by_vm)) as (r & Hr & Hk & Hp).
  exists r. split; [exact Hr|]. split; [exact_vm Hk | exact_vm Hp].
Defined.





Lemma X30_witness :
  exists r,
    snd (normalizePresentation demoHost (VStr demoJwt)) = Return r
    /\ r !! "holder" = Some (VStr "did:y")
    /\ r !! "proof" = Some (VObj {[ "type" := VStr "JwtProof2020"; "jwt" := VStr demoJwt ]})
    /\ snd (normalizePresentation demoHost (VObj r)) = Return r.
Proof.
  exists {[ "holder" := VStr "did:y"; "sub" := VStr "did:x";
            "vc" := VObj {[ "@context" := VArr [VStr "https://www.w3.org/2018/credentials/v1"];
                            "type" := VArr [VStr "VerifiableCredential"];
                            "credentialSubject" := VObj {[ "degree" := VStr "BA" ]} ]};
            "verifiableCredential" := VArr []; "type" := VArr []; "@context" := VArr [];
            "issuanceDate" := VStr "2020-09-13T12:26:40.000Z";
            "proof" := VObj {[ "type" := VStr "JwtProof2020"; "jwt" := VStr demoJwt ]} ]}.
  split; [by_vm|]. split; [by_vm|]. split; [by_vm|].
  apply (X30_normalize_presentation_jwt demoHost demoJwt); [discriminate | by_vm | by_vm].
Defined.
